(** * Spork benchmark scripts: the merge evaluation engine

    A shallow embedding of [scripts/benchmark/evaluate.py] and
    [scripts/benchmark/javautils.py], with the properties of the evaluation
    engine stated and proved over it.

    Conventions of the embedding:
    - a Python [str] is a Rocq [string] holding the UTF-8 encoding of the
      text; a Python [bytes] is a Rocq [string] of raw bytes; [decode] is
      the strict UTF-8 decoder the scripts ask for with
      [sys.getdefaultencoding()];
    - a [pathlib.Path] is the list of its parts, an absolute path starting
      with the part ["/"];
    - everything the scripts do to the outside (sub-processes, the file
      system, the logger) is an event appended to a history; what the
      outside answers is given by a [World], whose answers may depend on the
      whole history so far;
    - Python exceptions are values of type [Exn]; a function that may raise
      lives in the monad [M]. *)

From Stdlib Require Import String Ascii List ZArith Bool Arith Lia.
Import ListNotations.
Local Open Scope string_scope.
Local Open Scope nat_scope.

(** ** Python strings *)

Module PyStr.

Definition nl : ascii := "010"%char.
Definition dquote : ascii := "034"%char.

(** [s.startswith(pre)] *)
Definition startswith (s pre : string) : bool := String.prefix pre s.

(** [s.split(sep)] for a one-character separator: never the empty list. *)
Fixpoint split_on (sep : ascii) (s : string) : list string :=
  match s with
  | EmptyString => [EmptyString]
  | String c rest =>
      if Ascii.eqb c sep then EmptyString :: split_on sep rest
      else match split_on sep rest with
           | h :: t => String c h :: t
           | [] => [String c EmptyString]
           end
  end.

(** [s.rfind(c)], [None] standing for -1. *)
Fixpoint rfind (c : ascii) (s : string) : option nat :=
  match s with
  | EmptyString => None
  | String a rest =>
      match rfind c rest with
      | Some i => Some (S i)
      | None => if Ascii.eqb a c then Some 0 else None
      end
  end.

(** The characters of a UTF-8 string: every lead byte with the continuation
    bytes (10xxxxxx) that follow it. *)
Definition is_continuation (c : ascii) : bool :=
  let n := nat_of_ascii c in (128 <=? n) && (n <? 192).

Definition starts_with_continuation (s : string) : bool :=
  match s with
  | String c _ => is_continuation c
  | EmptyString => false
  end.

Fixpoint utf8_chars (s : string) : list string :=
  match s with
  | EmptyString => []
  | String c rest =>
      match utf8_chars rest with
      | ch :: chs =>
          if starts_with_continuation ch then String c ch :: chs
          else String c EmptyString :: ch :: chs
      | [] => [String c EmptyString]
      end
  end.

Definition bytes_of (l : list nat) : string :=
  string_of_list_ascii (map ascii_of_nat l).

(** The characters for which [str.isspace] holds, UTF-8 encoded:
    U+0009..U+000D, U+001C..U+0020, U+0085, U+00A0, U+1680,
    U+2000..U+200A, U+2028, U+2029, U+202F, U+205F, U+3000. *)
Definition whitespace : list string :=
  map bytes_of
    ([[9]; [10]; [11]; [12]; [13]; [28]; [29]; [30]; [31]; [32];
      [194; 133]; [194; 160]; [225; 154; 128]]
     ++ map (fun k => [226; 128; 128 + k]) (seq 0 11)
     ++ [[226; 128; 168]; [226; 128; 169]; [226; 128; 175];
         [226; 129; 159]; [227; 128; 128]]).

Definition isspace (ch : string) : bool := existsb (String.eqb ch) whitespace.

Fixpoint dropwhile {A} (p : A -> bool) (l : list A) : list A :=
  match l with
  | [] => []
  | x :: rest => if p x then dropwhile p rest else l
  end.

(** [s.rstrip()], [s.lstrip()] and [s.strip()] without argument. *)
Definition rstrip (s : string) : string :=
  String.concat "" (rev (dropwhile isspace (rev (utf8_chars s)))).

Definition lstrip (s : string) : string :=
  String.concat "" (dropwhile isspace (utf8_chars s)).

Definition strip (s : string) : string := rstrip (lstrip s).

(** Truth value of a string: non-empty. *)
Definition truthy (s : string) : bool :=
  match s with EmptyString => false | _ => true end.

(** [bytes.decode("utf-8")], strict: [None] stands for UnicodeDecodeError.
    Well-formed UTF-8 as in the Unicode standard, table 3-7: no overlong
    forms, no surrogates, nothing above U+10FFFF. *)
Definition in_range (lo hi : nat) (c : ascii) : bool :=
  let n := nat_of_ascii c in (lo <=? n) && (n <=? hi).

Fixpoint utf8_valid_bytes (l : list ascii) : bool :=
  match l with
  | [] => true
  | b0 :: rest =>
      let n := nat_of_ascii b0 in
      if n <? 128 then utf8_valid_bytes rest
      else
        let tail1 lo hi :=
          match rest with
          | b1 :: r => in_range lo hi b1 && utf8_valid_bytes r
          | _ => false
          end in
        let tail2 lo hi :=
          match rest with
          | b1 :: b2 :: r =>
              in_range lo hi b1 && is_continuation b2 && utf8_valid_bytes r
          | _ => false
          end in
        let tail3 lo hi :=
          match rest with
          | b1 :: b2 :: b3 :: r =>
              in_range lo hi b1 && is_continuation b2 && is_continuation b3
              && utf8_valid_bytes r
          | _ => false
          end in
        if in_range 194 223 b0 then tail1 128 191
        else if n =? 224 then tail2 160 191
        else if in_range 225 236 b0 then tail2 128 191
        else if n =? 237 then tail2 128 159
        else if in_range 238 239 b0 then tail2 128 191
        else if n =? 240 then tail3 144 191
        else if in_range 241 243 b0 then tail3 128 191
        else if n =? 244 then tail3 128 143
        else false
  end.

Definition decode (b : string) : option string :=
  if utf8_valid_bytes (list_ascii_of_string b) then Some b else None.

End PyStr.

(** ** pathlib paths *)

Module PyPath.

Definition Path := list string.

Definition path_eqb (p q : Path) : bool :=
  if list_eq_dec String.string_dec p q then true else false.

(** [pathlib.Path(s)] for one string segment.  The root of an absolute
    path is the part ["/"], or ["//"] for a string that begins with exactly
    two slashes. *)
Definition of_string (s : string) : Path :=
  let parts :=
    filter (fun p => negb (String.eqb p "" || String.eqb p "."))
           (PyStr.split_on "/"%char s) in
  if PyStr.startswith s "//" && negb (PyStr.startswith s "///")
  then "//" :: parts
  else if PyStr.startswith s "/" then "/" :: parts else parts.

(** [p / q]: an absolute right operand replaces the left one. *)
Definition join (p q : Path) : Path :=
  match q with
  | "/" :: _ => q
  | "//" :: _ => q
  | _ => (p ++ q)%list
  end.

(** [pathlib.Path] applied to several string segments. *)
Definition of_segments (segs : list string) : Path :=
  fold_left (fun acc s => join acc (of_string s)) segs [].

(** [str(p)] *)
Definition to_string (p : Path) : string :=
  match p with
  | [] => "."
  | "/" :: rest => "/" ++ String.concat "/" rest
  | "//" :: rest => "//" ++ String.concat "/" rest
  | _ => String.concat "/" p
  end.

(** [p.name]: the last part, empty for the root and for the empty path. *)
Definition name (p : Path) : string :=
  match rev p with
  | [] => ""
  | x :: _ => if String.eqb x "/" || String.eqb x "//" then "" else x
  end.

(** The index of the dot that starts the suffix of a name, if there is one:
    [i = name.rfind(".")] with [0 < i < len(name) - 1]. *)
Definition suffix_index (nm : string) : option nat :=
  match PyStr.rfind "."%char nm with
  | Some i => if (0 <? i) && (i <? String.length nm - 1) then Some i else None
  | None => None
  end.

(** [p.suffix] *)
Definition suffix (p : Path) : string :=
  let nm := name p in
  match suffix_index nm with
  | Some i => String.substring i (String.length nm - i) nm
  | None => ""
  end.

(** [p.stem] *)
Definition stem (p : Path) : string :=
  let nm := name p in
  match suffix_index nm with
  | Some i => String.substring 0 i nm
  | None => nm
  end.

(** [p.parents]: the logical ancestors, nearest first; the last one is the
    root for an absolute path and the empty path for a relative one. *)
Fixpoint proper_prefixes (p : Path) : list Path :=
  match p with
  | [] => []
  | x :: rest => [] :: map (cons x) (proper_prefixes rest)
  end.

Definition parents (p : Path) : list Path :=
  match p with
  | "/" :: rest => rev (map (cons "/") (proper_prefixes rest))
  | "//" :: rest => rev (map (cons "//") (proper_prefixes rest))
  | _ => rev (proper_prefixes p)
  end.

(** [p.relative_to(base)]: [None] stands for the ValueError raised when
    [base] is not a prefix of [p]; an absolute path is not relative to the
    empty path. *)
Fixpoint strip_parts (p base : Path) : option Path :=
  match base with
  | [] => Some p
  | b :: bs =>
      match p with
      | x :: xs => if String.eqb x b then strip_parts xs bs else None
      | [] => None
      end
  end.

Definition relative_to (p base : Path) : option Path :=
  match base, p with
  | [], "/" :: _ => None
  | [], "//" :: _ => None
  | _, _ => strip_parts p base
  end.

(** The order of paths: the lexicographic order of their parts, each part
    compared as a string. *)
Fixpoint leb (p q : Path) : bool :=
  match p, q with
  | [], _ => true
  | _ :: _, [] => false
  | x :: xs, y :: ys =>
      match String.compare x y with
      | Lt => true
      | Gt => false
      | Eq => leb xs ys
      end
  end.

Fixpoint insert_sorted (p : Path) (l : list Path) : list Path :=
  match l with
  | [] => [p]
  | q :: rest => if leb p q then p :: l else q :: insert_sorted p rest
  end.

(** [sorted(l)] on paths. *)
Definition sorted (l : list Path) : list Path :=
  fold_right insert_sorted [] l.

(** A list of paths is in order: each path is below the next one. *)
Inductive in_order : list Path -> Prop :=
| in_order_nil : in_order []
| in_order_one p : in_order [p]
| in_order_cons p q l :
    leb p q = true -> in_order (q :: l) -> in_order (p :: q :: l).

End PyPath.

Import PyPath.

(** [int(s)] on a string that carries no surrounding whitespace: an optional
    sign, then decimal digits, single underscores allowed between digits.
    [None] stands for ValueError.  (Python also accepts the decimal digits of
    other scripts; the tools read here print ASCII.) *)
Module PyInt.

Definition digit_of (c : ascii) : option Z :=
  let n := nat_of_ascii c in
  if (48 <=? n) && (n <=? 57) then Some (Z.of_nat (n - 48)) else None.

Fixpoint parse_digits (s : string) (acc : Z) (after_digit : bool) : option Z :=
  match s with
  | EmptyString => if after_digit then Some acc else None
  | String c rest =>
      match digit_of c with
      | Some d => parse_digits rest (10 * acc + d)%Z true
      | None =>
          if Ascii.eqb c "_"%char && after_digit
          then parse_digits rest acc false
          else None
      end
  end.

Definition int_of_string (s : string) : option Z :=
  match s with
  | String "-"%char rest => option_map Z.opp (parse_digits rest 0%Z false)
  | String "+"%char rest => parse_digits rest 0%Z false
  | _ => parse_digits s 0%Z false
  end.

End PyInt.

(** ** Exceptions, events and the outside world *)

Inductive ExnClass :=
| RuntimeError
| ValueError
| IndexError
| FileExistsError
| UnboundLocalError
| UnicodeDecodeError
| OtherError (name : string).

Record Exn := mkExn { exn_class : ExnClass; exn_args : list string }.

Inductive Level := DEBUG | INFO | WARNING | ERROR.

(** What [subprocess.run] hands back when the child ran to its end. *)
Record CompletedProcess := mkProc {
  returncode : Z;
  stdout : string;
  stderr : string
}.

Inductive RunOutcome :=
| Completed (proc : CompletedProcess)
| RunRaised (e : Exn).

(** What the scripts do to the outside.  [LOGGER.exception] is a log record
    of level ERROR that carries the exception being handled. *)
Inductive Event :=
| EvRun (cmd : list string) (timeout : option nat)
| EvLog (lvl : Level) (msg : string) (exc_info : option Exn)
| EvMkdir (p : Path)
| EvCopy (src dst : Path)
| EvCopyNormalized (p : Path).

Definition History := list Event.

(** The answers of the outside, each a function of everything done so far.
    The last three belong to [fileutils], which is outside these files. *)
Record World := mkWorld {
  subprocess_run : History -> list string -> option nat -> RunOutcome;
  is_file : History -> Path -> bool;
  path_exists : History -> Path -> bool;
  mkdir_parents : History -> Path -> option Exn;
  shutil_copy : History -> Path -> Path -> option Exn;
  readlines : History -> Path -> Exn + list string;
  rglob : History -> Path -> string -> list Path;
  glob : History -> Path -> string -> list Path;
  copy_normalized : History -> Path -> Exn + Path;
  extract_commit_sha : History -> Path -> Exn + string;
  extract_blob_sha : History -> Path -> Exn + string
}.

(** ** The monad of the scripts: a history and exceptions *)

Definition M (A : Type) : Type := History -> (Exn + A) * History.

Definition ret {A} (x : A) : M A := fun h => (inr x, h).

Definition raise {A} (e : Exn) : M A := fun h => (inl e, h).

Definition bind {A B} (m : M A) (k : A -> M B) : M B :=
  fun h =>
    match m h with
    | (inr x, h') => k x h'
    | (inl e, h') => (inl e, h')
    end.

(** [try: m except: handler], the bare [except] that catches everything. *)
Definition try_except {A} (m : M A) (handler : Exn -> M A) : M A :=
  fun h =>
    match m h with
    | (inr x, h') => (inr x, h')
    | (inl e, h') => handler e h'
    end.

Definition emit (ev : Event) : M unit := fun h => (inr tt, (h ++ [ev])%list).

(** Ask the outside a question whose answer may be an exception. *)
Definition ask {A} (q : History -> Exn + A) : M A := fun h => (q h, h).

(** Ask the outside a question that always has an answer. *)
Definition observe {A} (q : History -> A) : M A := fun h => (inr (q h), h).

Definition lift_option {A} (e : Exn) (o : option A) : M A :=
  match o with
  | Some x => ret x
  | None => raise e
  end.

Declare Scope py_scope.
Delimit Scope py_scope with py.
Notation "x <- m ;; k" := (bind m (fun x => k))
  (at level 61, m at next level, right associativity) : py_scope.
Notation "m ;;; k" := (bind m (fun _ => k))
  (at level 61, right associativity) : py_scope.
Local Open Scope py_scope.

Definition log (lvl : Level) (msg : string) : M unit := emit (EvLog lvl msg None).

(** [LOGGER.exception(msg)] inside a handler for [e]. *)
Definition log_exception (msg : string) (e : Exn) : M unit :=
  emit (EvLog ERROR msg (Some e)).

(** [b.decode(sys.getdefaultencoding())] *)
Definition decode (b : string) : M string :=
  lift_option
    (mkExn UnicodeDecodeError ["utf-8"; "invalid start byte or continuation"])
    (PyStr.decode b).

(** Monadic list comprehension with a condition that has effects. *)
Fixpoint filterM {A} (p : A -> M bool) (l : list A) : M (list A) :=
  match l with
  | [] => ret []
  | x :: rest =>
      keep <- p x ;;
      tl <- filterM p rest ;;
      ret (if keep then x :: tl else tl)
  end.

(** ** The containers the engine reads and builds ([containers.py]) *)

(** Modelled from the spec: [containers.py] is outside these files; the
    specification gives the outcome tags as SUCCESS (the tool terminated
    cleanly and produced an artifact worth comparing), FAILURE (the tool
    crashed or timed out) and ABORTED (the tool declined to merge). *)
Inductive MergeOutcome := SUCCESS | FAILURE | ABORTED.

Definition outcome_eqb (a b : MergeOutcome) : bool :=
  match a, b with
  | SUCCESS, SUCCESS | FAILURE, FAILURE | ABORTED, ABORTED => true
  | _, _ => false
  end.

(** [containers.py] is outside these files: each container has the
    attributes the functions below read or set, under their names.  The
    runtime of a merge is copied as it is; its unit plays no role. *)
Module MergeResult.
Record t := mk {
  merge_dir : Path;
  merge_file : Path;
  base_file : Path;
  left_file : Path;
  right_file : Path;
  expected_file : Path;
  merge_cmd : string;
  outcome : MergeOutcome;
  runtime : Z
}.
End MergeResult.

(** The keyword arguments [evaluation_result] builds an evaluation from. *)
Module MergeEvaluation.
Record t := mk {
  merge_dir : Path;
  merge_cmd : string;
  outcome : MergeOutcome;
  gumtree_diff_size : Z;
  gumtree_diff_size_norm : Z;
  git_diff_size : Z;
  git_diff_size_norm : Z;
  conflict_size : Z;
  num_conflicts : Z;
  runtime : Z;
  merge_commit : string;
  base_blob : string;
  left_blob : string;
  right_blob : string;
  expected_blob : string
}.
End MergeEvaluation.

Module ExpectedClassfile.
Record t := mk {
  copy_abspath : Path;
  copy_basedir : Path;
  original_relpath : Path
}.
End ExpectedClassfile.

Module ClassfilePair.
Record t := mk {
  expected : ExpectedClassfile.t;
  replayed : Path
}.
End ClassfilePair.

(** ** [evaluate.py] *)

Module Evaluate.

Definition START_CONFLICT : string := "<<<<<<<".
Definition MID_CONFLICT : string := "=======".
Definition END_CONFLICT : string := ">>>>>>>".

Record MergeConflict := mkConflict {
  left : list string;
  right : list string
}.

Definition pretty_print_conflict (c : MergeConflict) : string :=
  let newline := String PyStr.nl "" in
  (START_CONFLICT ++ newline ++ String.concat "" (left c) ++ MID_CONFLICT
   ++ newline ++ String.concat "" (right c) ++ END_CONFLICT)%string.

(** The amount of conflicting lines. *)
Definition num_lines (c : MergeConflict) : nat :=
  length (left c) + length (right c).

(** [list(itertools.takewhile(p, it))] on a shared iterator [it]: the lines
    taken, and what is left in the iterator afterwards.  The first line that
    fails [p] is consumed as well. *)
Fixpoint takewhile (p : string -> bool) (it : list string)
  : list string * list string :=
  match it with
  | [] => ([], [])
  | x :: rest =>
      if p x then
        let (taken, remaining) := takewhile p rest in (x :: taken, remaining)
      else ([], rest)
  end.

(** [_extract_conflict], reading from the iterator [lines]. *)
Definition _extract_conflict (lines : list string)
  : MergeConflict * list string :=
  let (l, after_mid) :=
    takewhile (fun line => negb (PyStr.startswith line MID_CONFLICT)) lines in
  let (r, after_end) :=
    takewhile (fun line => negb (PyStr.startswith line END_CONFLICT))
              after_mid in
  (mkConflict l r, after_end).

(** The [while True] loop over the iterator; every turn consumes at least
    one line, so a fuel of the number of lines is never used up. *)
Fixpoint scan (fuel : nat) (lines : list string) : list MergeConflict :=
  match fuel with
  | 0 => []
  | S fuel' =>
      match lines with
      | [] => []
      | line :: rest =>
          if PyStr.startswith line START_CONFLICT then
            let (c, rest') := _extract_conflict rest in
            c :: scan fuel' rest'
          else scan fuel' rest
      end
  end.

(** [extract_conflicts] once the lines of the file are read. *)
Definition conflicts_of_lines (lines : list string) : list MergeConflict :=
  scan (length lines) lines.

Section WithWorld.

Variable w : World.

(** [subprocess.run(cmd, ...)]: the call is recorded, then the child's end
    or the exception of the call itself comes back. *)
Definition run (cmd : list string) (timeout : option nat)
  : M CompletedProcess :=
  fun h =>
    match subprocess_run w h cmd timeout with
    | Completed proc => (inr proc, (h ++ [EvRun cmd timeout])%list)
    | RunRaised e => (inl e, (h ++ [EvRun cmd timeout])%list)
    end.

Definition gumtree_edit_script (base_file dest_file : Path)
  : M (list string) :=
  let cmd := ["gumtree"; "diff"; to_string base_file; to_string dest_file] in
  proc <- run cmd None ;;
  if negb (returncode proc =? 0)%Z then
    err <- decode (stderr proc) ;;
    raise (mkExn RuntimeError ["GumTree diff exited non-zero"; err])
  else
    output <- decode (stdout proc) ;;
    ret (filter
           (fun line =>
              negb (PyStr.startswith line "Match")
              && PyStr.truthy (PyStr.strip line))
           (PyStr.split_on PyStr.nl output)).

Definition git_diff : list string :=
  ["git"; "diff"; "--ignore-cr-at-eol"; "--ignore-all-space";
   "--ignore-blank-lines"; "--ignore-space-change"; "--no-index"; "-U0"].

Definition git_diff_edit_script (base_file dest_file : Path)
    (strip_metadata : bool) : M (list string) :=
  let cmd := (git_diff ++ [to_string base_file; to_string dest_file])%list in
  proc <- run cmd None ;;
  if (returncode proc =? 0)%Z then
    (* zero exit code means there were no differences *)
    ret []
  else
    output <- decode (stdout proc) ;;
    let lines := PyStr.split_on PyStr.nl (PyStr.rstrip output) in
    let lines :=
      if strip_metadata && negb (length lines =? 0) then
        (* first 4 lines are metadata, lines starting with @@ is metadata *)
        filter (fun line => negb (PyStr.startswith line "@@")) (skipn 4 lines)
      else lines in
    ret lines.

Definition normalized_comparison (base_file dest_file : Path) : M Z :=
  let cmd := ["spork"; "compare"; to_string base_file; to_string dest_file] in
  proc <- run cmd None ;;
  if negb (returncode proc =? 0)%Z then
    err <- decode (stderr proc) ;;
    log WARNING err ;;;
    ret (-1)%Z
  else
    output <- decode (stdout proc) ;;
    let lines :=
      map PyStr.strip
          (filter (fun line => PyStr.truthy (PyStr.strip line))
                  (PyStr.split_on PyStr.nl output)) in
    last_line <- lift_option (mkExn IndexError ["list index out of range"])
                             (List.last (map Some lines) None) ;;
    lift_option
      (mkExn ValueError ["invalid literal for int() with base 10"; last_line])
      (PyInt.int_of_string last_line).

Definition extract_conflicts (path : Path) : M (list MergeConflict) :=
  lines <- ask (fun h => readlines w h path) ;;
  ret (conflicts_of_lines lines).

(** The local variables of [evaluation_result] that hold the metrics; a
    name that was never assigned is unbound. *)
Record Locals := mkLocals {
  git_diff_size_norm : option Z;
  gumtree_diff_size : option Z;
  git_diff_size : option Z;
  gumtree_diff_size_norm : option Z;
  conflict_size : option Z;
  num_conflicts : option Z
}.

(** Reading a local variable: UnboundLocalError when it is unbound. *)
Definition read_local (name : string) (v : option Z) : M Z :=
  lift_option
    (mkExn UnboundLocalError
       [("local variable '" ++ name ++ "' referenced before assignment")%string])
    v.

Definition sum_num_lines (conflicts : list MergeConflict) : nat :=
  fold_left (fun acc c => acc + num_lines c) conflicts 0.

(** Gather evaluation results from the provided merge result. *)
Definition evaluation_result (merge_result : MergeResult.t)
    (base_merge_dir : Path) : M MergeEvaluation.t :=
  (* git_diff_size_norm = -1; gumtree_diff_size = -1; git_diff_size = -1;
     gumtree_diff_size = -1; conflict_size = 0; num_conflicts = 0 *)
  let locals :=
    {| git_diff_size_norm := Some (-1)%Z;
       gumtree_diff_size := Some (-1)%Z;
       git_diff_size := Some (-1)%Z;
       gumtree_diff_size_norm := None;
       conflict_size := Some 0%Z;
       num_conflicts := Some 0%Z |} in
  let expected := MergeResult.expected_file merge_result in
  let replayed := MergeResult.merge_file merge_result in
  locals <-
    (if outcome_eqb (MergeResult.outcome merge_result) SUCCESS then
       (* extract conflicts from the original file *)
       conflicts <- extract_conflicts replayed ;;
       expected_norm <- (fun h => (copy_normalized w h expected,
                                   (h ++ [EvCopyNormalized expected])%list)) ;;
       replayed_norm <- (fun h => (copy_normalized w h replayed,
                                   (h ++ [EvCopyNormalized replayed])%list)) ;;
       gd <- git_diff_edit_script expected replayed false ;;
       gdn <- git_diff_edit_script expected_norm replayed_norm false ;;
       gt <- gumtree_edit_script expected replayed ;;
       gtn <- gumtree_edit_script expected_norm replayed_norm ;;
       ret {| git_diff_size_norm := Some (Z.of_nat (length gdn));
              gumtree_diff_size := Some (Z.of_nat (length gt));
              git_diff_size := Some (Z.of_nat (length gd));
              gumtree_diff_size_norm := Some (Z.of_nat (length gtn));
              conflict_size := Some (Z.of_nat (sum_num_lines conflicts));
              num_conflicts := Some (Z.of_nat (length conflicts)) |}
     else ret locals) ;;
  merge_dir <- lift_option
                 (mkExn ValueError
                    [(to_string (MergeResult.merge_dir merge_result)
                      ++ " is not in the subpath of "
                      ++ to_string base_merge_dir)%string])
                 (relative_to (MergeResult.merge_dir merge_result)
                              base_merge_dir) ;;
  merge_commit <- ask (fun h => extract_commit_sha w h merge_dir) ;;
  (* the keyword arguments, evaluated in the order they are written *)
  gt <- read_local "gumtree_diff_size" (gumtree_diff_size locals) ;;
  gtn <- read_local "gumtree_diff_size_norm" (gumtree_diff_size_norm locals) ;;
  gd <- read_local "git_diff_size" (git_diff_size locals) ;;
  gdn <- read_local "git_diff_size_norm" (git_diff_size_norm locals) ;;
  cs <- read_local "conflict_size" (conflict_size locals) ;;
  nc <- read_local "num_conflicts" (num_conflicts locals) ;;
  base_blob <- ask (fun h => extract_blob_sha w h
                               (MergeResult.base_file merge_result)) ;;
  left_blob <- ask (fun h => extract_blob_sha w h
                               (MergeResult.left_file merge_result)) ;;
  right_blob <- ask (fun h => extract_blob_sha w h
                                (MergeResult.right_file merge_result)) ;;
  expected_blob <- ask (fun h => extract_blob_sha w h
                                   (MergeResult.expected_file merge_result)) ;;
  ret {| MergeEvaluation.merge_dir := merge_dir;
         MergeEvaluation.merge_cmd := MergeResult.merge_cmd merge_result;
         MergeEvaluation.outcome := MergeResult.outcome merge_result;
         MergeEvaluation.gumtree_diff_size := gt;
         MergeEvaluation.gumtree_diff_size_norm := gtn;
         MergeEvaluation.git_diff_size := gd;
         MergeEvaluation.git_diff_size_norm := gdn;
         MergeEvaluation.conflict_size := cs;
         MergeEvaluation.num_conflicts := nc;
         MergeEvaluation.runtime := MergeResult.runtime merge_result;
         MergeEvaluation.merge_commit := merge_commit;
         MergeEvaluation.base_blob := base_blob;
         MergeEvaluation.left_blob := left_blob;
         MergeEvaluation.right_blob := right_blob;
         MergeEvaluation.expected_blob := expected_blob |}.

End WithWorld.

End Evaluate.

(** ** Generators

    A generator is run to its end by its consumer: the values it yields, in
    order, and the exception that ended it, if one did. *)

Definition Gen (Y : Type) : Type := History -> (list Y * option Exn) * History.

(** [for x in items: ... yield body(x)] *)
Fixpoint for_yield {A Y} (body : A -> M Y) (items : list A) : Gen Y :=
  fun h =>
    match items with
    | [] => (([], None), h)
    | x :: rest =>
        match body x h with
        | (inr y, h') =>
            let '((ys, e), h'') := for_yield body rest h' in
            ((y :: ys, e), h'')
        | (inl e, h') => (([], Some e), h')
        end
    end.

(** ** [javautils.py] *)

Module Javautils.

(** What [locate_classfiles] returns: its early return is a bare list, its
    last line a pair of a list and a package name. *)
Inductive Located :=
| BareList (classfiles : list Path)
| ListAndPackage (classfiles : list Path) (pkg : string).

Section WithWorld.

Variable w : World.

Let run := Evaluate.run w.

(** Extract the package statement from a .java or .class file. *)
Definition extract_java_package (path : Path) : M string :=
  started <-
    try_except
      (proc <- run ["pkgextractor"; to_string path] (Some 60) ;;
       ret (Some proc))
      (fun e => log_exception "error running pkgextractor" e ;;; ret None) ;;
  match started with
  | None => ret ""
  | Some proc =>
      if negb (returncode proc =? 0)%Z then
        out <- decode (stdout proc) ;;
        log DEBUG out ;;;
        raise (mkExn RuntimeError
                 [("pkgextractor failed to extract package from "
                   ++ to_string path)%string])
      else
        out <- decode (stdout proc) ;;
        ret (PyStr.strip out)
  end.

Definition copy_to_pkg_dir (classfile : Path) (pkg : string) (basedir : Path)
  : M Path :=
  let pkg_relpath := of_segments (PyStr.split_on "."%char pkg) in
  let pkg_abspath := join basedir pkg_relpath in
  (fun h => (match mkdir_parents w h pkg_abspath with
             | Some e => inl e
             | None => inr tt
             end, (h ++ [EvMkdir pkg_abspath])%list)) ;;;
  let classfile_dst := join pkg_abspath (of_string (name classfile)) in
  present <- observe (fun h => path_exists w h classfile_dst) ;;
  if (present : bool) then
    raise (mkExn FileExistsError
             [("Classfile " ++ to_string classfile_dst
               ++ " all ready exists!")%string])
  else
    (fun h => (match shutil_copy w h classfile classfile_dst with
               | Some e => inl e
               | None => inr tt
               end, (h ++ [EvCopy classfile classfile_dst])%list)) ;;;
    ret classfile_dst.

(** Compare two classfiles with normalized bytecode equality using
    sootdiff: [Some true] if the files are equal, [Some false] if they are
    not, [None] if the comparison could not be performed. *)
Definition compare_classfiles (pair : ClassfilePair.t) (eval_dir : Path)
    (merge_driver : string) : M (option bool) :=
  let expected := ExpectedClassfile.copy_abspath (ClassfilePair.expected pair) in
  let replayed := ClassfilePair.replayed pair in
  if negb (String.eqb (name expected) (name replayed)) then
    raise (mkExn ValueError
             [("Cannot compare two classfiles from different classes: expected="
               ++ name expected ++ ", replayed=" ++ name replayed)%string])
  else
    expected_pkg <- extract_java_package expected ;;
    replayed_pkg <- extract_java_package replayed ;;
    let basedir :=
      ExpectedClassfile.copy_basedir (ClassfilePair.expected pair) in
    let expected_basedir := join basedir (of_string "expected") in
    let replayed_basedir := join basedir (of_string merge_driver) in
    copy_to_pkg_dir replayed replayed_pkg replayed_basedir ;;;
    if negb (String.eqb expected_pkg replayed_pkg) then ret (Some false)
    else
      let qualname := (expected_pkg ++ "." ++ stem expected)%string in
      finished <-
        try_except
          (proc <- run ["sootdiff"; "-qname"; qualname;
                        "-reffile"; to_string expected_basedir;
                        "-otherfile"; to_string replayed_basedir]
                       (Some 30) ;;
           out <- decode (stdout proc) ;;
           log INFO out ;;;
           ret (Some proc))
          (fun e => log_exception "error running sootdiff" e ;;; ret None) ;;
      match finished with
      | None => ret None
      | Some proc => ret (Some (returncode proc =? 0)%Z)
      end.

(** Check that the provided classfile comes from a source file with the
    correct name. *)
Definition _from_source_name (classfile : Path) (src_name : string) : M bool :=
  started <-
    try_except
      (proc <- run ["javap"; to_string classfile] (Some 5) ;;
       ret (Some proc))
      (fun e =>
         log_exception "error analyzing classfile source" e ;;; ret None) ;;
  match started with
  | None => ret false
  | Some proc =>
      out <- decode (stdout proc) ;;
      let line := PyStr.strip (hd "" (PyStr.split_on PyStr.nl out)) in
      ret (String.eqb line
             ("Compiled from " ++ String PyStr.dquote src_name
              ++ String PyStr.dquote "")%string)
  end.

Definition _closest_pomfile (path : Path) : M Path :=
  let fix search (candidates : list Path) : M Path :=
    match candidates with
    | [] =>
        raise (mkExn ValueError
                 [(to_string path
                   ++ " has no parent directory with a pomfile")%string])
    | parent :: rest =>
        found <- observe (fun h => glob w h parent "pom.xml") ;;
        match found with
        | [] => search rest
        | _ :: _ => ret (join parent (of_string "pom.xml"))
        end
    end in
  search (parents path).

(** Locate the classfiles corresponding to the source file. *)
Definition locate_classfiles (src basedir : Path) : M Located :=
  src_there <- observe (fun h => is_file w h src) ;;
  if negb src_there then
    log WARNING
        (to_string src ++ " is not in " ++ to_string basedir
         ++ ". This is typically caused by "
         ++ "renaming that Git cannot detect")%string ;;;
    ret (BareList [])
  else
    let nm := stem src in
    (* nested types have this prefix *)
    let sub_classfile_prefix := (nm ++ "$")%string in
    files <- observe (fun h => rglob w h basedir "*.class") ;;
    matches <-
      filterM
        (fun file =>
           if String.eqb (stem file) nm
              || PyStr.startswith (stem file) sub_classfile_prefix
           then _from_source_name file (name src)
           else ret false)
        files ;;
    expected_pkg <- extract_java_package src ;;
    classfiles <-
      filterM
        (fun classfile =>
           pkg <- extract_java_package classfile ;;
           if String.eqb pkg expected_pkg then
             pom1 <- _closest_pomfile classfile ;;
             pom2 <- _closest_pomfile src ;;
             ret (path_eqb pom1 pom2)
           else ret false)
        matches ;;
    (match classfiles with
     | [] => log WARNING
                 ("Found no classfiles corresponding to " ++ to_string src)%string
     | _ :: _ => ret tt
     end) ;;;
    ret (ListAndPackage (sorted classfiles) expected_pkg).

(** For each classfile in the classfiles list, the pair with the path it
    would have under the replayed basedir. *)
Definition generate_classfile_pairs
    (expected_classfiles : list ExpectedClassfile.t) (replayed_basedir : Path)
  : list ClassfilePair.t :=
  map (fun expected =>
         ClassfilePair.mk expected
           (join replayed_basedir (ExpectedClassfile.original_relpath expected)))
      expected_classfiles.

(** Remove duplicate checkcast instructions from a classfile and overwrite
    the original file. *)
Definition remove_duplicate_checkcasts (path : Path) : M unit :=
  if negb (String.eqb (suffix path) ".class") then
    raise (mkExn ValueError [("Not a .class file: " ++ to_string path)%string])
  else
    proc <- run ["duplicate-checkcast-remover"; to_string path] (Some 60) ;;
    if negb (returncode proc =? 0)%Z then
      raise (mkExn RuntimeError
               [("Failed to run duplicate-checkast-remover on "
                 ++ to_string path)%string])
    else ret tt.

(** The body of the loop of [compare_compiled_bytecode], up to its yield. *)
Definition compare_pair (eval_dir : Path) (merge_driver : string)
    (pair : ClassfilePair.t) : M (ClassfilePair.t * option bool) :=
  let replayed := ClassfilePair.replayed pair in
  there <- observe (fun h => is_file w h replayed) ;;
  if negb there then
    log WARNING
        ("No replayed classfile corresponding to "
         ++ name (ExpectedClassfile.copy_abspath (ClassfilePair.expected pair)))%string ;;;
    ret (pair, Some false)
  else
    log INFO
        ("Removing duplicate checkcasts from replayed revision of "
         ++ name replayed)%string ;;;
    remove_duplicate_checkcasts replayed ;;;
    log INFO ("Comparing " ++ name replayed ++ " revisions ...")%string ;;;
    equal <- compare_classfiles pair eval_dir merge_driver ;;
    log INFO
        (name replayed ++ " "
         ++ match equal with
            | Some true => "equal"
            | _ => "not equal"
            end)%string ;;;
    ret (pair, equal).

(** Run the bytecode comparison evaluation: a generator of
    (classfile pair, equal) tuples. *)
Definition compare_compiled_bytecode (replayed_compile_basedir : Path)
    (expected_classfiles : list ExpectedClassfile.t) (eval_dir : Path)
    (merge_driver : string) : Gen (ClassfilePair.t * option bool) :=
  let classfile_pairs :=
    generate_classfile_pairs expected_classfiles replayed_compile_basedir in
  for_yield (compare_pair eval_dir merge_driver) classfile_pairs.

End WithWorld.

End Javautils.

(** ** Conflict-marked documents

    The shape of a text with conflict regions, against which the conflict
    parser is stated: plain lines and regions, a region being a start
    marker line, the left lines, a mid marker line, the right lines and an
    end marker line. *)

Module Document.

Import Evaluate.

Inductive Segment :=
| Plain (line : string)
| Region (start_marker : string) (left_lines : list string)
         (mid_marker : string) (right_lines : list string)
         (end_marker : string).

Definition render_segment (s : Segment) : list string :=
  match s with
  | Plain line => [line]
  | Region st l mid r en => (st :: l ++ mid :: r ++ [en])%list
  end.

(** The lines of the document, in order. *)
Definition render (doc : list Segment) : list string :=
  flat_map render_segment doc.

(** The markers are where the shape says and nowhere a reader of the shape
    could be misled: no plain line opens a region, no left line is a mid
    marker, no right line is an end marker. *)
Definition well_formed_segment (s : Segment) : bool :=
  match s with
  | Plain line => negb (PyStr.startswith line START_CONFLICT)
  | Region st l mid r en =>
      PyStr.startswith st START_CONFLICT
      && forallb (fun x => negb (PyStr.startswith x MID_CONFLICT)) l
      && PyStr.startswith mid MID_CONFLICT
      && forallb (fun x => negb (PyStr.startswith x END_CONFLICT)) r
      && PyStr.startswith en END_CONFLICT
  end.

Definition well_formed (doc : list Segment) : bool :=
  forallb well_formed_segment doc.

(** The regions of the document as conflicts, in document order. *)
Fixpoint regions (doc : list Segment) : list MergeConflict :=
  match doc with
  | [] => []
  | Plain _ :: rest => regions rest
  | Region _ l _ r _ :: rest => mkConflict l r :: regions rest
  end.

Definition is_region (s : Segment) : bool :=
  match s with Region _ _ _ _ _ => true | Plain _ => false end.

(** N, the number of conflict regions. *)
Definition count_regions (doc : list Segment) : nat :=
  length (filter is_region doc).

Definition both_sides_nonempty (c : MergeConflict) : bool :=
  negb (length (left c) =? 0) && negb (length (right c) =? 0).

(** The region has at least one line on each side. *)
Definition sides_nonempty (s : Segment) : bool :=
  match s with
  | Plain _ => true
  | Region _ l _ r _ => negb (length l =? 0) && negb (length r =? 0)
  end.

End Document.

(** ** Comparison of evaluation sets ([analyze.py]) *)

Module Analyze.

(** Modelled from the spec: [analyze.py], which holds the class
    [Evaluations], is outside these files.  The specification gives an
    evaluation set as an ordered collection of evaluation records, keyed
    implicitly by merge directory and merge command. *)
Definition Evaluations := list MergeEvaluation.t.

(** Modelled from the spec: two records belong to the same scenario when
    they agree on the key, merge directory and merge command. *)
Definition same_scenario (a b : MergeEvaluation.t) : bool :=
  path_eqb (MergeEvaluation.merge_dir a) (MergeEvaluation.merge_dir b)
  && String.eqb (MergeEvaluation.merge_cmd a) (MergeEvaluation.merge_cmd b).

(** Modelled from the spec: the record of the scenario of [r] in a set, the
    first one in the order of the collection. *)
Definition record_for (r : MergeEvaluation.t) (set : Evaluations)
  : option MergeEvaluation.t :=
  find (same_scenario r) set.

(** Modelled from the spec: the governing ordering on the records of one
    scenario.  SUCCESS beats non-SUCCESS regardless of metrics; among two
    SUCCESS outcomes, smaller-or-equal tree-structured normalized diff size
    is required. *)
Definition no_worse (candidate reference : MergeEvaluation.t) : bool :=
  match MergeEvaluation.outcome candidate,
        MergeEvaluation.outcome reference with
  | SUCCESS, SUCCESS =>
      (MergeEvaluation.gumtree_diff_size_norm candidate
       <=? MergeEvaluation.gumtree_diff_size_norm reference)%Z
  | SUCCESS, _ => true
  | _, SUCCESS => false
  | _, _ => true
  end.

(** Modelled from the spec: [Evaluations.at_least_as_good_as], missing with
    [analyze.py].  For every scenario present in both sets the candidate
    must not be strictly worse on the governing ordering; a record present
    only in the reference set (missing from the candidate) counts as a
    regression. *)
Definition at_least_as_good_as (candidate reference : Evaluations) : bool :=
  forallb
    (fun r =>
       match record_for r candidate with
       | Some c => no_worse c r
       | None => false
       end)
    reference.

(** The governing ordering, said directly: the candidate record is strictly
    worse when the reference succeeded and it did not, or when both
    succeeded and its normalized tree diff is larger. *)
Definition strictly_worse (candidate reference : MergeEvaluation.t) : Prop :=
  (MergeEvaluation.outcome reference = SUCCESS
   /\ MergeEvaluation.outcome candidate <> SUCCESS)
  \/ (MergeEvaluation.outcome candidate = SUCCESS
      /\ MergeEvaluation.outcome reference = SUCCESS
      /\ (MergeEvaluation.gumtree_diff_size_norm candidate
          > MergeEvaluation.gumtree_diff_size_norm reference)%Z).

(** A scenario of the reference is missing from the candidate. *)
Definition missing_from (candidate : Evaluations) (r : MergeEvaluation.t)
  : Prop :=
  record_for r candidate = None.

End Analyze.

(** ** Histories: which tools were invoked *)

Definition invokes (tool : string) (ev : Event) : bool :=
  match ev with
  | EvRun (t :: _) _ => String.eqb t tool
  | _ => false
  end.

(** The invocations of [tool] recorded in a history. *)
Definition invocations (tool : string) (h : History) : list Event :=
  filter (invokes tool) h.

(** The computation [m] adds to the history only events that satisfy [ok],
    whatever it returns or raises. *)
Definition adds_only {A} (ok : Event -> bool) (m : M A) : Prop :=
  forall h, exists evs, snd (m h) = (h ++ evs)%list /\ forallb ok evs = true.

Definition not_sootdiff (ev : Event) : bool := negb (invokes "sootdiff" ev).

(** ** Concrete worlds, for running the functions on examples *)

Module Scenarios.

(** A line of text with its line end. *)
Definition line (s : string) : string := (s ++ String PyStr.nl "")%string.

Definition exited (code : Z) (out err : string) : RunOutcome :=
  Completed (mkProc code out err).

(** A world that answers sub-process calls by [answer], has exactly the
    files [files], reads [text] from every file, and in which every other
    operation succeeds. *)
Definition world_of (answer : list string -> RunOutcome)
    (files : Path -> bool) (text : list string) : World :=
  {| subprocess_run := fun _ cmd _ => answer cmd;
     is_file := fun _ p => files p;
     path_exists := fun _ p => files p;
     mkdir_parents := fun _ _ => None;
     shutil_copy := fun _ _ _ => None;
     readlines := fun _ _ => inr text;
     rglob := fun _ _ _ => [];
     glob := fun _ _ _ => [];
     copy_normalized := fun _ p => inr p;
     extract_commit_sha := fun _ _ => inr "4f2a9c1";
     extract_blob_sha := fun _ _ => inr "9e107d9" |}.

(** *** Worlds in which the tools fail *)

(** Every tool exits with status 0 and prints nothing; no file exists. *)
Definition quiet : World :=
  world_of (fun _ => exited 0 "" "") (fun _ => false) [].

(** Every tool exits with status 1 and a readable complaint. *)
Definition failing_tools : World :=
  world_of (fun _ => exited 1 "" (line "error: cannot parse input"))
           (fun _ => true) [].

(** Every tool exits with status 1, its complaint holding the byte 0xFF,
    which no UTF-8 text contains. *)
Definition garbled_complaint : World :=
  world_of (fun _ => exited 1 "" (PyStr.bytes_of [255; 10]))
           (fun _ => true) [].

(** Every sub-process runs into its timeout. *)
Definition timeout_expired : Exn :=
  mkExn (OtherError "TimeoutExpired") ["timed out after 60 seconds"].

Definition timing_out : World :=
  world_of (fun _ => RunRaised timeout_expired) (fun _ => true) [].

(** *** File merges *)

Definition merge_dir : Path := ["/"; "merges"; "4f2a9c1"; "Main"].
Definition expected_java : Path := (merge_dir ++ ["Expected.java"])%list.
Definition replayed_java : Path := (merge_dir ++ ["spork.java"])%list.
Definition merged_file : Path := replayed_java.

Definition file_merge (outcome : MergeOutcome) (runtime : Z) : MergeResult.t :=
  {| MergeResult.merge_dir := merge_dir;
     MergeResult.merge_file := replayed_java;
     MergeResult.base_file := (merge_dir ++ ["Base.java"])%list;
     MergeResult.left_file := (merge_dir ++ ["Left.java"])%list;
     MergeResult.right_file := (merge_dir ++ ["Right.java"])%list;
     MergeResult.expected_file := expected_java;
     MergeResult.merge_cmd := "spork";
     MergeResult.outcome := outcome;
     MergeResult.runtime := runtime |}.

(** A file merge that the tool failed on. *)
Definition failed_merge : MergeResult.t := file_merge FAILURE 1200.

(** A file merge that the tool finished. *)
Definition conflicting_merge : MergeResult.t := file_merge SUCCESS 850.

(** A merged file with one conflict region whose left side is empty: the
    left revision deleted the line the right revision changed. *)
Definition deletion_conflict : list Document.Segment :=
  [Document.Plain (line "class A {");
   Document.Region (line "<<<<<<< HEAD") []
                   (line "=======")
                   [line "  int x = 2;"]
                   (line ">>>>>>> feature");
   Document.Plain (line "}")].

(** A merged file with one conflict region, two left lines, one right. *)
Definition two_one_conflict : list Document.Segment :=
  [Document.Region (line "<<<<<<< HEAD") [line "a"; line "b"]
                   (line "=======") [line "c"]
                   (line ">>>>>>> feature")].

(** The diff of a file in which one line changed: four lines of file
    header, a hunk header, the line removed and the line added. *)
Definition changed_line_output : string :=
  (line "diff --git a/Expected.java b/spork.java"
   ++ line "index 3b18e51..9d07aa0 100644"
   ++ line "--- a/Expected.java"
   ++ line "+++ b/spork.java"
   ++ line "@@ -2 +2 @@ class A {"
   ++ line "-  int x = 1;"
   ++ line "+  int x = 2;")%string.

Definition changed_line : World :=
  world_of (fun cmd =>
              match cmd with
              | "git" :: _ => exited 1 changed_line_output ""
              | _ => exited 0 "" ""
              end)
           (fun _ => true) [].

(** The diff utility cannot read one of the files: it complains on its
    standard error, prints nothing on its standard output and exits with
    status 1. *)
Definition unreadable_file : World :=
  world_of (fun cmd =>
              match cmd with
              | "git" :: _ =>
                  exited 1 "" (line "error: Could not access 'spork.java'")
              | _ => exited 0 "" ""
              end)
           (fun _ => true) [].

(** The merged file holds [two_one_conflict]; the diff utility reports one
    changed line, the tree diff one update among its matches. *)
Definition conflicting_merge_world : World :=
  world_of (fun cmd =>
              match cmd with
              | "git" :: _ => exited 1 changed_line_output ""
              | "gumtree" :: _ =>
                  exited 0
                    (line "Match CompilationUnit(15) to CompilationUnit(15)"
                     ++ line "Match SimpleName: x(7) to SimpleName: x(7)"
                     ++ line "Update NumberLiteral: 1(8) to 2")%string ""
              | _ => exited 0 "" ""
              end)
           (fun _ => true) (Document.render two_one_conflict).

(** *** Classfiles *)

(** The expected classfile of [org.example.Main], and the pair it makes
    with the classfile of the replayed build. *)
Definition main_expected : ExpectedClassfile.t :=
  {| ExpectedClassfile.copy_abspath :=
       ["/"; "eval"; "expected"; "org"; "example"; "Main.class"];
     ExpectedClassfile.copy_basedir := ["/"; "eval"];
     ExpectedClassfile.original_relpath :=
       ["target"; "classes"; "org"; "example"; "Main.class"] |}.

Definition repo : Path := ["/"; "repo"].

Definition main_pair : ClassfilePair.t :=
  ClassfilePair.mk main_expected
    (join repo (ExpectedClassfile.original_relpath main_expected)).

(** A pair whose two classfiles have different base names. *)
Definition mismatched_pair : ClassfilePair.t :=
  ClassfilePair.mk main_expected
    ["/"; "repo"; "target"; "classes"; "org"; "example"; "Other.class"].

(** The package utility prints [org.example] for every file and the
    equivalence tool exits with status [code]. *)
Definition same_package (code : Z) (files : Path -> bool) : World :=
  world_of (fun cmd =>
              match cmd with
              | "pkgextractor" :: _ => exited 0 (line "org.example") ""
              | "sootdiff" :: _ => exited code (line "comparing classes") ""
              | _ => exited 0 "" ""
              end)
           files [].

(** The package utility prints [org.example] for the staged expected copy
    and [org.moved] for anything else. *)
Definition moved_package (files : Path -> bool) : World :=
  world_of (fun cmd =>
              match cmd with
              | ["pkgextractor"; p] =>
                  if String.eqb p "/eval/expected/org/example/Main.class"
                  then exited 0 (line "org.example") ""
                  else exited 0 (line "org.moved") ""
              | _ => exited 0 "" ""
              end)
           files [].

(** As [same_package] with exit status 0, but the equivalence tool prints
    a byte that is not UTF-8. *)
Definition garbled_report : World :=
  world_of (fun cmd =>
              match cmd with
              | "pkgextractor" :: _ => exited 0 (line "org.example") ""
              | "sootdiff" :: _ => exited 0 (PyStr.bytes_of [255; 10]) ""
              | _ => exited 0 "" ""
              end)
           (fun _ => false) [].

End Scenarios.

(** * The conflict parser on any text *)

Module ConflictText.

Import Evaluate.

Definition newline : string := String PyStr.nl "".

(** The lines that [pretty_print_conflict] strings together: the start
    marker, the left lines, the mid marker, the right lines, the end
    marker; the lines of the two sides carry their own line ends. *)
Definition printed_lines (c : MergeConflict) : list string :=
  ((START_CONFLICT ++ newline)%string
   :: left c ++ (MID_CONFLICT ++ newline)%string
   :: right c ++ [END_CONFLICT])%list.

(** The text of a file as a file opened in text mode hands it over: in
    universal newlines mode a carriage return, with or without a line feed
    after it, becomes one line feed. *)
Definition cr : ascii := "013"%char.

Fixpoint universal_newlines (s : string) : string :=
  match s with
  | EmptyString => EmptyString
  | String c rest =>
      if Ascii.eqb c cr then
        String PyStr.nl
               (match rest with
                | String c' rest' =>
                    if Ascii.eqb c' PyStr.nl then universal_newlines rest'
                    else universal_newlines rest
                | EmptyString => EmptyString
                end)
      else String c (universal_newlines rest)
  end.

(** The lines of a text, each with its line feed; the last line has none
    when the text does not end with one, and the empty text has no line. *)
Fixpoint keepends (s : string) : list string :=
  match s with
  | EmptyString => []
  | String c rest =>
      if Ascii.eqb c PyStr.nl then String c EmptyString :: keepends rest
      else
        match keepends rest with
        | [] => [String c EmptyString]
        | line :: more => String c line :: more
        end
  end.

(** [file.readlines()] on a file opened in text mode whose decoded content
    is [text]. *)
Definition text_lines (text : string) : list string :=
  keepends (universal_newlines text).

(** A line as [readlines] gives it when a line end closes it: it ends
    with a line feed and holds no other line feed and no carriage
    return. *)
Fixpoint whole_line (s : string) : bool :=
  match s with
  | EmptyString => false
  | String c rest =>
      if Ascii.eqb c PyStr.nl then String.eqb rest EmptyString
      else negb (Ascii.eqb c cr) && whole_line rest
  end.

Definition opens_conflict (line : string) : bool :=
  PyStr.startswith line START_CONFLICT.

Definition is_mid (line : string) : bool :=
  PyStr.startswith line MID_CONFLICT.

Definition is_end (line : string) : bool :=
  PyStr.startswith line END_CONFLICT.

(** The lines a list of conflicts holds, all sides together. *)
Definition total_lines (conflicts : list MergeConflict) : nat :=
  list_sum (map num_lines conflicts).

End ConflictText.

(** * Names of packages and files *)

Module Names.

(** The character [c] occurs in [s]. *)
Fixpoint contains (c : ascii) (s : string) : bool :=
  match s with
  | EmptyString => false
  | String a rest => Ascii.eqb a c || contains c rest
  end.

(** One name of a dotted package name: not empty, without dot or slash. *)
Definition package_segment (s : string) : bool :=
  negb (String.eqb s "")
  && negb (contains "."%char s)
  && negb (contains "/"%char s).

(** A part of a path below the root, as [pathlib] keeps it: not empty, not
    the single dot, without slash. *)
Definition path_part (s : string) : bool :=
  negb (String.eqb s "") && negb (String.eqb s ".")
  && negb (contains "/"%char s).

(** A path as [pathlib] keeps it: parts below an optional root. *)
Definition proper_path (p : Path) : bool :=
  match p with
  | "/" :: rest => forallb path_part rest
  | _ => forallb path_part p
  end.

End Names.

(** * The rest of [evaluate.py] *)

Module EvaluateRun.

(** [for x in items: yield from body(x)]: the generators of the items one
    after the other, up to the first one that an exception ends. *)
Fixpoint for_yield_from {A Y} (body : A -> Gen Y) (items : list A) : Gen Y :=
  fun h =>
    match items with
    | [] => (([], None), h)
    | x :: rest =>
        match body x h with
        | ((ys, Some e), h') => ((ys, Some e), h')
        | ((ys, None), h') =>
            let '((zs, e), h'') := for_yield_from body rest h' in
            ((ys ++ zs)%list, e, h'')
        end
    end.

Section WithWorld.

Variable w : World.

(** [run.run_file_merges] is outside these files.  It is used as a
    generator of merge results, so it is taken as the steps its generator
    goes through for the merge directories and one merge command: each step
    is run when the next merge result is asked for, and gives that result
    or raises. *)
Variable run_file_merges :
  History -> list Path -> string -> list (M MergeResult.t).

(** The body of the inner loop: the next merge result, then its
    evaluation. *)
Definition evaluate_next (base_merge_dir : Path) (step : M MergeResult.t)
  : M MergeEvaluation.t :=
  merge_result <- step ;;
  Evaluate.evaluation_result w merge_result base_merge_dir.

Definition run_and_evaluate (merge_dirs : list Path)
    (merge_commands : list string) (base_merge_dir : Path)
  : Gen MergeEvaluation.t :=
  for_yield_from
    (fun merge_cmd h =>
       for_yield (evaluate_next base_merge_dir)
                 (run_file_merges h merge_dirs merge_cmd) h)
    merge_commands.

End WithWorld.

End EvaluateRun.

(** * The rest of [javautils.py] *)

Module JavautilsBuild.

(** What the functions below ask of the outside beyond a [World]: the
    entries of a directory, whether a path is a directory, and a
    sub-process started in a working directory. *)
Record Outside := mkOutside {
  iterdir : History -> Path -> Exn + list Path;
  is_dir : History -> Path -> bool;
  subprocess_run_in : History -> Path -> list string -> option nat -> RunOutcome
}.

Section WithWorld.

Variable w : World.
Variable o : Outside.

(** [_contains_class_dirs], the helper inside [find_target_directories]:
    the names of the directories among the entries of [path] hold
    [classes] or [test-classes]. *)
Definition _contains_class_dirs (path : Path) : M bool :=
  entries <- ask (fun h => iterdir o h path) ;;
  dirs <- filterM (fun p => observe (fun h => is_dir o h p)) entries ;;
  let contained_dirs := map name dirs in
  ret (existsb (String.eqb "classes") contained_dirs
       || existsb (String.eqb "test-classes") contained_dirs).

(** Find target directories created by Maven. *)
Definition find_target_directories (project_root : Path) : M (list Path) :=
  targets <- observe (fun h => rglob w h project_root "target") ;;
  filterM _contains_class_dirs targets.

(** [subprocess.run(cmd, cwd=workdir, ...)]: recorded as the call of
    [cmd]; the working directory is part of the question to the outside. *)
Definition run_in (workdir : Path) (cmd : list string) (timeout : option nat)
  : M CompletedProcess :=
  fun h =>
    match subprocess_run_in o h workdir cmd timeout with
    | Completed proc => (inr proc, (h ++ [EvRun cmd timeout])%list)
    | RunRaised e => (inl e, (h ++ [EvRun cmd timeout])%list)
    end.

(** Compile the project in workdir with Maven's test-compile command. *)
Definition mvn_compile (workdir : Path) : M (bool * string) :=
  started <-
    try_except
      (proc <- run_in workdir ["mvn"; "clean"; "test-compile"] (Some (3 * 60)) ;;
       ret (Some proc))
      (fun e => log_exception "error compiling project" e ;;; ret None) ;;
  match started with
  | None => ret (false, "")
  | Some proc => ret ((returncode proc =? 0)%Z, stdout proc)
  end.

(** Run the project's test suite. *)
Definition mvn_test (workdir : Path) : M bool :=
  proc <- run_in workdir ["mvn"; "clean"; "test"] (Some (5 * 60)) ;;
  ret (returncode proc =? 0)%Z.

End WithWorld.

End JavautilsBuild.

(** What [_contains_class_dirs] comes to in one state of the outside, for a
    directory that can be listed. *)
Module TargetDirs.

Import JavautilsBuild.

Definition listable (o : Outside) (h : History) (path : Path) : bool :=
  match iterdir o h path with
  | inr _ => true
  | inl _ => false
  end.

Definition holds_class_dirs (o : Outside) (h : History) (path : Path) : bool :=
  match iterdir o h path with
  | inr entries =>
      existsb (fun d => is_dir o h d
                        && (String.eqb "classes" (name d)
                            || String.eqb "test-classes" (name d)))
              entries
  | inl _ => false
  end.

End TargetDirs.

(** * [command.py]: the paths of the metainfo files *)

Module Command.

(** [p.parent]: the root and the empty path are their own parents. *)
Definition parent (p : Path) : Path :=
  match p with
  | [] => []
  | ["/"] => ["/"]
  | ["//"] => ["//"]
  | _ => removelast p
  end.

(** Return the expected path of a merge metainfo file corresponding to the
    base output file. *)
Definition file_merge_metainfo_path (base_output_path : Path) : Path :=
  join (parent base_output_path)
       (of_string (stem base_output_path ++ "_file_merge_metainfo.csv")).

(** Return the expected path of a blob metainfo file corresponding to the
    base output file. *)
Definition blob_metainfo_path (base_output_path : Path) : Path :=
  join (parent base_output_path)
       (of_string (stem base_output_path ++ "_blob_metainfo.csv")).

End Command.

(** * [run_experiments.py]: the selection of merge scenarios *)

Module RunExperiments.

(** What [select_merge_scenarios] does to the outside, in order. *)
Inductive Op :=
| OpReadText (p : Path)
| OpCopy (src dst : Path)
| OpChoice (population : list string) (size : Z)
| OpWriteText (p : Path) (text : string).

(** The answers of the outside, each a function of what was done so far:
    the text of a file as [read_text] hands it over, whether a copy or a
    write raises, and the draw of [np.random.choice] without
    replacement. *)
Record Host := mkHost {
  read_text : list Op -> Path -> Exn + string;
  copy : list Op -> Path -> Path -> option Exn;
  random_choice : list Op -> list string -> Z -> Exn + list string;
  write_text : list Op -> Path -> string -> option Exn
}.

Definition IO (A : Type) : Type := list Op -> (Exn + A) * list Op.

Definition io_ret {A} (x : A) : IO A := fun t => (inr x, t).

Definition io_raise {A} (e : Exn) : IO A := fun t => (inl e, t).

Definition io_bind {A B} (m : IO A) (k : A -> IO B) : IO B :=
  fun t =>
    match m t with
    | (inr x, t') => k x t'
    | (inl e, t') => (inl e, t')
    end.

(** An operation whose answer is a value or an exception. *)
Definition io_ask {A} (op : Op) (q : list Op -> Exn + A) : IO A :=
  fun t => (q t, (t ++ [op])%list).

(** An operation that returns nothing or raises. *)
Definition io_do (op : Op) (q : list Op -> option Exn) : IO unit :=
  fun t =>
    (match q t with Some e => inl e | None => inr tt end, (t ++ [op])%list).

Declare Scope io_scope.
Notation "x <~ m ;; k" := (io_bind m (fun x => k))
  (at level 61, m at next level, right associativity) : io_scope.
Notation "m ~~ k" := (io_bind m (fun _ => k))
  (at level 61, right associativity) : io_scope.
Local Open Scope io_scope.

Definition NUM_SCENARIOS : Z := 1000.
Definition MAX_SCENARIOS_PER_PROJECT : Z := 50.

(** The lines of a text that are not blank: the list the first statement
    of [select_merge_scenarios] builds. *)
Definition non_blank_lines (text : string) : list string :=
  filter (fun line => PyStr.truthy (PyStr.strip line))
         (PyStr.split_on PyStr.nl text).

(** The path of the backup: [path.parent / (path.name + ".bak")]. *)
Definition backup_path (path : Path) : Path :=
  join (Command.parent path) (of_string (name path ++ ".bak")).

Section WithHost.

Variable host : Host.

(** Randomly select a maximum of limit merge scenarios and write them back
    into the file.  Returns the amount of merge scenarios. *)
Definition select_merge_scenarios (merge_scenarios_path : Path) (limit : Z)
  : IO Z :=
  text <~ io_ask (OpReadText merge_scenarios_path)
                 (fun t => read_text host t merge_scenarios_path) ;;
  match non_blank_lines text with
  | [] =>
      io_raise
        (mkExn ValueError
               ["not enough values to unpack (expected at least 1, got 0)"])
  | headers :: scenario_lines =>
      let num_scenarios := Z.of_nat (length scenario_lines) in
      if (num_scenarios <=? limit)%Z then io_ret num_scenarios
      else
        io_do (OpCopy merge_scenarios_path (backup_path merge_scenarios_path))
              (fun t => copy host t merge_scenarios_path
                             (backup_path merge_scenarios_path)) ~~
        random_selection <~
          io_ask (OpChoice scenario_lines limit)
                 (fun t => random_choice host t scenario_lines limit) ;;
        let lines :=
          String.concat (String PyStr.nl "")
                        ([headers] ++ random_selection ++ [""])%list in
        io_do (OpWriteText merge_scenarios_path lines)
              (fun t => write_text host t merge_scenarios_path lines) ~~
        io_ret limit
  end.

End WithHost.

End RunExperiments.

(** * More concrete worlds *)

Module MoreScenarios.

Import Scenarios.

(** The package utility is not installed: calling it raises; the
    equivalence tool exits with status 0. *)
Definition not_installed : Exn :=
  mkExn (OtherError "FileNotFoundError")
        ["No such file or directory: 'pkgextractor'"].

Definition no_package_utility : World :=
  world_of (fun cmd =>
              match cmd with
              | "pkgextractor" :: _ => RunRaised not_installed
              | "sootdiff" :: _ => exited 0 (line "comparing classes") ""
              | _ => exited 0 "" ""
              end)
           (fun _ => false) [].

(** The tree-structured diff utility exits with status 1 and a readable
    complaint, while the distance utility exits with status 0 and prints
    the distance 3. *)
Definition only_gumtree_fails : World :=
  world_of (fun cmd =>
              match cmd with
              | "gumtree" :: _ => exited 1 "" (line "error: cannot parse input")
              | "spork" :: _ => exited 0 (line "3") ""
              | _ => exited 0 "" ""
              end)
           (fun _ => true) [].

(** A second expected classfile, [org.example.Other], and its pair. *)
Definition other_expected : ExpectedClassfile.t :=
  {| ExpectedClassfile.copy_abspath :=
       ["/"; "eval"; "expected"; "org"; "example"; "Other.class"];
     ExpectedClassfile.copy_basedir := ["/"; "eval"];
     ExpectedClassfile.original_relpath :=
       ["target"; "classes"; "org"; "example"; "Other.class"] |}.

Definition other_pair : ClassfilePair.t :=
  ClassfilePair.mk other_expected
    (join repo (ExpectedClassfile.original_relpath other_expected)).

(** The replayed build produced [Main.class] and nothing else. *)
Definition only_main_replayed (p : Path) : bool :=
  path_eqb p (ClassfilePair.replayed main_pair).

(** The replayed build produced [Main.class] only, and the canonicalization
    tool exits with status 1. *)
Definition broken_canonicalization : World :=
  world_of (fun cmd =>
              match cmd with
              | "duplicate-checkcast-remover" :: _ =>
                  exited 1 "" (line "error: cannot parse input")
              | "pkgextractor" :: _ => exited 0 (line "org.example") ""
              | _ => exited 0 "" ""
              end)
           only_main_replayed [].

(** A Maven project: one pomfile at the root of the repository, the source
    file [Main.java] with a nested type, and three classfiles under the
    output directory, two of them compiled from [Main.java]. *)
Definition main_java : Path :=
  ["/"; "repo"; "src"; "main"; "java"; "org"; "example"; "Main.java"].

Definition classes_dir : Path :=
  ["/"; "repo"; "target"; "classes"; "org"; "example"].

Definition compiled_from (src_name : string) : string :=
  (line ("Compiled from " ++ String PyStr.dquote src_name
         ++ String PyStr.dquote "")
   ++ line "public class org.example.Main {")%string.

Definition maven_project : World :=
  {| subprocess_run := fun _ cmd _ =>
       match cmd with
       | ["javap"; p] =>
           if String.eqb p "/repo/target/classes/org/example/Other.class"
           then exited 0 (compiled_from "Other.java") ""
           else exited 0 (compiled_from "Main.java") ""
       | "pkgextractor" :: _ => exited 0 (line "org.example") ""
       | _ => exited 0 "" ""
       end;
     is_file := fun _ _ => true;
     path_exists := fun _ _ => false;
     mkdir_parents := fun _ _ => None;
     shutil_copy := fun _ _ _ => None;
     readlines := fun _ _ => inr [];
     rglob := fun _ _ pattern =>
       if String.eqb pattern "*.class" then
         [(classes_dir ++ ["Main.class"])%list;
          (classes_dir ++ ["Other.class"])%list;
          (classes_dir ++ ["Main$Inner.class"])%list]
       else [];
     glob := fun _ p pattern =>
       if path_eqb p repo && String.eqb pattern "pom.xml"
       then [(repo ++ ["pom.xml"])%list] else [];
     copy_normalized := fun _ p => inr p;
     extract_commit_sha := fun _ _ => inr "4f2a9c1";
     extract_blob_sha := fun _ _ => inr "9e107d9" |}.

(** Three file merges for one merge command: the second one fails. *)
Definition three_merges (_ : History) (_ : list Path) (_ : string)
  : list (M MergeResult.t) :=
  [ret conflicting_merge; ret failed_merge; ret conflicting_merge].

(** The tree of a built Maven project as the build helpers see it: under
    [/repo/target] the directories [classes] and [maven-status], under
    [/repo/docs/target] a file only; [mvn] exits with [code]. *)
Definition built_project (code : Z) : JavautilsBuild.Outside :=
  {| JavautilsBuild.iterdir := fun _ p =>
       if path_eqb p ["/"; "repo"; "target"] then
         inr [["/"; "repo"; "target"; "classes"];
              ["/"; "repo"; "target"; "maven-status"]]
       else if path_eqb p ["/"; "repo"; "docs"; "target"] then
         inr [["/"; "repo"; "docs"; "target"; "classes"]]
       else inl (mkExn (OtherError "NotADirectoryError") [to_string p]);
     JavautilsBuild.is_dir := fun _ p =>
       path_eqb p ["/"; "repo"; "target"; "classes"]
       || path_eqb p ["/"; "repo"; "target"; "maven-status"];
     JavautilsBuild.subprocess_run_in := fun _ _ _ _ =>
       exited code (line "[INFO] BUILD") "" |}.

Definition built_project_world : World :=
  {| subprocess_run := fun _ _ _ => exited 0 "" "";
     is_file := fun _ _ => true;
     path_exists := fun _ _ => true;
     mkdir_parents := fun _ _ => None;
     shutil_copy := fun _ _ _ => None;
     readlines := fun _ _ => inr [];
     rglob := fun _ _ pattern =>
       if String.eqb pattern "target" then
         [["/"; "repo"; "target"]; ["/"; "repo"; "docs"; "target"]]
       else [];
     glob := fun _ _ _ => [];
     copy_normalized := fun _ p => inr p;
     extract_commit_sha := fun _ _ => inr "4f2a9c1";
     extract_blob_sha := fun _ _ => inr "9e107d9" |}.

(** A file of merge scenarios: a header and three scenarios; every
    operation on it succeeds and the draw takes the first scenarios. *)
Definition scenarios_csv : Path := ["merge_dirs"; "kth_spork"; "merge_scenarios.csv"].

Definition three_scenarios : string :=
  (line "merge_commit" ++ line "4f2a9c1" ++ line "" ++ line "9e107d9"
   ++ line "c0ffee1")%string.

Definition scenario_host (text : string) : RunExperiments.Host :=
  {| RunExperiments.read_text := fun _ _ => inr text;
     RunExperiments.copy := fun _ _ _ => None;
     RunExperiments.random_choice := fun _ population size =>
       inr (firstn (Z.to_nat size) population);
     RunExperiments.write_text := fun _ _ _ => None |}.

End MoreScenarios.

(** * Properties *)

(** ** Strings, paths and numbers on examples *)

Example path_suffix_class :
  suffix ["/"; "out"; "Outer$Inner.class"] = ".class"
  /\ stem ["/"; "out"; "Outer$Inner.class"] = "Outer$Inner"
  /\ suffix ["a"; ".hidden"] = "" /\ suffix ["a"; "x."] = ""
  /\ parents ["/"; "a"; "b"] = [["/"; "a"]; ["/"]]
  /\ parents ["a"; "b"] = [["a"]; []]
  /\ to_string (of_segments ["org"; "x/y"; ""]) = "org/x/y".
Proof. repeat split; reflexivity. Qed.

Example int_of_string_examples :
  PyInt.int_of_string "42" = Some 42%Z
  /\ PyInt.int_of_string "-7" = Some (-7)%Z
  /\ PyInt.int_of_string "1_000" = Some 1000%Z
  /\ PyInt.int_of_string "" = None
  /\ PyInt.int_of_string "12a" = None.
Proof. repeat split; reflexivity. Qed.

Example strip_and_decode_examples :
  PyStr.strip (Scenarios.line "  org.example ") = "org.example"
  /\ PyStr.strip (PyStr.bytes_of [194; 160; 97; 226; 128; 137]) = "a"
  /\ PyStr.rstrip (Scenarios.line " x" ++ Scenarios.line "") = " x"
  /\ PyStr.split_on PyStr.nl (Scenarios.line "a" ++ Scenarios.line "b")
     = ["a"; "b"; ""]
  /\ PyStr.decode "plain" = Some "plain"
  /\ PyStr.decode (PyStr.bytes_of [195; 169]) = Some (PyStr.bytes_of [195; 169])
  /\ PyStr.decode (PyStr.bytes_of [255; 10]) = None
  /\ PyStr.decode (PyStr.bytes_of [192; 175]) = None
  /\ PyStr.decode (PyStr.bytes_of [237; 160; 128]) = None.
Proof. repeat split; reflexivity. Qed.

(** ** The monad *)

Lemma bind_ret_l {A B} (x : A) (k : A -> M B) h : bind (ret x) k h = k x h.
Proof. reflexivity. Qed.

Lemma bind_inr {A B} (m : M A) (k : A -> M B) h x h' :
  m h = (inr x, h') -> bind m k h = k x h'.
Proof. intros E. unfold bind. rewrite E. reflexivity. Qed.

Lemma bind_inl {A B} (m : M A) (k : A -> M B) h e h' :
  m h = (inl e, h') -> bind m k h = (inl e, h').
Proof. intros E. unfold bind. rewrite E. reflexivity. Qed.

(** ** The conflict parser *)

Module ConflictFacts.

Import Evaluate Document.

Lemma takewhile_stops p taken stop rest :
  forallb p taken = true -> p stop = false ->
  takewhile p (taken ++ stop :: rest)%list = (taken, rest).
Proof.
  induction taken as [|x taken IH]; simpl; intros Hall Hstop.
  - rewrite Hstop. reflexivity.
  - apply andb_prop in Hall as [Hx Hall]. rewrite Hx, IH; auto.
Qed.

Lemma extract_conflict_region l mid r en rest :
  forallb (fun x => negb (PyStr.startswith x MID_CONFLICT)) l = true ->
  PyStr.startswith mid MID_CONFLICT = true ->
  forallb (fun x => negb (PyStr.startswith x END_CONFLICT)) r = true ->
  PyStr.startswith en END_CONFLICT = true ->
  _extract_conflict (l ++ mid :: r ++ en :: rest)%list = (mkConflict l r, rest).
Proof.
  intros Hl Hmid Hr Hen. unfold _extract_conflict.
  rewrite takewhile_stops by (auto; rewrite Hmid; reflexivity).
  rewrite takewhile_stops by (auto; rewrite Hen; reflexivity).
  reflexivity.
Qed.

Lemma takewhile_remaining p it :
  length (snd (takewhile p it)) <= length it.
Proof.
  induction it as [|x it IH]; simpl; auto.
  destruct (p x); simpl; [|lia].
  destruct (takewhile p it) as [taken remaining]. simpl in *. lia.
Qed.

Lemma extract_conflict_remaining lines :
  length (snd (_extract_conflict lines)) <= length lines.
Proof.
  unfold _extract_conflict.
  pose proof (takewhile_remaining
                (fun line => negb (PyStr.startswith line MID_CONFLICT)) lines).
  destruct (takewhile _ lines) as [l after_mid].
  pose proof (takewhile_remaining
                (fun line => negb (PyStr.startswith line END_CONFLICT))
                after_mid).
  destruct (takewhile _ after_mid) as [r after_end]. simpl in *. lia.
Qed.

(** The loop ends by running out of lines, never by running out of fuel:
    any fuel of at least the number of lines gives the same conflicts. *)
Lemma scan_fuel_enough fuel :
  forall fuel' lines,
    length lines <= fuel -> length lines <= fuel' ->
    scan fuel lines = scan fuel' lines.
Proof.
  induction fuel as [|fuel IH]; intros fuel' lines H1 H2.
  - destruct lines; [|simpl in H1; lia]. destruct fuel'; reflexivity.
  - destruct lines as [|line rest]; [destruct fuel'; reflexivity|].
    destruct fuel' as [|fuel']; [simpl in H2; lia|].
    simpl in H1, H2 |- *.
    destruct (PyStr.startswith line START_CONFLICT).
    + pose proof (extract_conflict_remaining rest) as Hrem.
      destruct (_extract_conflict rest) as [c rest']. simpl in Hrem.
      f_equal. apply IH; lia.
    + apply IH; lia.
Qed.

(** With enough fuel the loop returns the regions of the document. *)
Lemma scan_render doc :
  well_formed doc = true ->
  forall fuel, length (render doc) <= fuel -> scan fuel (render doc) = regions doc.
Proof.
  induction doc as [|seg doc IH]; intros Hwf fuel Hfuel.
  - destruct fuel; reflexivity.
  - simpl in Hwf. apply andb_prop in Hwf as [Hseg Hwf].
    destruct seg as [ln | st l mid r en].
    + simpl in Hseg, Hfuel |- *. destruct fuel as [|fuel]; [lia|].
      simpl. apply negb_true_iff in Hseg. rewrite Hseg.
      apply IH; auto. lia.
    + simpl in Hseg.
      repeat (apply andb_prop in Hseg as [Hseg ?]).
      unfold render in Hfuel |- *. simpl flat_map in Hfuel |- *.
      fold (render doc) in Hfuel |- *.
      simpl app in Hfuel |- *.
      destruct fuel as [|fuel]; [simpl in Hfuel; lia|].
      simpl scan. rewrite Hseg.
      replace ((l ++ mid :: r ++ [en]) ++ render doc)%list
        with (l ++ mid :: r ++ en :: render doc)%list in Hfuel |- *
        by (rewrite <- !app_assoc; simpl; rewrite <- app_assoc; reflexivity).
      rewrite extract_conflict_region by assumption.
      simpl. f_equal. apply IH; auto.
      simpl in Hfuel. rewrite !length_app in Hfuel. simpl in Hfuel.
      rewrite !length_app in Hfuel. simpl in Hfuel. lia.
Qed.

Lemma regions_length doc : length (regions doc) = count_regions doc.
Proof.
  unfold count_regions.
  induction doc as [|[ln | st l mid r en] doc IH]; simpl; auto.
Qed.

Lemma regions_nonempty doc :
  forallb both_sides_nonempty (regions doc) = forallb sides_nonempty doc.
Proof.
  induction doc as [|[ln | st l mid r en] doc IH]; simpl; auto.
  rewrite IH. reflexivity.
Qed.

(** C2 (as amended).  For every well-formed conflict-marked text with N
    conflict regions, read from the file at [path], [extract_conflicts]
    returns exactly N conflicts in document order; the left sequence of each
    is the lines after its start marker up to (not including) the mid
    marker, the right sequence the lines after the mid marker up to (not
    including) the end marker.  The two sequences are as long as the region
    makes them: all are non-empty exactly when every region has at least
    one line on both sides. *)
Theorem extract_conflicts_well_formed (w : World) (path : Path) (h : History)
    (doc : list Segment) :
  well_formed doc = true ->
  readlines w h path = inr (render doc) ->
  exists conflicts,
    extract_conflicts w path h = (inr conflicts, h)
    /\ conflicts = regions doc
    /\ length conflicts = count_regions doc
    /\ forallb both_sides_nonempty conflicts = forallb sides_nonempty doc.
Proof.
  intros Hwf Hread. exists (regions doc).
  repeat split.
  - unfold extract_conflicts, bind, ask. rewrite Hread. unfold ret.
    unfold conflicts_of_lines. rewrite scan_render; auto.
  - apply regions_length.
  - apply regions_nonempty.
Qed.

Lemma extract_conflicts_well_formed_witness :
  well_formed Scenarios.two_one_conflict = true
  /\ exists conflicts,
    extract_conflicts
      (Scenarios.world_of (fun _ => Scenarios.exited 0 "" "") (fun _ => true)
                          (render Scenarios.two_one_conflict))
      Scenarios.merged_file [] = (inr conflicts, [])
    /\ conflicts = regions Scenarios.two_one_conflict
    /\ length conflicts = count_regions Scenarios.two_one_conflict
    /\ forallb both_sides_nonempty conflicts
       = forallb sides_nonempty Scenarios.two_one_conflict.
Proof.
  split; [reflexivity|].
  apply extract_conflicts_well_formed; reflexivity.
Defined.

(** A well-formed text with one conflict region whose left side is empty:
    the parser returns the one conflict, with an empty left sequence. *)
Lemma extract_conflicts_empty_left_side :
  let doc := Scenarios.deletion_conflict in
  let w := Scenarios.world_of (fun _ => Scenarios.exited 0 "" "")
                              (fun _ => true) (render doc) in
  well_formed doc = true
  /\ count_regions doc = 1
  /\ extract_conflicts w Scenarios.merged_file []
     = (inr [mkConflict [] [Scenarios.line "  int x = 2;"]], [])
  /\ ~ (forall c,
          In c (conflicts_of_lines (render doc)) ->
          left c <> [] /\ right c <> []).
Proof.
  repeat split; try reflexivity.
  intros H.
  destruct (H (mkConflict [] [Scenarios.line "  int x = 2;"])) as [Hl _].
  - left. reflexivity.
  - apply Hl. reflexivity.
Qed.

End ConflictFacts.

(** ** The comparison of evaluation sets *)

Module AnalyzeFacts.

Import Analyze.

Lemma no_worse_spec c r : no_worse c r = true <-> ~ strictly_worse c r.
Proof.
  unfold no_worse, strictly_worse.
  destruct (MergeEvaluation.outcome c) eqn:Hc,
           (MergeEvaluation.outcome r) eqn:Hr;
    rewrite ?Z.leb_le; split; intros H;
    try reflexivity;
    try (intros [[? ?] | [? [? ?]]]; try congruence; lia);
    try (exfalso; apply H; left; split; congruence).
  destruct (Z.le_gt_cases (MergeEvaluation.gumtree_diff_size_norm c)
                          (MergeEvaluation.gumtree_diff_size_norm r))
    as [Hle | Hgt]; auto.
  exfalso. apply H. right. repeat split; auto. lia.
Qed.

(** C3.  [at_least_as_good_as] succeeds if and only if no scenario of the
    reference set is missing from the candidate set and, for every scenario
    present in both, the candidate is not strictly worse under the
    governing ordering: a SUCCESS outcome beats any other outcome whatever
    the metrics, and between two SUCCESS outcomes the candidate's
    normalized tree-structured diff size must be smaller than or equal to
    the reference's. *)
Theorem at_least_as_good_as_iff (candidate reference : Evaluations) :
  at_least_as_good_as candidate reference = true
  <-> (forall r, In r reference ->
         ~ missing_from candidate r
         /\ forall c, record_for r candidate = Some c -> ~ strictly_worse c r).
Proof.
  unfold at_least_as_good_as, missing_from. rewrite forallb_forall.
  split; intros H r Hr; specialize (H r Hr).
  - destruct (record_for r candidate) as [c|] eqn:E; [|discriminate].
    split; [discriminate|].
    intros c' Hc'. inversion Hc'; subst. apply no_worse_spec. exact H.
  - destruct H as [Hpresent Hworse].
    destruct (record_for r candidate) as [c|] eqn:E.
    + apply no_worse_spec. apply Hworse. reflexivity.
    + exfalso. apply Hpresent. reflexivity.
Qed.

(** A candidate that succeeds where the reference failed passes, whatever
    its metrics; one that is missing the scenario fails. *)
Lemma success_beats_failure c r :
  MergeEvaluation.outcome c = SUCCESS ->
  MergeEvaluation.outcome r <> SUCCESS ->
  same_scenario r c = true ->
  at_least_as_good_as [c] [r] = true.
Proof.
  intros Hc Hr Hsame. unfold at_least_as_good_as, record_for. simpl.
  rewrite Hsame. unfold no_worse. rewrite Hc. revert Hr.
  destruct (MergeEvaluation.outcome r); intros Hr; try congruence;
    reflexivity.
Qed.

Lemma missing_scenario_fails r reference :
  at_least_as_good_as [] (r :: reference) = false.
Proof. reflexivity. Qed.

End AnalyzeFacts.

(** ** The diff metrics and the evaluation record *)

Module EvaluateFacts.

Import Evaluate.

Lemma run_completed w cmd timeout h proc :
  subprocess_run w h cmd timeout = Completed proc ->
  run w cmd timeout h = (inr proc, (h ++ [EvRun cmd timeout])%list).
Proof. intros E. unfold run. rewrite E. reflexivity. Qed.

Lemma run_raised w cmd timeout h e :
  subprocess_run w h cmd timeout = RunRaised e ->
  run w cmd timeout h = (inl e, (h ++ [EvRun cmd timeout])%list).
Proof. intros E. unfold run. rewrite E. reflexivity. Qed.

Lemma split_on_nonempty sep s : PyStr.split_on sep s <> [].
Proof.
  destruct s as [|c s]; simpl; [discriminate|].
  destruct (Ascii.eqb c sep); [discriminate|].
  destruct (PyStr.split_on sep s); discriminate.
Qed.

Lemma Zeqb_false_of_neq (a b : Z) : a <> b -> (a =? b)%Z = false.
Proof. intros H. apply Z.eqb_neq. exact H. Qed.

(** C1 (what the code does).  For a merge result whose outcome is not
    SUCCESS, [evaluation_result] returns no evaluation at all: the local
    variable [gumtree_diff_size_norm] is assigned only in the SUCCESS branch
    (the initialisation assigns [gumtree_diff_size] twice instead), so
    building the record raises UnboundLocalError, unless making the merge
    directory relative or extracting the commit hash has raised before. *)
Theorem evaluation_result_unsuccessful (w : World)
    (merge_result : MergeResult.t) (base_merge_dir : Path) (h : History) :
  MergeResult.outcome merge_result <> SUCCESS ->
  (forall evaluation h',
      evaluation_result w merge_result base_merge_dir h
      <> (inr evaluation, h'))
  /\ (forall merge_dir merge_commit,
        relative_to (MergeResult.merge_dir merge_result) base_merge_dir
        = Some merge_dir ->
        extract_commit_sha w h merge_dir = inr merge_commit ->
        evaluation_result w merge_result base_merge_dir h
        = (inl (mkExn UnboundLocalError
                  ["local variable 'gumtree_diff_size_norm' referenced before assignment"]),
           h)).
Proof.
  intros Hout.
  assert (Hneq : outcome_eqb (MergeResult.outcome merge_result) SUCCESS = false)
    by (destruct (MergeResult.outcome merge_result); auto; congruence).
  unfold evaluation_result. rewrite Hneq.
  split.
  - intros evaluation h'. unfold bind, ret, lift_option, ask, read_local.
    destruct (relative_to _ _) as [d|]; simpl; [|discriminate].
    destruct (extract_commit_sha w h d); simpl; discriminate.
  - intros d sha Hrel Hsha. unfold bind, ret, lift_option, ask, read_local.
    rewrite Hrel. simpl. rewrite Hsha. reflexivity.
Qed.

Lemma evaluation_result_unsuccessful_witness :
  MergeResult.outcome Scenarios.failed_merge <> SUCCESS
  /\ evaluation_result Scenarios.quiet Scenarios.failed_merge
                       ["/"; "merges"] []
     = (inl (mkExn UnboundLocalError
               ["local variable 'gumtree_diff_size_norm' referenced before assignment"]),
        []).
Proof.
  split; [discriminate|].
  eapply (proj2 (evaluation_result_unsuccessful Scenarios.quiet
                   Scenarios.failed_merge _ [] ltac:(discriminate)));
    reflexivity.
Defined.

(** What [git_diff_edit_script] returns, by the answer of the diff utility. *)
Lemma git_diff_edit_script_cases (w : World) (base_file dest_file : Path)
    (strip_metadata : bool) (h : History) :
  let cmd := (git_diff ++ [to_string base_file; to_string dest_file])%list in
  let h' := (h ++ [EvRun cmd None])%list in
  let result := git_diff_edit_script w base_file dest_file strip_metadata h in
  match subprocess_run w h cmd None with
  | RunRaised e => result = (inl e, h')
  | Completed proc =>
      if (returncode proc =? 0)%Z then result = (inr [], h')
      else
        match PyStr.decode (stdout proc) with
        | None =>
            exists e, result = (inl e, h') /\ exn_class e = UnicodeDecodeError
        | Some output =>
            let lines := PyStr.split_on PyStr.nl (PyStr.rstrip output) in
            if strip_metadata then
              result
              = (inr (filter (fun l => negb (PyStr.startswith l "@@"))
                             (skipn 4 lines)), h')
            else result = (inr lines, h') /\ lines <> []
        end
  end.
Proof.
  intros cmd h' result. subst result. unfold git_diff_edit_script.
  fold cmd. unfold bind.
  destruct (subprocess_run w h cmd None) as [proc|e] eqn:E.
  - rewrite (run_completed _ _ _ _ _ E). fold h'.
    destruct (returncode proc =? 0)%Z; [reflexivity|].
    unfold decode, lift_option.
    destruct (PyStr.decode (stdout proc)) as [output|]; simpl.
    + pose proof (split_on_nonempty PyStr.nl (PyStr.rstrip output)) as Hne.
      destruct (PyStr.split_on PyStr.nl (PyStr.rstrip output)) as [|l0 ls];
        [congruence|].
      destruct strip_metadata; simpl; [reflexivity|].
      split; [reflexivity | discriminate].
    + eexists. split; reflexivity.
  - rewrite (run_raised _ _ _ _ _ E). reflexivity.
Qed.

(** C7 (as amended).  [git_diff_edit_script] returns an empty edit script
    whenever the diff utility exits with status zero.  After a non-zero
    exit whose output decodes, the strip-metadata mode returns the lines of
    the output after the four lines of file header, with the hunk headers
    (the lines beginning with [@@]) excluded, and the plain mode returns all
    the lines of the output, which are never none. *)
Theorem git_diff_edit_script_result (w : World) (base_file dest_file : Path)
    (strip_metadata : bool) (h : History) (proc : CompletedProcess) :
  let cmd := (git_diff ++ [to_string base_file; to_string dest_file])%list in
  let h' := (h ++ [EvRun cmd None])%list in
  subprocess_run w h cmd None = Completed proc ->
  (returncode proc = 0%Z ->
   git_diff_edit_script w base_file dest_file strip_metadata h = (inr [], h'))
  /\ (forall output,
        returncode proc <> 0%Z ->
        PyStr.decode (stdout proc) = Some output ->
        let lines := PyStr.split_on PyStr.nl (PyStr.rstrip output) in
        git_diff_edit_script w base_file dest_file true h
        = (inr (filter (fun l => negb (PyStr.startswith l "@@"))
                       (skipn 4 lines)), h')
        /\ git_diff_edit_script w base_file dest_file false h
           = (inr lines, h')
        /\ lines <> []).
Proof.
  intros cmd h' Hrun. split.
  - intros Hzero.
    pose proof (git_diff_edit_script_cases w base_file dest_file
                  strip_metadata h) as H.
    cbv zeta in H. fold cmd h' in H. rewrite Hrun, Hzero in H. exact H.
  - intros output Hnonzero Hdecode lines.
    pose proof (git_diff_edit_script_cases w base_file dest_file true h)
      as Hstrip.
    pose proof (git_diff_edit_script_cases w base_file dest_file false h)
      as Hplain.
    cbv zeta in Hstrip, Hplain. fold cmd h' in Hstrip, Hplain.
    rewrite Hrun, (Zeqb_false_of_neq _ _ Hnonzero), Hdecode in Hstrip, Hplain.
    fold lines in Hstrip, Hplain. destruct Hplain as [Hplain Hlines].
    auto.
Qed.

Lemma git_diff_edit_script_result_witness :
  subprocess_run Scenarios.changed_line []
    (git_diff ++ [to_string Scenarios.expected_java;
                  to_string Scenarios.replayed_java])%list None
  = Scenarios.exited 1 Scenarios.changed_line_output ""
  /\ fst (git_diff_edit_script Scenarios.changed_line Scenarios.expected_java
                               Scenarios.replayed_java true [])
     = inr ["-  int x = 1;"; "+  int x = 2;"]
  /\ fst (git_diff_edit_script Scenarios.changed_line Scenarios.expected_java
                               Scenarios.replayed_java false [])
     = inr (PyStr.split_on PyStr.nl
              (PyStr.rstrip Scenarios.changed_line_output)).
Proof.
  split; [reflexivity|].
  destruct (git_diff_edit_script_result Scenarios.changed_line
              Scenarios.expected_java Scenarios.replayed_java true []
              (mkProc 1 Scenarios.changed_line_output "") eq_refl)
    as [_ H].
  destruct (H Scenarios.changed_line_output ltac:(discriminate) eq_refl)
    as [Hstrip [Hplain _]].
  split.
  - apply (f_equal fst) in Hstrip. exact Hstrip.
  - apply (f_equal fst) in Hplain. exact Hplain.
Defined.

(** C8 (as amended).  A non-zero exit status of the tree-structured diff
    utility makes [gumtree_edit_script] raise, whatever the distance utility
    does: RuntimeError carrying the error output when that output decodes,
    UnicodeDecodeError when it does not.  A non-zero exit status of the
    tree-comparison distance utility, with an error output that decodes,
    makes [normalized_comparison] log that output as a warning and return
    the sentinel -1, without raising, whatever the diff utility does. *)
Theorem nonzero_exit_of_diff_tools (w : World) (base_file dest_file : Path)
    (h : History) :
  let gumtree_cmd :=
    ["gumtree"; "diff"; to_string base_file; to_string dest_file] in
  let spork_cmd :=
    ["spork"; "compare"; to_string base_file; to_string dest_file] in
  (forall proc,
      subprocess_run w h gumtree_cmd None = Completed proc ->
      returncode proc <> 0%Z ->
      match PyStr.decode (stderr proc) with
      | Some err =>
          gumtree_edit_script w base_file dest_file h
          = (inl (mkExn RuntimeError ["GumTree diff exited non-zero"; err]),
             (h ++ [EvRun gumtree_cmd None])%list)
      | None =>
          exists e,
            gumtree_edit_script w base_file dest_file h
            = (inl e, (h ++ [EvRun gumtree_cmd None])%list)
            /\ exn_class e = UnicodeDecodeError
      end)
  /\ (forall proc err,
        subprocess_run w h spork_cmd None = Completed proc ->
        returncode proc <> 0%Z ->
        PyStr.decode (stderr proc) = Some err ->
        normalized_comparison w base_file dest_file h
        = (inr (-1)%Z,
           (h ++ [EvRun spork_cmd None; EvLog WARNING err None])%list)).
Proof.
  intros gumtree_cmd spork_cmd. split.
  - intros proc Hg Hgcode.
    unfold gumtree_edit_script. fold gumtree_cmd. unfold bind.
    rewrite (run_completed _ _ _ _ _ Hg).
    rewrite (Zeqb_false_of_neq _ _ Hgcode). simpl.
    unfold decode, lift_option.
    destruct (PyStr.decode (stderr proc)); simpl;
      [reflexivity | eexists; split; reflexivity].
  - intros proc err Hs Hscode Herr.
    unfold normalized_comparison. fold spork_cmd. unfold bind.
    rewrite (run_completed _ _ _ _ _ Hs).
    rewrite (Zeqb_false_of_neq _ _ Hscode). simpl.
    unfold decode, lift_option, log, emit. rewrite Herr. simpl.
    rewrite <- app_assoc. reflexivity.
Qed.

(** When the error output of the distance utility does not decode, the
    decoding error is what [normalized_comparison] ends with. *)
Lemma normalized_comparison_undecodable (w : World)
    (base_file dest_file : Path) (h : History) (proc : CompletedProcess) :
  let cmd := ["spork"; "compare"; to_string base_file; to_string dest_file] in
  subprocess_run w h cmd None = Completed proc ->
  returncode proc <> 0%Z ->
  PyStr.decode (stderr proc) = None ->
  exists e,
    normalized_comparison w base_file dest_file h
    = (inl e, (h ++ [EvRun cmd None])%list)
    /\ exn_class e = UnicodeDecodeError.
Proof.
  intros cmd Hs Hcode Herr.
  unfold normalized_comparison. fold cmd. unfold bind.
  rewrite (run_completed _ _ _ _ _ Hs).
  rewrite (Zeqb_false_of_neq _ _ Hcode). simpl.
  unfold decode, lift_option. rewrite Herr. simpl.
  eexists. split; reflexivity.
Qed.

Lemma nonzero_exit_of_diff_tools_witness :
  gumtree_edit_script MoreScenarios.only_gumtree_fails
                      Scenarios.expected_java Scenarios.replayed_java []
  = (inl (mkExn RuntimeError
            ["GumTree diff exited non-zero";
             Scenarios.line "error: cannot parse input"]),
     [EvRun ["gumtree"; "diff"; to_string Scenarios.expected_java;
             to_string Scenarios.replayed_java] None])
  /\ normalized_comparison MoreScenarios.only_gumtree_fails
                           Scenarios.expected_java Scenarios.replayed_java []
     = (inr 3%Z,
        [EvRun ["spork"; "compare"; to_string Scenarios.expected_java;
                to_string Scenarios.replayed_java] None])
  /\ normalized_comparison Scenarios.failing_tools Scenarios.expected_java
                           Scenarios.replayed_java []
     = (inr (-1)%Z,
        [EvRun ["spork"; "compare"; to_string Scenarios.expected_java;
                to_string Scenarios.replayed_java] None;
         EvLog WARNING (Scenarios.line "error: cannot parse input") None]).
Proof.
  split; [|split].
  - apply (proj1 (nonzero_exit_of_diff_tools MoreScenarios.only_gumtree_fails
                    Scenarios.expected_java Scenarios.replayed_java [])
             (mkProc 1 "" (Scenarios.line "error: cannot parse input"))
             eq_refl ltac:(discriminate)).
  - reflexivity.
  - apply (proj2 (nonzero_exit_of_diff_tools Scenarios.failing_tools
                    Scenarios.expected_java Scenarios.replayed_java [])
             (mkProc 1 "" (Scenarios.line "error: cannot parse input"))
             (Scenarios.line "error: cannot parse input")
             eq_refl ltac:(discriminate) eq_refl).
Defined.

(** The diff utility exits with status 1 and prints nothing on its standard
    output: in strip-metadata mode the edit script is empty although the
    exit status is not zero (and in plain mode it is one empty line). *)
Lemma git_diff_empty_script_nonzero_exit :
  let cmd := (git_diff ++ [to_string Scenarios.expected_java;
                           to_string Scenarios.replayed_java])%list in
  subprocess_run Scenarios.unreadable_file [] cmd None
  = Scenarios.exited 1 "" (Scenarios.line "error: Could not access 'spork.java'")
  /\ git_diff_edit_script Scenarios.unreadable_file Scenarios.expected_java
                          Scenarios.replayed_java true []
     = (inr [], [EvRun cmd None])
  /\ git_diff_edit_script Scenarios.unreadable_file Scenarios.expected_java
                          Scenarios.replayed_java false []
     = (inr [""], [EvRun cmd None]).
Proof. repeat split. Qed.

(** The distance utility exits with status 1 and its error output is not
    UTF-8: [normalized_comparison] returns nothing and logs nothing, the
    decoding error propagates. *)
Lemma normalized_comparison_undecodable_complaint :
  let cmd := ["spork"; "compare"; to_string Scenarios.expected_java;
              to_string Scenarios.replayed_java] in
  subprocess_run Scenarios.garbled_complaint [] cmd None
  = Scenarios.exited 1 "" (PyStr.bytes_of [255; 10])
  /\ normalized_comparison Scenarios.garbled_complaint
                           Scenarios.expected_java Scenarios.replayed_java []
     = (inl (mkExn UnicodeDecodeError
               ["utf-8"; "invalid start byte or continuation"]),
        [EvRun cmd None]).
Proof. split; reflexivity. Qed.

(** A successful merge with one conflict of two left lines and one right
    line: conflict size 3, one conflict, and the four diff sizes counted
    from the outputs of the tools. *)
Example evaluation_result_of_conflicting_merge :
  fst (evaluation_result Scenarios.conflicting_merge_world
                         Scenarios.conflicting_merge ["/"; "merges"] [])
  = inr {| MergeEvaluation.merge_dir := ["4f2a9c1"; "Main"];
           MergeEvaluation.merge_cmd := "spork";
           MergeEvaluation.outcome := SUCCESS;
           MergeEvaluation.gumtree_diff_size := 1;
           MergeEvaluation.gumtree_diff_size_norm := 1;
           MergeEvaluation.git_diff_size := 7;
           MergeEvaluation.git_diff_size_norm := 7;
           MergeEvaluation.conflict_size := 3;
           MergeEvaluation.num_conflicts := 1;
           MergeEvaluation.runtime := 850;
           MergeEvaluation.merge_commit := "4f2a9c1";
           MergeEvaluation.base_blob := "9e107d9";
           MergeEvaluation.left_blob := "9e107d9";
           MergeEvaluation.right_blob := "9e107d9";
           MergeEvaluation.expected_blob := "9e107d9" |}.
Proof. reflexivity. Qed.

End EvaluateFacts.

(** ** Which events a computation adds *)

Section AddsOnly.

Variable ok : Event -> bool.

Lemma adds_only_ret {A} (x : A) : adds_only ok (ret x).
Proof. intros h. exists []. rewrite app_nil_r. split; reflexivity. Qed.

Lemma adds_only_raise {A} (e : Exn) : adds_only ok (@raise A e).
Proof. intros h. exists []. rewrite app_nil_r. split; reflexivity. Qed.

Lemma adds_only_ask {A} (q : History -> Exn + A) : adds_only ok (ask q).
Proof. intros h. exists []. rewrite app_nil_r. split; reflexivity. Qed.

Lemma adds_only_observe {A} (q : History -> A) : adds_only ok (observe q).
Proof. intros h. exists []. rewrite app_nil_r. split; reflexivity. Qed.

Lemma adds_only_lift_option {A} e (o : option A) :
  adds_only ok (lift_option e o).
Proof. destruct o; [apply adds_only_ret | apply adds_only_raise]. Qed.

Lemma adds_only_emit ev : ok ev = true -> adds_only ok (emit ev).
Proof.
  intros Hev h. exists [ev]. split; [reflexivity|]. simpl. rewrite Hev.
  reflexivity.
Qed.

Lemma adds_only_bind {A B} (m : M A) (k : A -> M B) :
  adds_only ok m -> (forall x, adds_only ok (k x)) -> adds_only ok (bind m k).
Proof.
  intros Hm Hk h. unfold bind.
  destruct (Hm h) as [evs1 [E1 F1]].
  destruct (m h) as [[e|x] h1]; simpl in E1; subst h1.
  - exists evs1. split; auto.
  - destruct (Hk x (h ++ evs1)%list) as [evs2 [E2 F2]].
    exists (evs1 ++ evs2)%list. rewrite E2, app_assoc. split; auto.
    rewrite forallb_app, F1, F2. reflexivity.
Qed.

Lemma adds_only_try_except {A} (m : M A) (handler : Exn -> M A) :
  adds_only ok m -> (forall e, adds_only ok (handler e)) ->
  adds_only ok (try_except m handler).
Proof.
  intros Hm Hk h. unfold try_except.
  destruct (Hm h) as [evs1 [E1 F1]].
  destruct (m h) as [[e|x] h1]; simpl in E1; subst h1.
  - destruct (Hk e (h ++ evs1)%list) as [evs2 [E2 F2]].
    exists (evs1 ++ evs2)%list. rewrite E2, app_assoc. split; auto.
    rewrite forallb_app, F1, F2. reflexivity.
  - exists evs1. split; auto.
Qed.

Lemma adds_only_run w cmd timeout :
  ok (EvRun cmd timeout) = true -> adds_only ok (Evaluate.run w cmd timeout).
Proof.
  intros Hev h. exists [EvRun cmd timeout]. unfold Evaluate.run.
  destruct (subprocess_run w h cmd timeout); simpl; rewrite Hev; auto.
Qed.

End AddsOnly.

Lemma invocations_unchanged tool h evs :
  forallb (fun ev => negb (invokes tool ev)) evs = true ->
  invocations tool (h ++ evs)%list = invocations tool h.
Proof.
  intros Hall. unfold invocations. rewrite filter_app.
  replace (filter (invokes tool) evs) with (@nil Event).
  - apply app_nil_r.
  - induction evs as [|ev evs IH]; simpl in *; auto.
    apply andb_prop in Hall as [Hev Hall].
    apply negb_true_iff in Hev. rewrite Hev. auto.
Qed.

(** ** Classfiles *)

Module JavautilsFacts.

Import Javautils.

Lemma extract_java_package_no_sootdiff w path :
  adds_only not_sootdiff (extract_java_package w path).
Proof.
  unfold extract_java_package.
  apply adds_only_bind.
  - apply adds_only_try_except.
    + apply adds_only_bind; [apply adds_only_run; reflexivity|].
      intros; apply adds_only_ret.
    + intros e. apply adds_only_bind; [apply adds_only_emit; reflexivity|].
      intros; apply adds_only_ret.
  - intros [proc|]; [|apply adds_only_ret].
    destruct (negb (returncode proc =? 0)%Z).
    + apply adds_only_bind; [apply adds_only_lift_option|]. intros out.
      apply adds_only_bind; [apply adds_only_emit; reflexivity|].
      intros; apply adds_only_raise.
    + apply adds_only_bind; [apply adds_only_lift_option|].
      intros; apply adds_only_ret.
Qed.

Lemma copy_to_pkg_dir_no_sootdiff w classfile pkg basedir :
  adds_only not_sootdiff (copy_to_pkg_dir w classfile pkg basedir).
Proof.
  unfold copy_to_pkg_dir.
  apply adds_only_bind.
  - intros h. eexists [_]. split; reflexivity.
  - intros _. apply adds_only_bind; [apply adds_only_observe|].
    intros [|]; [apply adds_only_raise|].
    apply adds_only_bind; [|intros; apply adds_only_ret].
    intros h. eexists [_]. split; reflexivity.
Qed.

Lemma no_sootdiff_step {A} (m : M A) h r h' :
  adds_only not_sootdiff m -> m h = (r, h') ->
  invocations "sootdiff" h' = invocations "sootdiff" h.
Proof.
  intros Hm E. destruct (Hm h) as [evs [E1 F1]]. rewrite E in E1.
  simpl in E1. subst h'. apply invocations_unchanged. exact F1.
Qed.

(** What [extract_java_package] returns, by the answer of the package
    utility. *)
Lemma extract_java_package_cases (w : World) (path : Path) (h : History) :
  let cmd := ["pkgextractor"; to_string path] in
  let h' := (h ++ [EvRun cmd (Some 60)])%list in
  let result := extract_java_package w path h in
  match subprocess_run w h cmd (Some 60) with
  | RunRaised e =>
      result
      = (inr "", (h' ++ [EvLog ERROR "error running pkgextractor" (Some e)])%list)
  | Completed proc =>
      match PyStr.decode (stdout proc) with
      | Some out =>
          if (returncode proc =? 0)%Z then result = (inr (PyStr.strip out), h')
          else
            result
            = (inl (mkExn RuntimeError
                      [("pkgextractor failed to extract package from "
                        ++ to_string path)%string]),
               (h' ++ [EvLog DEBUG out None])%list)
      | None => exists e, result = (inl e, h') /\ exn_class e = UnicodeDecodeError
      end
  end.
Proof.
  intros cmd h' result. subst result. unfold extract_java_package.
  fold cmd. unfold bind, try_except.
  destruct (subprocess_run w h cmd (Some 60)) as [proc|e] eqn:E.
  - rewrite (EvaluateFacts.run_completed _ _ _ _ _ E). fold h'. simpl.
    unfold decode, lift_option.
    destruct (PyStr.decode (stdout proc)) as [out|];
      destruct (returncode proc =? 0)%Z; simpl;
      try reflexivity; eexists; split; reflexivity.
  - rewrite (EvaluateFacts.run_raised _ _ _ _ _ E). reflexivity.
Qed.

(** C5 (as amended).  For every input path, when the call of the package
    utility itself raises (the utility cannot be started, or runs into the
    timeout), [extract_java_package] returns the empty string and logs the
    failure rather than raising.  When the utility runs and exits with a
    non-zero status, [extract_java_package] raises: RuntimeError, after
    logging the output of the utility at debug level, when that output
    decodes; UnicodeDecodeError, with nothing logged, when it does not. *)
Theorem extract_java_package_failure (w : World) (path : Path) (h : History) :
  let cmd := ["pkgextractor"; to_string path] in
  (forall e,
      subprocess_run w h cmd (Some 60) = RunRaised e ->
      extract_java_package w path h
      = (inr "",
         (h ++ [EvRun cmd (Some 60);
                EvLog ERROR "error running pkgextractor" (Some e)])%list))
  /\ (forall proc out,
        subprocess_run w h cmd (Some 60) = Completed proc ->
        returncode proc <> 0%Z ->
        PyStr.decode (stdout proc) = Some out ->
        extract_java_package w path h
        = (inl (mkExn RuntimeError
                  [("pkgextractor failed to extract package from "
                    ++ to_string path)%string]),
           (h ++ [EvRun cmd (Some 60); EvLog DEBUG out None])%list))
  /\ (forall proc,
        subprocess_run w h cmd (Some 60) = Completed proc ->
        returncode proc <> 0%Z ->
        PyStr.decode (stdout proc) = None ->
        exists e,
          extract_java_package w path h
          = (inl e, (h ++ [EvRun cmd (Some 60)])%list)
          /\ exn_class e = UnicodeDecodeError).
Proof.
  intros cmd.
  pose proof (extract_java_package_cases w path h) as H.
  cbv zeta in H. fold cmd in H.
  split; [|split].
  - intros e Hrun. rewrite Hrun in H. rewrite H, <- app_assoc. reflexivity.
  - intros proc out Hrun Hcode Hout. rewrite Hrun, Hout in H.
    rewrite (EvaluateFacts.Zeqb_false_of_neq _ _ Hcode) in H.
    rewrite H, <- app_assoc. reflexivity.
  - intros proc Hrun Hcode Hout. rewrite Hrun, Hout in H. exact H.
Qed.

Lemma extract_java_package_failure_witness :
  subprocess_run Scenarios.timing_out []
    ["pkgextractor"; to_string Scenarios.expected_java] (Some 60)
  = RunRaised Scenarios.timeout_expired
  /\ extract_java_package Scenarios.timing_out Scenarios.expected_java []
     = (inr "",
        [EvRun ["pkgextractor"; to_string Scenarios.expected_java] (Some 60);
         EvLog ERROR "error running pkgextractor"
               (Some Scenarios.timeout_expired)])
  /\ fst (extract_java_package Scenarios.failing_tools
                               Scenarios.expected_java [])
     = inl (mkExn RuntimeError
              [("pkgextractor failed to extract package from "
                ++ to_string Scenarios.expected_java)%string]).
Proof.
  split; [reflexivity|]. split.
  - apply (proj1 (extract_java_package_failure Scenarios.timing_out
                    Scenarios.expected_java [])).
    reflexivity.
  - rewrite (proj1 (proj2 (extract_java_package_failure
                             Scenarios.failing_tools
                             Scenarios.expected_java []))
               (mkProc 1 "" (Scenarios.line "error: cannot parse input")) ""
               eq_refl ltac:(discriminate) eq_refl).
    reflexivity.
Defined.

(** The package utility exits with status 1: [extract_java_package]
    raises RuntimeError instead of returning the empty string. *)
Lemma extract_java_package_nonzero_exit_raises :
  let cmd := ["pkgextractor"; to_string Scenarios.expected_java] in
  subprocess_run Scenarios.failing_tools [] cmd (Some 60)
  = Scenarios.exited 1 "" (Scenarios.line "error: cannot parse input")
  /\ extract_java_package Scenarios.failing_tools Scenarios.expected_java []
     = (inl (mkExn RuntimeError
               ["pkgextractor failed to extract package from /merges/4f2a9c1/Main/Expected.java"]),
        [EvRun cmd (Some 60); EvLog DEBUG "" None]).
Proof. split; reflexivity. Qed.

(** [compare_classfiles] up to the comparison of the packages. *)
Lemma compare_classfiles_steps (w : World) (pair : ClassfilePair.t)
    (eval_dir : Path) (merge_driver : string) (h h1 h2 h3 : History)
    (expected_pkg replayed_pkg : string) (staged : Path) :
  let expected := ExpectedClassfile.copy_abspath (ClassfilePair.expected pair) in
  let replayed := ClassfilePair.replayed pair in
  let basedir := ExpectedClassfile.copy_basedir (ClassfilePair.expected pair) in
  let replayed_basedir := join basedir (of_string merge_driver) in
  let cmd :=
    ["sootdiff"; "-qname"; (expected_pkg ++ "." ++ stem expected)%string;
     "-reffile"; to_string (join basedir (of_string "expected"));
     "-otherfile"; to_string replayed_basedir] in
  name expected = name replayed ->
  extract_java_package w expected h = (inr expected_pkg, h1) ->
  extract_java_package w replayed h1 = (inr replayed_pkg, h2) ->
  copy_to_pkg_dir w replayed replayed_pkg replayed_basedir h2
  = (inr staged, h3) ->
  compare_classfiles w pair eval_dir merge_driver h
  = (if negb (String.eqb expected_pkg replayed_pkg) then ret (Some false)
     else
       finished <-
         try_except
           (proc <- Evaluate.run w cmd (Some 30) ;;
            out <- decode (stdout proc) ;;
            log INFO out ;;;
            ret (Some proc))
           (fun e => log_exception "error running sootdiff" e ;;; ret None) ;;
       match finished with
       | None => ret None
       | Some proc => ret (Some (returncode proc =? 0)%Z)
       end) h3.
Proof.
  intros expected replayed basedir replayed_basedir cmd Hname He Hr Hc.
  unfold compare_classfiles. cbv zeta.
  fold expected replayed basedir. rewrite Hname, String.eqb_refl.
  change (negb true) with false. cbv iota.
  rewrite (bind_inr _ _ _ _ _ He), (bind_inr _ _ _ _ _ Hr).
  fold replayed_basedir. rewrite (bind_inr _ _ _ _ _ Hc).
  reflexivity.
Qed.

(** C4 (as amended).  Once the base names agree, both package extractions
    have returned and the replayed classfile has been staged without error,
    [compare_classfiles] returns False (not None) when the two packages
    differ, and the equivalence tool has not been invoked.  When the
    packages agree the equivalence tool is invoked: the verdict is None when
    the invocation raises or times out, or when the output of the tool
    cannot be decoded for the log; otherwise it is True exactly when the
    tool exits with status zero and False on any other exit status. *)
Theorem compare_classfiles_verdict (w : World) (pair : ClassfilePair.t)
    (eval_dir : Path) (merge_driver : string) (h h1 h2 h3 : History)
    (expected_pkg replayed_pkg : string) (staged : Path) :
  let expected := ExpectedClassfile.copy_abspath (ClassfilePair.expected pair) in
  let replayed := ClassfilePair.replayed pair in
  let basedir := ExpectedClassfile.copy_basedir (ClassfilePair.expected pair) in
  let replayed_basedir := join basedir (of_string merge_driver) in
  let cmd :=
    ["sootdiff"; "-qname"; (expected_pkg ++ "." ++ stem expected)%string;
     "-reffile"; to_string (join basedir (of_string "expected"));
     "-otherfile"; to_string replayed_basedir] in
  let result := compare_classfiles w pair eval_dir merge_driver h in
  name expected = name replayed ->
  extract_java_package w expected h = (inr expected_pkg, h1) ->
  extract_java_package w replayed h1 = (inr replayed_pkg, h2) ->
  copy_to_pkg_dir w replayed replayed_pkg replayed_basedir h2
  = (inr staged, h3) ->
  invocations "sootdiff" h3 = invocations "sootdiff" h
  /\ if String.eqb expected_pkg replayed_pkg then
       match subprocess_run w h3 cmd (Some 30) with
       | RunRaised e =>
           result
           = (inr None,
              (h3 ++ [EvRun cmd (Some 30);
                      EvLog ERROR "error running sootdiff" (Some e)])%list)
       | Completed proc =>
           match PyStr.decode (stdout proc) with
           | Some out =>
               result
               = (inr (Some (returncode proc =? 0)%Z),
                  (h3 ++ [EvRun cmd (Some 30); EvLog INFO out None])%list)
           | None =>
               exists e,
                 result
                 = (inr None,
                    (h3 ++ [EvRun cmd (Some 30);
                            EvLog ERROR "error running sootdiff" (Some e)])%list)
                 /\ exn_class e = UnicodeDecodeError
           end
       end
     else result = (inr (Some false), h3).
Proof.
  intros expected replayed basedir replayed_basedir cmd result
         Hname He Hr Hc.
  split.
  - rewrite <- (no_sootdiff_step _ _ _ _
                  (extract_java_package_no_sootdiff w expected) He).
    rewrite <- (no_sootdiff_step _ _ _ _
                  (extract_java_package_no_sootdiff w replayed) Hr).
    apply (no_sootdiff_step _ _ _ _
             (copy_to_pkg_dir_no_sootdiff _ _ _ _) Hc).
  - subst result.
    rewrite (compare_classfiles_steps w pair eval_dir merge_driver
               h h1 h2 h3 expected_pkg replayed_pkg staged Hname He Hr Hc).
    fold expected basedir replayed_basedir.
    destruct (String.eqb expected_pkg replayed_pkg); cbn [negb];
      [|reflexivity].
    unfold bind, try_except. subst cmd.
    match goal with
    | |- context [subprocess_run ?a ?b ?c ?d] =>
        destruct (subprocess_run a b c d) as [proc|e] eqn:E
    end.
    + rewrite (EvaluateFacts.run_completed _ _ _ _ _ E).
      unfold decode, lift_option.
      destruct (PyStr.decode (stdout proc)) as [out|]; simpl.
      * unfold log, emit, ret. rewrite <- app_assoc. reflexivity.
      * eexists. unfold log_exception, emit, ret, raise.
        rewrite <- app_assoc. split; reflexivity.
    + rewrite (EvaluateFacts.run_raised _ _ _ _ _ E).
      unfold log_exception, emit, ret. rewrite <- app_assoc. reflexivity.
Qed.

Lemma compare_classfiles_verdict_witness :
  name (ExpectedClassfile.copy_abspath
          (ClassfilePair.expected Scenarios.main_pair))
  = name (ClassfilePair.replayed Scenarios.main_pair)
  /\ fst (compare_classfiles (Scenarios.same_package 0 (fun _ => false))
                             Scenarios.main_pair ["/"; "eval"] "spork" [])
     = inr (Some true)
  /\ fst (compare_classfiles (Scenarios.same_package 2 (fun _ => false))
                             Scenarios.main_pair ["/"; "eval"] "spork" [])
     = inr (Some false)
  /\ compare_classfiles (Scenarios.moved_package (fun _ => false))
                        Scenarios.main_pair ["/"; "eval"] "spork" []
     = (inr (Some false),
        [EvRun ["pkgextractor"; "/eval/expected/org/example/Main.class"]
               (Some 60);
         EvRun ["pkgextractor"; "/repo/target/classes/org/example/Main.class"]
               (Some 60);
         EvMkdir ["/"; "eval"; "spork"; "org"; "moved"];
         EvCopy ["/"; "repo"; "target"; "classes"; "org"; "example";
                 "Main.class"]
                ["/"; "eval"; "spork"; "org"; "moved"; "Main.class"]]).
Proof.
  split; [reflexivity|]. split; [|split].
  - edestruct (compare_classfiles_verdict
                 (Scenarios.same_package 0 (fun _ => false))
                 Scenarios.main_pair ["/"; "eval"] "spork" [])
      as [_ H];
      [reflexivity | vm_compute; reflexivity | vm_compute; reflexivity
      | vm_compute; reflexivity |].
    apply (f_equal fst) in H. exact H.
  - edestruct (compare_classfiles_verdict
                 (Scenarios.same_package 2 (fun _ => false))
                 Scenarios.main_pair ["/"; "eval"] "spork" [])
      as [_ H];
      [reflexivity | vm_compute; reflexivity | vm_compute; reflexivity
      | vm_compute; reflexivity |].
    apply (f_equal fst) in H. exact H.
  - edestruct (compare_classfiles_verdict
                 (Scenarios.moved_package (fun _ => false))
                 Scenarios.main_pair ["/"; "eval"] "spork" [])
      as [_ H];
      [reflexivity | vm_compute; reflexivity | vm_compute; reflexivity
      | vm_compute; reflexivity |].
    exact H.
Defined.

(** The packages differ, but the replayed classfile is already staged for
    this merge driver: [compare_classfiles] raises FileExistsError instead
    of returning False.  And with equal packages and exit status zero, an
    output of the equivalence tool that is not UTF-8 gives None, not True. *)
Lemma compare_classfiles_not_a_verdict :
  (exists h1 h2,
      extract_java_package (Scenarios.moved_package (fun _ => true))
        (ExpectedClassfile.copy_abspath
           (ClassfilePair.expected Scenarios.main_pair)) []
      = (inr "org.example", h1)
      /\ extract_java_package (Scenarios.moved_package (fun _ => true))
           (ClassfilePair.replayed Scenarios.main_pair) h1
         = (inr "org.moved", h2)
      /\ compare_classfiles (Scenarios.moved_package (fun _ => true))
                            Scenarios.main_pair ["/"; "eval"] "spork" []
         = (inl (mkExn FileExistsError
                   ["Classfile /eval/spork/org/moved/Main.class all ready exists!"]),
            (h2 ++ [EvMkdir ["/"; "eval"; "spork"; "org"; "moved"]])%list))
  /\ (subprocess_run Scenarios.garbled_report []
        ["sootdiff"; "-qname"; "org.example.Main"; "-reffile";
         "/eval/expected"; "-otherfile"; "/eval/spork"] (Some 30)
      = Scenarios.exited 0 (PyStr.bytes_of [255; 10]) ""
      /\ fst (compare_classfiles Scenarios.garbled_report Scenarios.main_pair
                                 ["/"; "eval"] "spork" [])
         = inr None).
Proof.
  split.
  - do 2 eexists. split; [reflexivity|]. split; reflexivity.
  - split; reflexivity.
Qed.

(** C9.  Configuration errors are raised before anything is done: a pair
    whose expected and replayed base names differ makes [compare_classfiles]
    raise ValueError, and a path without the [.class] suffix makes
    [remove_duplicate_checkcasts] raise ValueError; in both cases the
    history is what it was, so no package was extracted, nothing was
    staged, and neither the equivalence tool nor the canonicalization tool
    was invoked. *)
Theorem configuration_errors_raised (w : World) (pair : ClassfilePair.t)
    (eval_dir : Path) (merge_driver : string) (path : Path) (h : History) :
  (name (ExpectedClassfile.copy_abspath (ClassfilePair.expected pair))
   <> name (ClassfilePair.replayed pair) ->
   exists e,
     compare_classfiles w pair eval_dir merge_driver h = (inl e, h)
     /\ exn_class e = ValueError)
  /\ (suffix path <> ".class" ->
      exists e,
        remove_duplicate_checkcasts w path h = (inl e, h)
        /\ exn_class e = ValueError).
Proof.
  split; intros Hneq.
  - unfold compare_classfiles.
    apply String.eqb_neq in Hneq. rewrite Hneq. simpl.
    eexists. split; reflexivity.
  - unfold remove_duplicate_checkcasts.
    apply String.eqb_neq in Hneq. rewrite Hneq. simpl.
    eexists. split; reflexivity.
Qed.

Lemma configuration_errors_raised_witness :
  (name (ExpectedClassfile.copy_abspath
           (ClassfilePair.expected Scenarios.mismatched_pair))
   <> name (ClassfilePair.replayed Scenarios.mismatched_pair)
   /\ exists e,
        compare_classfiles (Scenarios.same_package 0 (fun _ => true))
                           Scenarios.mismatched_pair ["/"; "eval"] "spork" []
        = (inl e, [])
        /\ exn_class e = ValueError)
  /\ (suffix Scenarios.expected_java <> ".class"
      /\ exists e,
           remove_duplicate_checkcasts (Scenarios.same_package 0 (fun _ => true))
                                       Scenarios.expected_java []
           = (inl e, [])
           /\ exn_class e = ValueError).
Proof.
  pose proof (configuration_errors_raised
                (Scenarios.same_package 0 (fun _ => true))
                Scenarios.mismatched_pair ["/"; "eval"] "spork"
                Scenarios.expected_java []) as [Hnames Hsuffix].
  split; split; try (vm_compute; discriminate).
  - apply Hnames. vm_compute. discriminate.
  - apply Hsuffix. vm_compute. discriminate.
Defined.

Lemma bind_returns {A B} (m : M A) (k : A -> M B) h y h' :
  bind m k h = (inr y, h') ->
  exists x h1, m h = (inr x, h1) /\ k x h1 = (inr y, h').
Proof.
  unfold bind. destruct (m h) as [[e|x] h1]; [discriminate|].
  intros E. exists x, h1. split; auto.
Qed.

(** Insertion keeps a list of paths in order. *)
Lemma leb_total p q : PyPath.leb p q = false -> PyPath.leb q p = true.
Proof.
  revert q. induction p as [|x xs IH]; intros [|y ys]; simpl; auto;
    try discriminate.
  rewrite (String.compare_antisym y x).
  destruct (String.compare x y); simpl; auto; discriminate.
Qed.

Lemma insert_sorted_in_order p l :
  in_order l -> in_order (insert_sorted p l).
Proof.
  induction 1 as [|q|q r l Hqr Hrest IH]; simpl.
  - constructor.
  - destruct (PyPath.leb p q) eqn:E.
    + apply in_order_cons; [exact E | constructor].
    + apply in_order_cons; [apply leb_total; exact E | constructor].
  - destruct (PyPath.leb p q) eqn:E.
    + apply in_order_cons; [exact E|]. apply in_order_cons; assumption.
    + simpl in IH. destruct (PyPath.leb p r) eqn:E'.
      * apply in_order_cons; [apply leb_total; exact E | exact IH].
      * apply in_order_cons; [exact Hqr | exact IH].
Qed.

Lemma sorted_in_order l : in_order (sorted l).
Proof.
  induction l as [|p l IH]; simpl.
  - constructor.
  - apply insert_sorted_in_order. exact IH.
Qed.

(** When the source file is there and nothing raises, [locate_classfiles]
    returns a list of paths in order together with a package name. *)
Lemma locate_classfiles_present w src basedir h located h' :
  is_file w h src = true ->
  locate_classfiles w src basedir h = (inr located, h') ->
  exists classfiles pkg,
    located = ListAndPackage classfiles pkg /\ in_order classfiles.
Proof.
  intros Hsrc. unfold locate_classfiles, bind at 1, observe.
  rewrite Hsrc. simpl negb. cbv iota. intros E.
  repeat (apply bind_returns in E as (? & ? & _ & E)).
  inversion E; subst. do 2 eexists. split; [reflexivity|].
  apply sorted_in_order.
Qed.

(** C6 (what the code does).  For a source path that is not a file on
    disk, [locate_classfiles] logs one warning, raises nothing and returns
    the bare empty list: not the pair of a list and a package name that its
    last line returns. *)
Theorem locate_classfiles_missing_source (w : World) (src basedir : Path)
    (h : History) :
  is_file w h src = false ->
  locate_classfiles w src basedir h
  = (inr (BareList []),
     (h ++ [EvLog WARNING
              (to_string src ++ " is not in " ++ to_string basedir
               ++ ". This is typically caused by renaming that Git cannot detect")%string
              None])%list)
  /\ forall pkg, BareList [] <> ListAndPackage [] pkg.
Proof.
  intros Hsrc. split; [|discriminate].
  unfold locate_classfiles, bind at 1, observe. rewrite Hsrc. reflexivity.
Qed.

Lemma locate_classfiles_missing_source_witness :
  is_file Scenarios.quiet [] Scenarios.expected_java = false
  /\ fst (locate_classfiles Scenarios.quiet Scenarios.expected_java
                            Scenarios.repo [])
     = inr (BareList []).
Proof.
  split; [reflexivity|].
  destruct (locate_classfiles_missing_source Scenarios.quiet
              Scenarios.expected_java Scenarios.repo [] eq_refl) as [H _].
  apply (f_equal fst) in H. exact H.
Defined.

Lemma for_yield_app {A Y} (body : A -> M Y) before after h ys h1 :
  for_yield body before h = ((ys, None), h1) ->
  for_yield body (before ++ after)%list h
  = let '((zs, e), h2) := for_yield body after h1 in ((ys ++ zs)%list, e, h2).
Proof.
  revert h ys. induction before as [|x before IH]; intros h ys E.
  - simpl in E. inversion E; subst. simpl.
    destruct (for_yield body after h1) as [[zs e] h2]. reflexivity.
  - simpl in E |- *. destruct (body x h) as [[e|y] h0]; [discriminate|].
    destruct (for_yield body before h0) as [[ys0 e0] h00] eqn:E0.
    inversion E; subst. rewrite (IH _ _ E0).
    destruct (for_yield body after h1) as [[zs e] h2]. reflexivity.
Qed.

Lemma compare_pair_missing w eval_dir merge_driver pair h :
  is_file w h (ClassfilePair.replayed pair) = false ->
  compare_pair w eval_dir merge_driver pair h
  = (inr (pair, Some false),
     (h ++ [EvLog WARNING
              ("No replayed classfile corresponding to "
               ++ name (ExpectedClassfile.copy_abspath
                          (ClassfilePair.expected pair)))%string
              None])%list).
Proof.
  intros Hmissing. unfold compare_pair, bind at 1, observe.
  rewrite Hmissing. reflexivity.
Qed.

(** A replayed file that is there but is no [.class] file ends the
    generator with the ValueError of [remove_duplicate_checkcasts]: the
    configuration error is not swallowed on the way up. *)
Lemma compare_compiled_bytecode_not_a_classfile w basedir eval_dir
    merge_driver expected after h :
  let replayed := join basedir (ExpectedClassfile.original_relpath expected) in
  is_file w h replayed = true ->
  suffix replayed <> ".class" ->
  exists e h',
    compare_compiled_bytecode w basedir (expected :: after) eval_dir
                              merge_driver h
    = (([], Some e), h')
    /\ exn_class e = ValueError
    /\ invocations "duplicate-checkcast-remover" h'
       = invocations "duplicate-checkcast-remover" h.
Proof.
  intros replayed Hfile Hsuffix.
  apply String.eqb_neq in Hsuffix.
  assert (Hpair :
            exists e h',
              compare_pair w eval_dir merge_driver
                           (ClassfilePair.mk expected replayed) h
              = (inl e, h')
              /\ exn_class e = ValueError
              /\ invocations "duplicate-checkcast-remover" h'
                 = invocations "duplicate-checkcast-remover" h).
  { unfold compare_pair. cbv zeta. unfold bind, observe, log, emit.
    cbn [ClassfilePair.replayed]. rewrite Hfile. cbn [negb].
    unfold remove_duplicate_checkcasts. rewrite Hsuffix. cbn [negb].
    do 2 eexists. split; [reflexivity|]. split; [reflexivity|].
    apply invocations_unchanged. reflexivity. }
  destruct Hpair as (e & h' & Hpair & Hclass & Hinv).
  exists e, h'. split; [|split; assumption].
  unfold compare_compiled_bytecode, generate_classfile_pairs.
  cbn [map for_yield]. fold replayed. rewrite Hpair. reflexivity.
Qed.

(** C10 (as amended).  When [compare_compiled_bytecode] reaches an expected
    classfile whose replayed classfile is not a file on disk, that is, when
    the classfiles before it were processed without an exception, it logs a
    warning and yields the pair with the verdict False (not None); the
    warning is the only event of that turn of the loop, so neither the
    canonicalization tool nor the equivalence tool is invoked for the pair,
    and the generator goes on with the classfiles that follow. *)
Theorem missing_replayed_classfile_yields_false (w : World)
    (replayed_compile_basedir eval_dir : Path) (merge_driver : string)
    (before after : list ExpectedClassfile.t) (expected : ExpectedClassfile.t)
    (h h1 : History) (yielded : list (ClassfilePair.t * option bool)) :
  let pair :=
    ClassfilePair.mk expected
      (join replayed_compile_basedir
            (ExpectedClassfile.original_relpath expected)) in
  let warning :=
    EvLog WARNING
      ("No replayed classfile corresponding to "
       ++ name (ExpectedClassfile.copy_abspath expected))%string None in
  compare_compiled_bytecode w replayed_compile_basedir before eval_dir
                            merge_driver h
  = ((yielded, None), h1) ->
  is_file w h1 (ClassfilePair.replayed pair) = false ->
  compare_pair w eval_dir merge_driver pair h1
  = (inr (pair, Some false), (h1 ++ [warning])%list)
  /\ exists rest err h2,
       compare_compiled_bytecode w replayed_compile_basedir after eval_dir
                                 merge_driver (h1 ++ [warning])%list
       = ((rest, err), h2)
       /\ compare_compiled_bytecode w replayed_compile_basedir
                                    (before ++ expected :: after)%list
                                    eval_dir merge_driver h
          = (((yielded ++ (pair, Some false) :: rest)%list, err), h2).
Proof.
  intros pair warning Hbefore Hmissing.
  pose proof (compare_pair_missing w eval_dir merge_driver pair h1 Hmissing)
    as Hpair.
  change (compare_pair w eval_dir merge_driver pair h1
          = (inr (pair, Some false), (h1 ++ [warning])%list)) in Hpair.
  split; [exact Hpair|].
  unfold compare_compiled_bytecode in *.
  unfold generate_classfile_pairs in *. rewrite map_app.
  rewrite (for_yield_app _ _ _ _ _ _ Hbefore).
  simpl map. fold pair. simpl for_yield. rewrite Hpair.
  destruct (for_yield _ _ (h1 ++ [warning])%list) as [[rest err] h2].
  exists rest, err, h2. split; reflexivity.
Qed.

Lemma missing_replayed_classfile_yields_false_witness :
  exists yielded h1 rest err h2,
    compare_compiled_bytecode
      (Scenarios.same_package 0 MoreScenarios.only_main_replayed)
      Scenarios.repo [Scenarios.main_expected] ["/"; "eval"] "spork" []
    = ((yielded, None), h1)
    /\ yielded = [(Scenarios.main_pair, Some true)]
    /\ is_file (Scenarios.same_package 0 MoreScenarios.only_main_replayed) h1
               (ClassfilePair.replayed MoreScenarios.other_pair)
       = false
    /\ compare_compiled_bytecode
         (Scenarios.same_package 0 MoreScenarios.only_main_replayed)
         Scenarios.repo
         [Scenarios.main_expected; MoreScenarios.other_expected]
         ["/"; "eval"] "spork" []
       = (((yielded ++ (MoreScenarios.other_pair, Some false) :: rest)%list,
           err), h2).
Proof.
  destruct (compare_compiled_bytecode
              (Scenarios.same_package 0 MoreScenarios.only_main_replayed)
              Scenarios.repo [Scenarios.main_expected] ["/"; "eval"]
              "spork" []) as [[yielded e] h1] eqn:Hbefore.
  assert (Hshape : yielded = [(Scenarios.main_pair, Some true)] /\ e = None)
    by (vm_compute in Hbefore; inversion Hbefore; split; reflexivity).
  destruct Hshape as [Hyielded ->].
  destruct (missing_replayed_classfile_yields_false
              (Scenarios.same_package 0 MoreScenarios.only_main_replayed)
              Scenarios.repo ["/"; "eval"] "spork"
              [Scenarios.main_expected] [] MoreScenarios.other_expected
              [] h1 yielded Hbefore eq_refl)
    as [_ (rest & err & h2 & _ & H)].
  exists yielded, h1, rest, err, h2.
  split; [reflexivity|]. split; [exact Hyielded|].
  split; [reflexivity | exact H].
Defined.

(** The replayed build produced [Main.class] but not [Other.class], and the
    canonicalization tool exits with status 1 on [Main.class]: the
    generator ends with RuntimeError at the first classfile, so for the
    missing [Other.class] no warning is logged and no verdict is yielded. *)
Lemma missing_replayed_classfile_not_reached :
  let w := MoreScenarios.broken_canonicalization in
  (forall h, is_file w h (ClassfilePair.replayed MoreScenarios.other_pair)
             = false)
  /\ compare_compiled_bytecode w Scenarios.repo
       [Scenarios.main_expected; MoreScenarios.other_expected]
       ["/"; "eval"] "spork" []
     = (([], Some (mkExn RuntimeError
                     ["Failed to run duplicate-checkast-remover on /repo/target/classes/org/example/Main.class"])),
        [EvLog INFO
           "Removing duplicate checkcasts from replayed revision of Main.class"
           None;
         EvRun ["duplicate-checkcast-remover";
                "/repo/target/classes/org/example/Main.class"] (Some 60)]).
Proof. split; [intros h|]; reflexivity. Qed.

End JavautilsFacts.

(** * Further properties *)

(** ** The conflict parser on any text *)

Module ConflictTextFacts.

Import Evaluate ConflictText.

(** What [takewhile] leaves: the lines taken all pass the test, and the
    iterator was the lines taken, then (unless it ran out) the line that
    failed the test, then what remains. *)
Lemma takewhile_split p it :
  let (taken, remaining) := takewhile p it in
  forallb p taken = true
  /\ ((it = taken /\ remaining = [])
      \/ exists stop, p stop = false
                      /\ it = (taken ++ stop :: remaining)%list).
Proof.
  induction it as [|x it IH]; simpl.
  - split; auto.
  - destruct (p x) eqn:Hx.
    + destruct (takewhile p it) as [taken remaining].
      destruct IH as [Hall [[Hit Hrem] | [stop [Hstop Hit]]]]; simpl;
        rewrite Hx, Hall; split; auto.
      * left. subst. auto.
      * right. exists stop. subst. auto.
    + split; auto. right. exists x. auto.
Qed.

Lemma takewhile_all p it :
  forallb p it = true -> takewhile p it = (it, []).
Proof.
  induction it as [|x it IH]; simpl; auto.
  intros H. apply andb_prop in H as [Hx H]. rewrite Hx, IH; auto.
Qed.

(** The conflict read after a start marker, and the lines left after it:
    its sides and the lines left are pieces of the lines it read from. *)
Lemma extract_conflict_split lines :
  let (c, rest) := _extract_conflict lines in
  forallb (fun x => negb (is_mid x)) (left c) = true
  /\ forallb (fun x => negb (is_end x)) (right c) = true
  /\ exists gap1 gap2,
       lines = (left c ++ gap1 ++ right c ++ gap2 ++ rest)%list
       /\ length gap1 <= 1 /\ length gap2 <= 1.
Proof.
  unfold _extract_conflict.
  pose proof (takewhile_split
                (fun line => negb (PyStr.startswith line MID_CONFLICT)) lines)
    as H1.
  destruct (takewhile _ lines) as [l after_mid].
  pose proof (takewhile_split
                (fun line => negb (PyStr.startswith line END_CONFLICT))
                after_mid) as H2.
  destruct (takewhile _ after_mid) as [r after_end]. simpl.
  destruct H1 as [Hl H1], H2 as [Hr H2].
  split; [exact Hl|]. split; [exact Hr|].
  destruct H1 as [[E1 R1] | [mid [_ E1]]];
    destruct H2 as [[E2 R2] | [en [_ E2]]].
  - subst. exists [], []. simpl. rewrite app_nil_r. auto.
  - rewrite R1 in E2. exfalso. eapply app_cons_not_nil. exact E2.
  - subst. exists [mid], []. simpl. rewrite app_nil_r. auto.
  - subst. exists [mid], [en]. simpl. auto.
Qed.

Lemma filter_length_app {A} (f : A -> bool) l1 l2 :
  length (filter f (l1 ++ l2)) = length (filter f l1) + length (filter f l2).
Proof. rewrite filter_app, length_app. reflexivity. Qed.

(** The loop, whatever the text: the conflicts and their start markers fit
    in the text, there are no more conflicts than start markers, and the
    lines of a side are lines of the text that do not carry the marker
    that closes the side. *)
Lemma scan_bounds fuel :
  forall lines,
    total_lines (scan fuel lines) + length (scan fuel lines) <= length lines
    /\ length (scan fuel lines) <= length (filter opens_conflict lines)
    /\ Forall (fun c =>
                 Forall (fun x => In x lines /\ is_mid x = false) (left c)
                 /\ Forall (fun x => In x lines /\ is_end x = false) (right c))
              (scan fuel lines).
Proof.
  induction fuel as [|fuel IH]; intros lines; simpl.
  - repeat split; try lia. constructor.
  - destruct lines as [|line rest]; simpl.
    + repeat split; try lia. constructor.
    + fold (opens_conflict line).
      destruct (opens_conflict line) eqn:Hopen.
      * pose proof (extract_conflict_split rest) as Hsplit.
        destruct (_extract_conflict rest) as [c rest'].
        destruct Hsplit as (Hl & Hr & gap1 & gap2 & Hrest & Hg1 & Hg2).
        destruct (IH rest') as (Hsize & Hcount & Hin).
        assert (Hlen : length rest
                       = length (left c) + length gap1 + length (right c)
                         + length gap2 + length rest')
          by (rewrite Hrest, !length_app; lia).
        split; [|split].
        -- unfold total_lines in *. simpl. unfold num_lines at 1. lia.
        -- simpl. rewrite Hrest, !filter_length_app. lia.
        -- constructor.
           ++ split; apply Forall_forall; intros x Hx; split.
              ** right. rewrite Hrest. apply in_or_app. auto.
              ** rewrite forallb_forall in Hl. apply negb_true_iff. auto.
              ** right. rewrite Hrest. rewrite !in_app_iff. auto.
              ** rewrite forallb_forall in Hr. apply negb_true_iff. auto.
           ++ eapply Forall_impl; [|exact Hin]. intros c' [Hl' Hr'].
              split; (eapply Forall_impl; [|eassumption]);
                intros x [Hx Hm]; (split; [|exact Hm]);
                right; rewrite Hrest, !in_app_iff; auto.
      * destruct (IH rest) as (Hsize & Hcount & Hin).
        split; [lia|]. split; [exact Hcount|].
        eapply Forall_impl; [|exact Hin]. intros c' [Hl' Hr'].
        split; (eapply Forall_impl; [|eassumption]);
          intros x [Hx Hm]; (split; [|exact Hm]); right; exact Hx.
Qed.

Lemma sum_num_lines_total conflicts :
  sum_num_lines conflicts = total_lines conflicts.
Proof.
  unfold sum_num_lines, total_lines.
  assert (H : forall acc, fold_left (fun a c => a + num_lines c) conflicts acc
                          = acc + list_sum (map num_lines conflicts)).
  { induction conflicts as [|c cs IH]; intros acc; simpl; [lia|].
    rewrite IH. lia. }
  apply H.
Qed.

Lemma conflicts_of_lines_skip pre rest :
  forallb (fun x => negb (opens_conflict x)) pre = true ->
  conflicts_of_lines (pre ++ rest)%list = conflicts_of_lines rest.
Proof.
  unfold conflicts_of_lines. induction pre as [|x pre IH]; simpl; auto.
  intros H. apply andb_prop in H as [Hx H]. apply negb_true_iff in Hx.
  unfold opens_conflict in Hx. rewrite Hx. auto.
Qed.

Lemma conflicts_of_lines_start start rest :
  opens_conflict start = true ->
  conflicts_of_lines (start :: rest)
  = fst (_extract_conflict rest)
    :: conflicts_of_lines (snd (_extract_conflict rest)).
Proof.
  intros Hstart. unfold conflicts_of_lines. simpl.
  unfold opens_conflict in Hstart. rewrite Hstart.
  pose proof (ConflictFacts.extract_conflict_remaining rest) as Hrem.
  destruct (_extract_conflict rest) as [c rest']. simpl in *.
  f_equal. apply ConflictFacts.scan_fuel_enough; lia.
Qed.

Lemma extract_conflicts_of_lines w path h lines :
  readlines w h path = inr lines ->
  extract_conflicts w path h = (inr (conflicts_of_lines lines), h).
Proof.
  intros Hread. unfold extract_conflicts, bind, ask. rewrite Hread.
  reflexivity.
Qed.

(** X1.  Whatever the text of the file, the conflicts [extract_conflicts]
    returns fit in it: the lines of all sides together with one start
    marker for each conflict are no more than the lines of the file, and
    there are no more conflicts than lines that begin with the start
    marker. *)
Theorem extract_conflicts_fit_the_text (w : World) (path : Path)
    (h : History) (lines : list string) :
  readlines w h path = inr lines ->
  exists conflicts,
    extract_conflicts w path h = (inr conflicts, h)
    /\ sum_num_lines conflicts + length conflicts <= length lines
    /\ length conflicts <= length (filter opens_conflict lines).
Proof.
  intros Hread. exists (conflicts_of_lines lines).
  split; [apply extract_conflicts_of_lines; exact Hread|].
  rewrite sum_num_lines_total. unfold conflicts_of_lines.
  destruct (scan_bounds (length lines) lines) as (Hsize & Hcount & _).
  split; assumption.
Qed.

Lemma extract_conflicts_fit_the_text_witness :
  readlines (Scenarios.world_of (fun _ => Scenarios.exited 0 "" "")
                                (fun _ => true)
                                (Document.render Scenarios.deletion_conflict))
            [] Scenarios.merged_file
  = inr (Document.render Scenarios.deletion_conflict)
  /\ exists conflicts,
       extract_conflicts
         (Scenarios.world_of (fun _ => Scenarios.exited 0 "" "")
                             (fun _ => true)
                             (Document.render Scenarios.deletion_conflict))
         Scenarios.merged_file [] = (inr conflicts, [])
       /\ sum_num_lines conflicts + length conflicts
          <= length (Document.render Scenarios.deletion_conflict)
       /\ length conflicts
          <= length (filter opens_conflict
                            (Document.render Scenarios.deletion_conflict)).
Proof.
  split; [reflexivity|].
  apply extract_conflicts_fit_the_text. reflexivity.
Defined.

(** X2.  Whatever the text of the file, every line of a left side is a
    line of the file that does not begin with the mid marker, and every
    line of a right side is a line of the file that does not begin with the
    end marker: no side runs past the marker that closes it. *)
Theorem extract_conflicts_sides (w : World) (path : Path) (h : History)
    (lines : list string) (conflicts : list MergeConflict)
    (c : MergeConflict) :
  readlines w h path = inr lines ->
  extract_conflicts w path h = (inr conflicts, h) ->
  In c conflicts ->
  (forall x, In x (left c) -> In x lines /\ is_mid x = false)
  /\ (forall x, In x (right c) -> In x lines /\ is_end x = false).
Proof.
  intros Hread Hrun Hc.
  rewrite (extract_conflicts_of_lines _ _ _ _ Hread) in Hrun.
  inversion Hrun; subst conflicts. unfold conflicts_of_lines in Hc.
  destruct (scan_bounds (length lines) lines) as (_ & _ & Hall).
  rewrite Forall_forall in Hall. destruct (Hall c Hc) as [Hl Hr].
  rewrite Forall_forall in Hl, Hr. split; auto.
Qed.

Lemma extract_conflicts_sides_witness :
  let w := Scenarios.world_of (fun _ => Scenarios.exited 0 "" "")
                              (fun _ => true)
                              (Document.render Scenarios.two_one_conflict) in
  let c := mkConflict [Scenarios.line "a"; Scenarios.line "b"]
                      [Scenarios.line "c"] in
  (forall x, In x (left c) ->
             In x (Document.render Scenarios.two_one_conflict)
             /\ is_mid x = false)
  /\ (forall x, In x (right c) ->
                In x (Document.render Scenarios.two_one_conflict)
                /\ is_end x = false).
Proof.
  intros w c.
  apply (extract_conflicts_sides w Scenarios.merged_file [] _ [c] c);
    [reflexivity | reflexivity | left; reflexivity].
Defined.

(** X3.  A conflict that the text does not close takes what is left of the
    file.  After the last start marker, when no later line begins with the
    mid marker, all the lines that follow are the left side and the right
    side is empty; when a mid marker follows but no line after it begins
    with the end marker, the lines after the mid marker are the right
    side.  No error is raised. *)
Theorem extract_conflicts_unterminated (w : World) (path : Path)
    (h : History) (before : list string) (start : string)
    (l : list string) (mid : string) (r : list string) :
  forallb (fun x => negb (opens_conflict x)) before = true ->
  opens_conflict start = true ->
  forallb (fun x => negb (is_mid x)) l = true ->
  is_mid mid = true ->
  forallb (fun x => negb (is_end x)) r = true ->
  (readlines w h path = inr (before ++ start :: l)%list ->
   extract_conflicts w path h = (inr [mkConflict l []], h))
  /\ (readlines w h path = inr (before ++ start :: l ++ mid :: r)%list ->
      extract_conflicts w path h = (inr [mkConflict l r], h)).
Proof.
  intros Hbefore Hstart Hl Hmid Hr. split; intros Hread;
    rewrite (extract_conflicts_of_lines _ _ _ _ Hread);
    rewrite conflicts_of_lines_skip by exact Hbefore;
    rewrite conflicts_of_lines_start by exact Hstart;
    unfold _extract_conflict.
  - rewrite (takewhile_all _ l) by exact Hl. reflexivity.
  - rewrite ConflictFacts.takewhile_stops
      by (auto; unfold is_mid in Hmid; rewrite Hmid; reflexivity).
    rewrite (takewhile_all _ r) by exact Hr. reflexivity.
Qed.

Lemma extract_conflicts_unterminated_witness :
  let text := [Scenarios.line "class A {"; Scenarios.line "<<<<<<< HEAD";
               Scenarios.line "  int x = 1;"; Scenarios.line "}"] in
  extract_conflicts
    (Scenarios.world_of (fun _ => Scenarios.exited 0 "" "") (fun _ => true)
                        text)
    Scenarios.merged_file []
  = (inr [mkConflict [Scenarios.line "  int x = 1;"; Scenarios.line "}"] []],
     []).
Proof.
  intros text.
  apply (proj1 (extract_conflicts_unterminated
                  (Scenarios.world_of (fun _ => Scenarios.exited 0 "" "")
                                      (fun _ => true) text)
                  Scenarios.merged_file []
                  [Scenarios.line "class A {"] (Scenarios.line "<<<<<<< HEAD")
                  [Scenarios.line "  int x = 1;"; Scenarios.line "}"]
                  (Scenarios.line "=======") []
                  eq_refl eq_refl eq_refl eq_refl eq_refl)).
  reflexivity.
Defined.

Lemma string_append_assoc (a b c : string) :
  ((a ++ b) ++ c = a ++ (b ++ c))%string.
Proof. induction a; simpl; congruence. Qed.

(** A whole line at the head of a text is the first line read from it. *)
Lemma text_lines_whole_line line rest :
  whole_line line = true ->
  text_lines (line ++ rest) = line :: text_lines rest.
Proof.
  unfold text_lines. induction line as [|c l IH]; [discriminate|].
  cbn [whole_line]. destruct (Ascii.eqb c PyStr.nl) eqn:Hnl.
  - intros Hl. apply String.eqb_eq in Hl. subst l.
    apply Ascii.eqb_eq in Hnl. subst c. reflexivity.
  - intros H. apply andb_prop in H as [Hcr Hl].
    apply negb_true_iff in Hcr.
    cbn [append universal_newlines]. rewrite Hcr.
    cbn [keepends]. rewrite Hnl. rewrite (IH Hl). reflexivity.
Qed.

Lemma text_lines_whole_lines lines rest :
  forallb whole_line lines = true ->
  text_lines (String.concat "" lines ++ rest) = (lines ++ text_lines rest)%list.
Proof.
  induction lines as [|x lines IH]; [reflexivity|].
  intros H. apply andb_prop in H as [Hx Hlines].
  replace (String.concat "" (x :: lines))
    with (x ++ String.concat "" lines)%string.
  - rewrite string_append_assoc, (text_lines_whole_line _ _ Hx), (IH Hlines).
    reflexivity.
  - destruct lines; [|reflexivity]. simpl. clear.
    induction x; simpl; congruence.
Qed.

(** The lines read from a printed conflict whose side lines are whole
    lines. *)
Lemma text_lines_printed (c : MergeConflict) :
  forallb whole_line (left c) = true ->
  forallb whole_line (right c) = true ->
  text_lines (pretty_print_conflict c) = printed_lines c.
Proof.
  intros Hl Hr. unfold pretty_print_conflict, printed_lines. cbv zeta.
  fold newline.
  rewrite <- string_append_assoc.
  rewrite (text_lines_whole_line (START_CONFLICT ++ newline)) by reflexivity.
  f_equal.
  rewrite (text_lines_whole_lines _ _ Hl).
  f_equal.
  rewrite <- string_append_assoc.
  rewrite (text_lines_whole_line (MID_CONFLICT ++ newline)) by reflexivity.
  f_equal.
  rewrite (text_lines_whole_lines _ _ Hr).
  reflexivity.
Qed.

(** X4.  Printing a conflict and reading it back gives the conflict.  When
    the lines of both sides are whole lines (each ends with a line feed and
    holds no other line feed and no carriage return), no left line begins
    with the mid marker and no right line begins with the end marker, the
    lines read from the text [pretty_print_conflict] builds are parsed into
    that conflict alone; so [extract_conflicts] on a file that holds the
    printed text returns the conflict. *)
Theorem pretty_print_then_parse (c : MergeConflict) :
  forallb whole_line (left c) = true ->
  forallb whole_line (right c) = true ->
  forallb (fun x => negb (is_mid x)) (left c) = true ->
  forallb (fun x => negb (is_end x)) (right c) = true ->
  conflicts_of_lines (text_lines (pretty_print_conflict c)) = [c]
  /\ forall (w : World) (path : Path) (h : History),
       readlines w h path = inr (text_lines (pretty_print_conflict c)) ->
       extract_conflicts w path h = (inr [c], h).
Proof.
  intros Hwl Hwr Hl Hr.
  assert (Hparse : conflicts_of_lines (text_lines (pretty_print_conflict c))
                   = [c]).
  { rewrite (text_lines_printed c Hwl Hwr). unfold printed_lines.
    rewrite conflicts_of_lines_start by reflexivity.
    unfold _extract_conflict.
    rewrite ConflictFacts.takewhile_stops by (auto; reflexivity).
    rewrite ConflictFacts.takewhile_stops by (auto; reflexivity).
    simpl. destruct c. reflexivity. }
  split; [exact Hparse|].
  intros w path h Hread.
  rewrite (extract_conflicts_of_lines _ _ _ _ Hread), Hparse. reflexivity.
Qed.

Lemma pretty_print_then_parse_witness :
  let c := mkConflict [Scenarios.line "a"; Scenarios.line "b"]
                      [Scenarios.line "c"] in
  extract_conflicts
    (Scenarios.world_of (fun _ => Scenarios.exited 0 "" "") (fun _ => true)
                        (text_lines (pretty_print_conflict c)))
    Scenarios.merged_file []
  = (inr [c], []).
Proof.
  intros c.
  apply (proj2 (pretty_print_then_parse c eq_refl eq_refl eq_refl eq_refl)).
  reflexivity.
Defined.

(** Side lines without their line ends do not come back: the printed text
    runs them into the markers, and what is read is another conflict. *)
Example pretty_print_without_line_ends :
  let c := mkConflict ["a"] ["b"] in
  text_lines (pretty_print_conflict c)
  = [Scenarios.line "<<<<<<<"; Scenarios.line "a======="; "b>>>>>>>"]
  /\ conflicts_of_lines (text_lines (pretty_print_conflict c))
     = [mkConflict [Scenarios.line "a======="; "b>>>>>>>"] []].
Proof. split; reflexivity. Qed.

End ConflictTextFacts.

(** ** The evaluation record and the distance, further *)

Module EvaluateMoreFacts.

Import Evaluate.

Lemma bind_returned {A B} (m : M A) (k : A -> M B) h y h' :
  bind m k h = (inr y, h') ->
  exists x h1, m h = (inr x, h1) /\ k x h1 = (inr y, h').
Proof.
  unfold bind. destruct (m h) as [[e|x] h1]; [discriminate|].
  intros E. exists x, h1. split; auto.
Qed.

Lemma read_local_returned name v h x h' :
  read_local name v h = (inr x, h') -> v = Some x /\ h' = h.
Proof.
  unfold read_local, lift_option. destruct v; simpl; intros E;
    inversion E; auto.
Qed.

(** What an evaluation that [evaluation_result] returns is made of. *)
Lemma evaluation_result_only_success (w : World) (merge_result : MergeResult.t)
    (base_merge_dir : Path) (h h' : History) (ev : MergeEvaluation.t) :
  evaluation_result w merge_result base_merge_dir h = (inr ev, h') ->
  MergeResult.outcome merge_result = SUCCESS
  /\ MergeEvaluation.outcome ev = SUCCESS
  /\ (0 <= MergeEvaluation.gumtree_diff_size ev)%Z
  /\ (0 <= MergeEvaluation.gumtree_diff_size_norm ev)%Z
  /\ (0 <= MergeEvaluation.git_diff_size ev)%Z
  /\ (0 <= MergeEvaluation.git_diff_size_norm ev)%Z
  /\ (0 <= MergeEvaluation.conflict_size ev)%Z
  /\ (0 <= MergeEvaluation.num_conflicts ev)%Z
  /\ relative_to (MergeResult.merge_dir merge_result) base_merge_dir
     = Some (MergeEvaluation.merge_dir ev)
  /\ MergeEvaluation.merge_cmd ev = MergeResult.merge_cmd merge_result
  /\ MergeEvaluation.runtime ev = MergeResult.runtime merge_result.
Proof.
  unfold evaluation_result. intros E.
  apply bind_returned in E as (locals & h1 & Hlocals & E).
  apply bind_returned in E as (merge_dir & h2 & Hdir & E).
  apply bind_returned in E as (merge_commit & h3 & _ & E).
  apply bind_returned in E as (gt & h4 & Hgt & E).
  apply bind_returned in E as (gtn & h5 & Hgtn & E).
  apply bind_returned in E as (gd & h6 & Hgd & E).
  apply bind_returned in E as (gdn & h7 & Hgdn & E).
  apply bind_returned in E as (cs & h8 & Hcs & E).
  apply bind_returned in E as (nc & h9 & Hnc & E).
  apply bind_returned in E as (bb & h10 & _ & E).
  apply bind_returned in E as (lb & h11 & _ & E).
  apply bind_returned in E as (rb & h12 & _ & E).
  apply bind_returned in E as (eb & h13 & _ & E).
  inversion E; subst ev; clear E. simpl.
  apply read_local_returned in Hgt as [Hgt _].
  apply read_local_returned in Hgtn as [Hgtn _].
  apply read_local_returned in Hgd as [Hgd _].
  apply read_local_returned in Hgdn as [Hgdn _].
  apply read_local_returned in Hcs as [Hcs _].
  apply read_local_returned in Hnc as [Hnc _].
  assert (Hrel : relative_to (MergeResult.merge_dir merge_result)
                             base_merge_dir = Some merge_dir).
  { unfold lift_option in Hdir.
    destruct (relative_to _ _); inversion Hdir; reflexivity. }
  destruct (outcome_eqb (MergeResult.outcome merge_result) SUCCESS) eqn:Hout.
  - assert (Hsuccess : MergeResult.outcome merge_result = SUCCESS)
      by (destruct (MergeResult.outcome merge_result); auto; discriminate).
    apply bind_returned in Hlocals as (conflicts & ? & _ & Hlocals).
    apply bind_returned in Hlocals as (? & ? & _ & Hlocals).
    apply bind_returned in Hlocals as (? & ? & _ & Hlocals).
    apply bind_returned in Hlocals as (? & ? & _ & Hlocals).
    apply bind_returned in Hlocals as (? & ? & _ & Hlocals).
    apply bind_returned in Hlocals as (? & ? & _ & Hlocals).
    apply bind_returned in Hlocals as (? & ? & _ & Hlocals).
    inversion Hlocals; subst locals; clear Hlocals. simpl in *.
    inversion Hgt; inversion Hgtn; inversion Hgd; inversion Hgdn;
      inversion Hcs; inversion Hnc.
    repeat split; auto; apply Nat2Z.is_nonneg.
  - inversion Hlocals; subst locals. simpl in Hgtn. discriminate.
Qed.

(** X5.  Whenever [evaluation_result] returns an evaluation, the outcome of
    the merge was SUCCESS and none of the six metrics is the sentinel -1:
    the four diff sizes and the two conflict statistics are all at least
    zero.  The merge directory of the evaluation is the merge directory of
    the result made relative to the base directory, and the merge command
    and the runtime are those of the result. *)
Theorem evaluation_result_returned (w : World) (merge_result : MergeResult.t)
    (base_merge_dir : Path) (h h' : History) (ev : MergeEvaluation.t) :
  evaluation_result w merge_result base_merge_dir h = (inr ev, h') ->
  MergeResult.outcome merge_result = SUCCESS
  /\ MergeEvaluation.outcome ev = SUCCESS
  /\ (0 <= MergeEvaluation.gumtree_diff_size ev)%Z
  /\ (0 <= MergeEvaluation.gumtree_diff_size_norm ev)%Z
  /\ (0 <= MergeEvaluation.git_diff_size ev)%Z
  /\ (0 <= MergeEvaluation.git_diff_size_norm ev)%Z
  /\ (0 <= MergeEvaluation.conflict_size ev)%Z
  /\ (0 <= MergeEvaluation.num_conflicts ev)%Z
  /\ relative_to (MergeResult.merge_dir merge_result) base_merge_dir
     = Some (MergeEvaluation.merge_dir ev)
  /\ MergeEvaluation.merge_cmd ev = MergeResult.merge_cmd merge_result
  /\ MergeEvaluation.runtime ev = MergeResult.runtime merge_result.
Proof. apply evaluation_result_only_success. Qed.

Lemma evaluation_result_returned_witness :
  exists ev h',
    evaluation_result Scenarios.conflicting_merge_world
                      Scenarios.conflicting_merge ["/"; "merges"] []
    = (inr ev, h')
    /\ MergeEvaluation.outcome ev = SUCCESS
    /\ (0 <= MergeEvaluation.gumtree_diff_size_norm ev)%Z
    /\ MergeEvaluation.merge_cmd ev = "spork".
Proof.
  destruct (evaluation_result Scenarios.conflicting_merge_world
              Scenarios.conflicting_merge ["/"; "merges"] [])
    as [[e|ev] h'] eqn:E; [vm_compute in E; discriminate|].
  exists ev, h'. split; [reflexivity|].
  destruct (evaluation_result_returned _ _ _ _ _ _ E)
    as (_ & Hout & _ & Hgtn & _ & _ & _ & _ & _ & Hcmd & _).
  repeat split; assumption.
Defined.

(** X6.  A distance utility that exits with status zero and prints nothing
    but blank lines makes [normalized_comparison] raise IndexError: there
    is no last line to read the distance from.  The sentinel is not
    returned and nothing is logged. *)
Theorem normalized_comparison_no_output (w : World)
    (base_file dest_file : Path) (h : History) (proc : CompletedProcess)
    (output : string) :
  let cmd := ["spork"; "compare"; to_string base_file; to_string dest_file] in
  subprocess_run w h cmd None = Completed proc ->
  returncode proc = 0%Z ->
  PyStr.decode (stdout proc) = Some output ->
  forallb (fun line => negb (PyStr.truthy (PyStr.strip line)))
          (PyStr.split_on PyStr.nl output) = true ->
  normalized_comparison w base_file dest_file h
  = (inl (mkExn IndexError ["list index out of range"]),
     (h ++ [EvRun cmd None])%list).
Proof.
  intros cmd Hrun Hzero Hdecode Hblank.
  unfold normalized_comparison. fold cmd. unfold bind.
  rewrite (EvaluateFacts.run_completed _ _ _ _ _ Hrun), Hzero. simpl.
  unfold decode, lift_option. rewrite Hdecode. simpl.
  replace (filter (fun line => PyStr.truthy (PyStr.strip line))
                  (PyStr.split_on PyStr.nl output))
    with (@nil string); [reflexivity|].
  induction (PyStr.split_on PyStr.nl output) as [|x l IH]; simpl in *; auto.
  apply andb_prop in Hblank as [Hx Hblank]. apply negb_true_iff in Hx.
  rewrite Hx. auto.
Qed.

Lemma normalized_comparison_no_output_witness :
  normalized_comparison Scenarios.quiet Scenarios.expected_java
                        Scenarios.replayed_java []
  = (inl (mkExn IndexError ["list index out of range"]),
     [EvRun ["spork"; "compare"; to_string Scenarios.expected_java;
             to_string Scenarios.replayed_java] None]).
Proof.
  apply (normalized_comparison_no_output Scenarios.quiet
           Scenarios.expected_java Scenarios.replayed_java []
           (mkProc 0 "" "") "");
    reflexivity.
Defined.

End EvaluateMoreFacts.

(** ** Strings and names *)

Module NamesFacts.

Import Names.

Lemma length_append (a b : string) :
  String.length (a ++ b) = String.length a + String.length b.
Proof. induction a; simpl; auto. Qed.

Lemma append_left_cancel (a x y : string) :
  (a ++ x = a ++ y)%string -> x = y.
Proof. induction a; simpl; intros H; auto. inversion H; auto. Qed.

Lemma append_right_cancel (q x : string) :
  forall y, (x ++ q = y ++ q)%string -> x = y.
Proof.
  induction x as [|c x IH]; intros [|d y] H; simpl in *; auto.
  - apply (f_equal String.length) in H. simpl in H.
    rewrite length_append in H. lia.
  - apply (f_equal String.length) in H. simpl in H.
    rewrite length_append in H. lia.
  - inversion H; subst. f_equal. apply IH. assumption.
Qed.

Lemma split_on_whole sep s :
  contains sep s = false -> PyStr.split_on sep s = [s].
Proof.
  induction s as [|c s IH]; simpl; auto.
  intros H. apply orb_false_iff in H as [Hc H].
  rewrite Hc, IH; auto.
Qed.

Lemma split_on_append sep s rest :
  contains sep s = false ->
  PyStr.split_on sep (s ++ String sep rest) = s :: PyStr.split_on sep rest.
Proof.
  induction s as [|c s IH]; simpl; intros H.
  - rewrite Ascii.eqb_refl. reflexivity.
  - apply orb_false_iff in H as [Hc H]. rewrite Hc, IH; auto.
Qed.

(** Splitting a dotted name gives back the names it was joined from. *)
Lemma split_on_concat sep segs :
  segs <> [] ->
  forallb (fun s => negb (contains sep s)) segs = true ->
  PyStr.split_on sep (String.concat (String sep "") segs) = segs.
Proof.
  induction segs as [|x segs IH]; [congruence|]. intros _ H.
  simpl in H. apply andb_prop in H as [Hx H]. apply negb_true_iff in Hx.
  destruct segs as [|y segs].
  - simpl. apply split_on_whole. exact Hx.
  - change (String.concat (String sep "") (x :: y :: segs))
      with (x ++ String sep (String.concat (String sep "") (y :: segs)))%string.
    rewrite split_on_append by exact Hx. f_equal.
    apply IH; [discriminate | exact H].
Qed.

Lemma startswith_slash s rest :
  contains "/"%char s = false ->
  PyStr.startswith s (String "/"%char rest) = false.
Proof.
  unfold PyStr.startswith. destruct s as [|c s]; [reflexivity|].
  intros H. simpl in H. apply orb_false_iff in H as [Hc _].
  cbn [String.prefix].
  destruct (ascii_dec "/" c) as [E|E]; [|reflexivity].
  subst c. discriminate.
Qed.

(** A proper part is a path of its own. *)
Lemma of_string_part s : path_part s = true -> of_string s = [s].
Proof.
  unfold path_part, of_string. intros H.
  apply andb_prop in H as [H Hslash]. apply andb_prop in H as [He Hd].
  apply negb_true_iff in Hslash, He, Hd.
  rewrite split_on_whole by exact Hslash.
  rewrite !startswith_slash by exact Hslash.
  simpl. rewrite He, Hd. reflexivity.
Qed.

Lemma package_segment_part s : package_segment s = true -> path_part s = true.
Proof.
  unfold package_segment, path_part. intros H.
  apply andb_prop in H as [H Hslash]. apply andb_prop in H as [He Hd].
  rewrite He, Hslash. simpl. rewrite andb_true_r.
  apply negb_true_iff. apply negb_true_iff in Hd.
  destruct (String.eqb_spec s "."); auto. subst. discriminate.
Qed.

Lemma join_parts p s rest :
  path_part s = true -> join p (s :: rest) = (p ++ s :: rest)%list.
Proof.
  intros H. unfold path_part in H. apply andb_prop in H as [_ Hslash].
  apply negb_true_iff in Hslash. unfold join.
  destruct s as [|c s]; [reflexivity|].
  simpl in Hslash. apply orb_false_iff in Hslash as [Hc _].
  destruct c as [[] [] [] [] [] [] [] []]; try reflexivity.
  discriminate.
Qed.

Lemma join_part p s : path_part s = true -> join p [s] = (p ++ [s])%list.
Proof. apply join_parts. Qed.

(** The path of a package: one directory for each name. *)
Lemma of_segments_parts segs :
  forallb path_part segs = true -> of_segments segs = segs.
Proof.
  unfold of_segments.
  assert (H : forall acc,
             forallb path_part segs = true ->
             fold_left (fun a s => join a (of_string s)) segs acc
             = (acc ++ segs)%list).
  { induction segs as [|s segs IH]; intros acc Hall; simpl.
    - rewrite app_nil_r. reflexivity.
    - simpl in Hall. apply andb_prop in Hall as [Hs Hall].
      rewrite of_string_part, join_part by exact Hs.
      rewrite IH by exact Hall. rewrite <- app_assoc. reflexivity. }
  intros Hall. apply (H [] Hall).
Qed.

End NamesFacts.

(** ** Staging and comparing classfiles, further *)

Module StagingFacts.

Import Javautils Names NamesFacts.

(** What [copy_to_pkg_dir] does, by the answers of the file system. *)
Lemma copy_to_pkg_dir_cases w classfile pkg basedir h :
  let dir := join basedir (of_segments (PyStr.split_on "."%char pkg)) in
  let dst := join dir (of_string (name classfile)) in
  let h1 := (h ++ [EvMkdir dir])%list in
  copy_to_pkg_dir w classfile pkg basedir h
  = match mkdir_parents w h dir with
    | Some e => (inl e, h1)
    | None =>
        if path_exists w h1 dst then
          (inl (mkExn FileExistsError
                  [("Classfile " ++ to_string dst
                    ++ " all ready exists!")%string]), h1)
        else
          match shutil_copy w h1 classfile dst with
          | Some e => (inl e, (h1 ++ [EvCopy classfile dst])%list)
          | None => (inr dst, (h1 ++ [EvCopy classfile dst])%list)
          end
    end.
Proof.
  intros dir dst h1. unfold copy_to_pkg_dir. cbv zeta. fold dir dst.
  unfold bind, observe.
  destruct (mkdir_parents w h dir); [reflexivity|]. fold h1.
  destruct (path_exists w h1 dst); [reflexivity|].
  destruct (shutil_copy w h1 classfile dst); reflexivity.
Qed.

(** X7.  [copy_to_pkg_dir] stages a classfile in the directory tree of its
    package: for the package name made of the names [segs] joined by dots,
    the copy goes to the base directory, then one directory for each name,
    then the name of the classfile, and the events are the making of that
    directory and the copy.  For the empty package name the copy goes
    straight into the base directory. *)
Theorem copy_to_pkg_dir_staged_path (w : World) (classfile basedir : Path)
    (segs : list string) (h h' : History) (staged : Path) :
  forallb package_segment segs = true ->
  copy_to_pkg_dir w classfile (String.concat "." segs) basedir h
  = (inr staged, h') ->
  staged = join (basedir ++ segs)%list (of_string (name classfile))
  /\ h' = (h ++ [EvMkdir (basedir ++ segs)%list; EvCopy classfile staged])%list.
Proof.
  intros Hsegs.
  assert (Hdir : join basedir
                   (of_segments
                      (PyStr.split_on "."%char (String.concat "." segs)))
                 = (basedir ++ segs)%list).
  { destruct segs as [|s segs].
    - reflexivity.
    - rewrite split_on_concat; [|discriminate|].
      + rewrite of_segments_parts.
        * simpl in Hsegs. apply andb_prop in Hsegs as [Hs _].
          apply package_segment_part in Hs.
          apply join_parts. exact Hs.
        * rewrite forallb_forall in *. intros x Hx.
          apply package_segment_part. auto.
      + rewrite forallb_forall in *. intros x Hx.
        specialize (Hsegs x Hx). unfold package_segment in Hsegs.
        apply andb_prop in Hsegs as [Hsegs _].
        apply andb_prop in Hsegs as [_ Hdot]. exact Hdot. }
  rewrite copy_to_pkg_dir_cases. cbv zeta. rewrite Hdir.
  destruct (mkdir_parents w h _); [discriminate|].
  destruct (path_exists w _ _); [discriminate|].
  destruct (shutil_copy w _ _ _); [discriminate|].
  intros E. inversion E; subst. split; [reflexivity|].
  rewrite <- app_assoc. reflexivity.
Qed.

Lemma copy_to_pkg_dir_staged_path_witness :
  copy_to_pkg_dir Scenarios.quiet
    (ClassfilePair.replayed Scenarios.main_pair) "org.example"
    ["/"; "eval"; "spork"] []
  = (inr ["/"; "eval"; "spork"; "org"; "example"; "Main.class"],
     [EvMkdir ["/"; "eval"; "spork"; "org"; "example"];
      EvCopy (ClassfilePair.replayed Scenarios.main_pair)
             ["/"; "eval"; "spork"; "org"; "example"; "Main.class"]])
  /\ fst (copy_to_pkg_dir Scenarios.quiet
            (ClassfilePair.replayed Scenarios.main_pair) ""
            ["/"; "eval"; "spork"] [])
     = inr ["/"; "eval"; "spork"; "Main.class"].
Proof.
  split.
  - destruct (copy_to_pkg_dir Scenarios.quiet
                (ClassfilePair.replayed Scenarios.main_pair) "org.example"
                ["/"; "eval"; "spork"] []) as [r h'] eqn:E.
    destruct r as [e|staged]; [vm_compute in E; discriminate|].
    destruct (copy_to_pkg_dir_staged_path Scenarios.quiet
                (ClassfilePair.replayed Scenarios.main_pair)
                ["/"; "eval"; "spork"] ["org"; "example"] [] h' staged
                eq_refl E) as [Hs Hh].
    subst h'. rewrite Hs. reflexivity.
  - destruct (copy_to_pkg_dir Scenarios.quiet
                (ClassfilePair.replayed Scenarios.main_pair) ""
                ["/"; "eval"; "spork"] []) as [r h'] eqn:E.
    destruct r as [e|staged]; [vm_compute in E; discriminate|].
    destruct (copy_to_pkg_dir_staged_path Scenarios.quiet
                (ClassfilePair.replayed Scenarios.main_pair)
                ["/"; "eval"; "spork"] [] [] h' staged eq_refl E)
      as [Hs _].
    simpl. rewrite Hs. reflexivity.
Defined.

(** X8.  [copy_to_pkg_dir] never copies onto a file that is there: every
    copy among the events it adds is a copy of the classfile to a
    destination that did not exist when it was looked at, after the
    directory was made; and when the destination exists the function
    raises FileExistsError and copies nothing. *)
Theorem copy_to_pkg_dir_never_overwrites (w : World) (classfile : Path)
    (pkg : string) (basedir : Path) (h : History) :
  let dir := join basedir (of_segments (PyStr.split_on "."%char pkg)) in
  let dst := join dir (of_string (name classfile)) in
  exists evs,
    snd (copy_to_pkg_dir w classfile pkg basedir h) = (h ++ evs)%list
    /\ (forall src to,
           In (EvCopy src to) evs ->
           src = classfile /\ to = dst
           /\ path_exists w (h ++ [EvMkdir dir])%list dst = false)
    /\ (path_exists w (h ++ [EvMkdir dir])%list dst = true ->
        forall src to, ~ In (EvCopy src to) evs).
Proof.
  intros dir dst. rewrite copy_to_pkg_dir_cases. cbv zeta. fold dir dst.
  destruct (mkdir_parents w h dir).
  - exists [EvMkdir dir]. split; [reflexivity|]. split.
    + intros src to [E|[]]. discriminate.
    + intros _ src to [E|[]]. discriminate.
  - destruct (path_exists w (h ++ [EvMkdir dir])%list dst) eqn:Hex.
    + exists [EvMkdir dir]. split; [reflexivity|]. split.
      * intros src to [E|[]]. discriminate.
      * intros _ src to [E|[]]. discriminate.
    + exists [EvMkdir dir; EvCopy classfile dst]. split.
      * destruct (shutil_copy w _ classfile dst); simpl;
          rewrite <- app_assoc; reflexivity.
      * split; [|discriminate].
        intros src to [E|[E|[]]]; [discriminate|].
        inversion E; subst. auto.
Qed.

(** X9.  A package utility that cannot be run does not stop
    [compare_classfiles]: when the call raises for both files, both package
    names are the empty string, so they count as equal, the replayed
    classfile is staged straight under the directory of the merge driver,
    and the equivalence tool is run on the qualified name made of a dot and
    the stem of the classfile; its exit status gives the verdict. *)
Theorem compare_classfiles_without_package_utility (w : World)
    (pair : ClassfilePair.t) (eval_dir : Path) (merge_driver : string)
    (h : History) (e1 e2 : Exn) (proc : CompletedProcess) (out : string) :
  let expected := ExpectedClassfile.copy_abspath (ClassfilePair.expected pair) in
  let replayed := ClassfilePair.replayed pair in
  let basedir := ExpectedClassfile.copy_basedir (ClassfilePair.expected pair) in
  let replayed_basedir := join basedir (of_string merge_driver) in
  let staged := join replayed_basedir (of_string (name replayed)) in
  let h1 :=
    (h ++ [EvRun ["pkgextractor"; to_string expected] (Some 60);
           EvLog ERROR "error running pkgextractor" (Some e1)])%list in
  let h2 :=
    (h1 ++ [EvRun ["pkgextractor"; to_string replayed] (Some 60);
            EvLog ERROR "error running pkgextractor" (Some e2)])%list in
  let h3 := (h2 ++ [EvMkdir replayed_basedir; EvCopy replayed staged])%list in
  let cmd :=
    ["sootdiff"; "-qname"; ("." ++ stem expected)%string;
     "-reffile"; to_string (join basedir (of_string "expected"));
     "-otherfile"; to_string replayed_basedir] in
  name expected = name replayed ->
  subprocess_run w h ["pkgextractor"; to_string expected] (Some 60)
  = RunRaised e1 ->
  subprocess_run w h1 ["pkgextractor"; to_string replayed] (Some 60)
  = RunRaised e2 ->
  mkdir_parents w h2 replayed_basedir = None ->
  path_exists w (h2 ++ [EvMkdir replayed_basedir])%list staged = false ->
  shutil_copy w (h2 ++ [EvMkdir replayed_basedir])%list replayed staged
  = None ->
  subprocess_run w h3 cmd (Some 30) = Completed proc ->
  PyStr.decode (stdout proc) = Some out ->
  compare_classfiles w pair eval_dir merge_driver h
  = (inr (Some (returncode proc =? 0)%Z),
     (h3 ++ [EvRun cmd (Some 30); EvLog INFO out None])%list).
Proof.
  intros expected replayed basedir replayed_basedir staged h1 h2 h3 cmd
         Hname He Hr Hmk Hex Hcp Hrun Hout.
  assert (Hpkg1 : extract_java_package w expected h = (inr "", h1)).
  { pose proof (JavautilsFacts.extract_java_package_cases w expected h) as H.
    cbv zeta in H. rewrite He in H. rewrite H. unfold h1.
    rewrite <- app_assoc. reflexivity. }
  assert (Hpkg2 : extract_java_package w replayed h1 = (inr "", h2)).
  { pose proof (JavautilsFacts.extract_java_package_cases w replayed h1) as H.
    cbv zeta in H. rewrite Hr in H. rewrite H. unfold h2.
    rewrite <- app_assoc. reflexivity. }
  assert (Hstage : copy_to_pkg_dir w replayed "" replayed_basedir h2
                   = (inr staged, h3)).
  { rewrite copy_to_pkg_dir_cases. cbv zeta.
    change (of_segments (PyStr.split_on "."%char "")) with (@nil string).
    replace (join replayed_basedir []) with replayed_basedir
      by (unfold join; rewrite app_nil_r; reflexivity).
    fold staged. rewrite Hmk, Hex, Hcp. unfold h3.
    rewrite <- app_assoc. reflexivity. }
  rewrite (JavautilsFacts.compare_classfiles_steps w pair eval_dir
             merge_driver h h1 h2 h3 "" "" staged Hname Hpkg1 Hpkg2 Hstage).
  cbn [String.eqb negb]. fold expected basedir replayed_basedir.
  change ("" ++ "." ++ stem expected)%string with ("." ++ stem expected)%string.
  fold cmd. unfold bind, try_except.
  rewrite (EvaluateFacts.run_completed _ _ _ _ _ Hrun).
  unfold decode, lift_option. rewrite Hout. simpl.
  unfold log, emit, ret. rewrite <- app_assoc. reflexivity.
Qed.

Lemma compare_classfiles_without_package_utility_witness :
  compare_classfiles MoreScenarios.no_package_utility Scenarios.main_pair
                     ["/"; "eval"] "spork" []
  = (inr (Some true),
     [EvRun ["pkgextractor"; "/eval/expected/org/example/Main.class"]
            (Some 60);
      EvLog ERROR "error running pkgextractor"
            (Some MoreScenarios.not_installed);
      EvRun ["pkgextractor"; "/repo/target/classes/org/example/Main.class"]
            (Some 60);
      EvLog ERROR "error running pkgextractor"
            (Some MoreScenarios.not_installed);
      EvMkdir ["/"; "eval"; "spork"];
      EvCopy ["/"; "repo"; "target"; "classes"; "org"; "example";
              "Main.class"]
             ["/"; "eval"; "spork"; "Main.class"];
      EvRun ["sootdiff"; "-qname"; ".Main"; "-reffile"; "/eval/expected";
             "-otherfile"; "/eval/spork"] (Some 30);
      EvLog INFO (Scenarios.line "comparing classes") None]).
Proof.
  apply (compare_classfiles_without_package_utility
           MoreScenarios.no_package_utility Scenarios.main_pair
           ["/"; "eval"] "spork" []
           MoreScenarios.not_installed MoreScenarios.not_installed
           (mkProc 0 (Scenarios.line "comparing classes") "")
           (Scenarios.line "comparing classes"));
    reflexivity.
Defined.

End StagingFacts.

(** ** The bytecode comparison as a whole *)

Module BytecodeFacts.

Import Javautils.

(** What a generator over a list has yielded when it ends: a value for
    each item of a prefix of the list, for the whole list when no exception
    ended the generator, for a proper prefix when one did. *)
Lemma for_yield_prefix {A Y} (body : A -> M Y) (f : Y -> A) :
  (forall x h y h', body x h = (inr y, h') -> f y = x) ->
  forall items h ys err h',
    for_yield body items h = ((ys, err), h') ->
    map f ys = firstn (length ys) items
    /\ (err = None -> map f ys = items)
    /\ (err <> None -> length ys < length items).
Proof.
  intros Hbody. induction items as [|x items IH]; intros h ys err h' E.
  - simpl in E. inversion E; subst. repeat split; auto. congruence.
  - simpl in E. destruct (body x h) as [[e|y] h1] eqn:Ex.
    + inversion E; subst. simpl. repeat split; try lia. discriminate.
    + destruct (for_yield body items h1) as [[ys0 e0] h2] eqn:E0.
      inversion E; subst.
      destruct (IH _ _ _ _ E0) as (Hpre & Hall & Hless).
      pose proof (Hbody _ _ _ _ Ex) as Hy.
      simpl. rewrite Hy. repeat split.
      * f_equal. exact Hpre.
      * intros Hnone. f_equal. auto.
      * intros Hsome. apply Hless in Hsome. lia.
Qed.

Lemma compare_pair_yields_its_pair w eval_dir merge_driver pair h y h' :
  compare_pair w eval_dir merge_driver pair h = (inr y, h') -> fst y = pair.
Proof.
  unfold compare_pair. cbv zeta. intros E.
  apply EvaluateMoreFacts.bind_returned in E as (there & h1 & _ & E).
  destruct (negb there).
  - apply EvaluateMoreFacts.bind_returned in E as (? & ? & _ & E).
    inversion E. reflexivity.
  - repeat (apply EvaluateMoreFacts.bind_returned in E as (? & ? & _ & E)).
    inversion E. reflexivity.
Qed.

(** X10.  [compare_compiled_bytecode] yields its verdicts in the order of
    the expected classfiles, one for each: the pairs yielded are the pairs
    of a prefix of the list, each expected classfile paired with its path
    under the replayed base directory; they are the pairs of the whole list
    when the generator ends without exception, and of a proper prefix when
    an exception ends it. *)
Theorem compare_compiled_bytecode_in_order (w : World)
    (replayed_compile_basedir : Path)
    (expected_classfiles : list ExpectedClassfile.t) (eval_dir : Path)
    (merge_driver : string) (h h' : History)
    (yielded : list (ClassfilePair.t * option bool)) (err : option Exn) :
  compare_compiled_bytecode w replayed_compile_basedir expected_classfiles
                            eval_dir merge_driver h
  = ((yielded, err), h') ->
  let pairs :=
    generate_classfile_pairs expected_classfiles replayed_compile_basedir in
  map fst yielded = firstn (length yielded) pairs
  /\ map ClassfilePair.expected (map fst yielded)
     = firstn (length yielded) expected_classfiles
  /\ (err = None -> map fst yielded = pairs)
  /\ (err <> None -> length yielded < length expected_classfiles).
Proof.
  intros E pairs. unfold compare_compiled_bytecode in E.
  destruct (for_yield_prefix _ fst
              (compare_pair_yields_its_pair w eval_dir merge_driver)
              _ _ _ _ _ E) as (Hpre & Hall & Hless).
  fold pairs in Hpre, Hall, Hless.
  split; [exact Hpre|]. split; [|split; [exact Hall|]].
  - rewrite Hpre. unfold pairs, generate_classfile_pairs.
    rewrite <- firstn_map, map_map. simpl. rewrite map_id. reflexivity.
  - intros Hsome. apply Hless in Hsome.
    unfold pairs, generate_classfile_pairs in Hsome.
    rewrite length_map in Hsome. exact Hsome.
Qed.

Lemma compare_compiled_bytecode_in_order_witness :
  exists yielded err h',
    compare_compiled_bytecode Scenarios.quiet Scenarios.repo
      [Scenarios.main_expected; Scenarios.main_expected] ["/"; "eval"]
      "spork" []
    = ((yielded, err), h')
    /\ map fst yielded
       = firstn (length yielded) [Scenarios.main_pair; Scenarios.main_pair].
Proof.
  destruct (compare_compiled_bytecode Scenarios.quiet Scenarios.repo
              [Scenarios.main_expected; Scenarios.main_expected]
              ["/"; "eval"] "spork" []) as [[yielded err] h'] eqn:E.
  exists yielded, err, h'. split; [reflexivity|].
  exact (proj1 (compare_compiled_bytecode_in_order _ _ _ _ _ _ _ _ _ E)).
Defined.

(** X11.  A canonicalization that fails is fatal: when the replayed file
    of the first expected classfile is a [.class] file on disk and the
    canonicalization tool exits with a non-zero status, the generator ends
    with RuntimeError without yielding anything; the pair is not compared
    (no package is extracted, nothing is staged, the equivalence tool is not
    run) and the classfiles that follow are not looked at. *)
Theorem canonicalization_failure_ends_the_run (w : World)
    (replayed_compile_basedir eval_dir : Path) (merge_driver : string)
    (expected : ExpectedClassfile.t) (after : list ExpectedClassfile.t)
    (h : History) (proc : CompletedProcess) :
  let replayed :=
    join replayed_compile_basedir
         (ExpectedClassfile.original_relpath expected) in
  let h1 :=
    (h ++ [EvLog INFO
             ("Removing duplicate checkcasts from replayed revision of "
              ++ name replayed)%string None])%list in
  let cmd := ["duplicate-checkcast-remover"; to_string replayed] in
  is_file w h replayed = true ->
  suffix replayed = ".class" ->
  subprocess_run w h1 cmd (Some 60) = Completed proc ->
  returncode proc <> 0%Z ->
  compare_compiled_bytecode w replayed_compile_basedir (expected :: after)
                            eval_dir merge_driver h
  = (([], Some (mkExn RuntimeError
                  [("Failed to run duplicate-checkast-remover on "
                    ++ to_string replayed)%string])),
     (h1 ++ [EvRun cmd (Some 60)])%list).
Proof.
  intros replayed h1 cmd Hfile Hsuffix Hrun Hcode.
  subst h1 cmd replayed.
  unfold compare_compiled_bytecode, generate_classfile_pairs.
  cbn [map for_yield].
  unfold compare_pair. cbv zeta. unfold bind, observe, log, emit.
  cbn [ClassfilePair.replayed ClassfilePair.expected].
  rewrite Hfile. cbn [negb].
  unfold remove_duplicate_checkcasts. rewrite Hsuffix.
  cbn [String.eqb Ascii.eqb Bool.eqb negb]. unfold bind.
  rewrite (EvaluateFacts.run_completed _ _ _ _ _ Hrun).
  rewrite (EvaluateFacts.Zeqb_false_of_neq _ _ Hcode). reflexivity.
Qed.

Lemma canonicalization_failure_ends_the_run_witness :
  compare_compiled_bytecode Scenarios.failing_tools Scenarios.repo
    [Scenarios.main_expected; Scenarios.main_expected] ["/"; "eval"]
    "spork" []
  = (([], Some (mkExn RuntimeError
                  ["Failed to run duplicate-checkast-remover on /repo/target/classes/org/example/Main.class"])),
     [EvLog INFO
        "Removing duplicate checkcasts from replayed revision of Main.class"
        None;
      EvRun ["duplicate-checkcast-remover";
             "/repo/target/classes/org/example/Main.class"] (Some 60)]).
Proof.
  apply (canonicalization_failure_ends_the_run Scenarios.failing_tools
           Scenarios.repo ["/"; "eval"] "spork" Scenarios.main_expected
           [Scenarios.main_expected] []
           (mkProc 1 "" (Scenarios.line "error: cannot parse input")));
    solve [reflexivity | discriminate].
Defined.

End BytecodeFacts.

(** ** Locating classfiles, further *)

Module LocateFacts.

Import Javautils NamesFacts.


Lemma filterM_nil {A} (p : A -> M bool) h : filterM p [] h = (inr [], h).
Proof. reflexivity. Qed.






(** X13.  When the source file is there but the search finds no classfile
    under the base directory, [locate_classfiles] still asks for the
    package of the source file, logs a warning that no classfile
    corresponds to it, and returns the empty list together with that
    package: the pair of a list and a package name. *)
Theorem locate_classfiles_no_candidates (w : World) (src basedir : Path)
    (h h1 : History) (pkg : string) :
  is_file w h src = true ->
  rglob w h basedir "*.class" = [] ->
  extract_java_package w src h = (inr pkg, h1) ->
  locate_classfiles w src basedir h
  = (inr (ListAndPackage [] pkg),
     (h1 ++ [EvLog WARNING
               ("Found no classfiles corresponding to " ++ to_string src)%string
               None])%list).
Proof.
  intros Hfile Hglob Hpkg. unfold locate_classfiles.
  unfold bind at 1, observe. rewrite Hfile. cbn [negb].
  unfold bind at 1. rewrite Hglob. unfold bind at 1. rewrite filterM_nil.
  rewrite (bind_inr _ _ _ _ _ Hpkg). reflexivity.
Qed.

Lemma locate_classfiles_no_candidates_witness :
  locate_classfiles (Scenarios.same_package 0 (fun _ => true))
                    Scenarios.expected_java Scenarios.repo []
  = (inr (ListAndPackage [] "org.example"),
     [EvRun ["pkgextractor"; to_string Scenarios.expected_java] (Some 60);
      EvLog WARNING
        "Found no classfiles corresponding to /merges/4f2a9c1/Main/Expected.java"
        None]).
Proof.
  apply (locate_classfiles_no_candidates
           (Scenarios.same_package 0 (fun _ => true))
           Scenarios.expected_java Scenarios.repo []
           [EvRun ["pkgextractor"; to_string Scenarios.expected_java]
                  (Some 60)]
           "org.example");
    reflexivity.
Defined.

(** X14.  [_closest_pomfile] looks at the parent directories of a path from
    the nearest to the farthest and asks nothing else of the outside: it
    returns the pomfile of the nearest parent that has one, so that every
    nearer parent has none, and it raises ValueError when no parent has
    one, which includes every path without a parent.  The history is left
    as it was. *)
Theorem closest_pomfile_is_nearest (w : World) (path : Path) (h : History) :
  match _closest_pomfile w path h with
  | (inr pom, h') =>
      h' = h
      /\ exists nearer parent farther,
           parents path = (nearer ++ parent :: farther)%list
           /\ pom = join parent (of_string "pom.xml")
           /\ glob w h parent "pom.xml" <> []
           /\ Forall (fun q => glob w h q "pom.xml" = []) nearer
  | (inl e, h') =>
      h' = h
      /\ exn_class e = ValueError
      /\ Forall (fun q => glob w h q "pom.xml" = []) (parents path)
  end.
Proof.
  unfold _closest_pomfile. generalize (parents path) as candidates.
  induction candidates as [|p rest IH].
  - simpl. repeat split. constructor.
  - cbn [bind observe]. unfold bind at 1, observe at 1.
    destruct (glob w h p "pom.xml") as [|f fs] eqn:Hglob.
    + match goal with
      | |- context [match ?t with pair _ _ => _ end] =>
          destruct t as [[e|pom] h'] eqn:Erest
      end.
      * match type of IH with
        | match ?t with pair _ _ => _ end =>
            replace t with (@inl Exn Path e, h') in IH
        end.
        destruct IH as (Hh & Hclass & Hall).
        repeat split; auto.
      * match type of IH with
        | match ?t with pair _ _ => _ end =>
            replace t with (@inr Exn Path pom, h') in IH
        end.
        destruct IH as (Hh & nearer & parent & farther & Hp & Hpom & Hg & Hall).
        split; [exact Hh|].
        exists (p :: nearer), parent, farther. rewrite Hp.
        repeat split; auto.
    + split; [reflexivity|].
      exists [], p, rest. repeat split; auto. rewrite Hglob. discriminate.
Qed.

Example closest_pomfile_of_maven_project :
  _closest_pomfile MoreScenarios.maven_project MoreScenarios.main_java []
  = (inr ["/"; "repo"; "pom.xml"], [])
  /\ fst (_closest_pomfile MoreScenarios.maven_project ["/"] [])
     = inl (mkExn ValueError ["/ has no parent directory with a pomfile"]).
Proof. split; reflexivity. Qed.

(** What [_from_source_name] returns, by the answer of the disassembler. *)
Lemma from_source_name_cases w classfile src_name h :
  let cmd := ["javap"; to_string classfile] in
  let h' := (h ++ [EvRun cmd (Some 5)])%list in
  _from_source_name w classfile src_name h
  = match subprocess_run w h cmd (Some 5) with
    | RunRaised e =>
        (inr false,
         (h' ++ [EvLog ERROR "error analyzing classfile source" (Some e)])%list)
    | Completed proc =>
        match PyStr.decode (stdout proc) with
        | Some out =>
            (inr (String.eqb
                    (PyStr.strip (hd "" (PyStr.split_on PyStr.nl out)))
                    ("Compiled from " ++ String PyStr.dquote src_name
                     ++ String PyStr.dquote "")%string), h')
        | None =>
            (inl (mkExn UnicodeDecodeError
                    ["utf-8"; "invalid start byte or continuation"]), h')
        end
    end.
Proof.
  intros cmd h'. unfold _from_source_name. fold cmd.
  unfold bind, try_except.
  destruct (subprocess_run w h cmd (Some 5)) as [proc|e] eqn:E.
  - rewrite (EvaluateFacts.run_completed _ _ _ _ _ E). fold h'. simpl.
    unfold decode, lift_option.
    destruct (PyStr.decode (stdout proc)); reflexivity.
  - rewrite (EvaluateFacts.run_raised _ _ _ _ _ E). reflexivity.
Qed.

(** X15.  A classfile is taken to come from at most one source file name:
    when [_from_source_name] accepts a classfile for two source file names
    in the same state of the outside, the two names are equal.  So the
    classfiles of [Something$.java] are not taken for nested types of
    [Something.java]. *)
Theorem from_source_name_one_source (w : World) (classfile : Path)
    (name1 name2 : string) (h h1 h2 : History) :
  _from_source_name w classfile name1 h = (inr true, h1) ->
  _from_source_name w classfile name2 h = (inr true, h2) ->
  name1 = name2.
Proof.
  rewrite !from_source_name_cases. cbv zeta.
  destruct (subprocess_run w h _ (Some 5)) as [proc|e]; [|discriminate].
  destruct (PyStr.decode (stdout proc)) as [out|]; [|discriminate].
  intros E1 E2. injection E1 as H1 _. injection E2 as H2 _.
  apply String.eqb_eq in H1, H2. rewrite H1 in H2.
  injection H2 as H. apply append_right_cancel in H. exact H.
Qed.

Lemma from_source_name_one_source_witness :
  _from_source_name MoreScenarios.maven_project
    (MoreScenarios.classes_dir ++ ["Main$Inner.class"])%list "Main.java" []
  = (inr true,
     [EvRun ["javap"; "/repo/target/classes/org/example/Main$Inner.class"]
            (Some 5)])
  /\ "Main.java" = "Main.java".
Proof.
  split; [reflexivity|].
  eapply (from_source_name_one_source MoreScenarios.maven_project
            (MoreScenarios.classes_dir ++ ["Main$Inner.class"])%list
            "Main.java" "Main.java" []); reflexivity.
Defined.

End LocateFacts.

(** ** Running and evaluating the merges *)

Module EvaluateRunFacts.

Import Evaluate EvaluateRun.

Lemma for_yield_all {A Y} (body : A -> M Y) (P : Y -> Prop) :
  (forall x h y h', body x h = (inr y, h') -> P y) ->
  forall items h ys err h',
    for_yield body items h = ((ys, err), h') -> Forall P ys.
Proof.
  intros Hbody. induction items as [|x items IH]; intros h ys err h' E.
  - inversion E. constructor.
  - simpl in E. destruct (body x h) as [[e|y] h1] eqn:Ex.
    + inversion E. constructor.
    + destruct (for_yield body items h1) as [[ys0 e0] h2] eqn:E0.
      inversion E; subst. constructor; eauto.
Qed.

Lemma for_yield_from_all {A Y} (body : A -> Gen Y) (P : Y -> Prop) :
  (forall x h ys err h', body x h = ((ys, err), h') -> Forall P ys) ->
  forall items h ys err h',
    for_yield_from body items h = ((ys, err), h') -> Forall P ys.
Proof.
  intros Hbody. induction items as [|x items IH]; intros h ys err h' E.
  - inversion E. constructor.
  - simpl in E. destruct (body x h) as [[ys1 [e|]] h1] eqn:Ex.
    + inversion E; subst. eauto.
    + destruct (for_yield_from body items h1) as [[zs e0] h2] eqn:E0.
      inversion E; subst. apply Forall_app. split; eauto.
Qed.

(** A generator over a list ends at the first item whose body raises. *)
Lemma for_yield_stops {A Y} (body : A -> M Y) before x after h ys h1 e h2 :
  for_yield body before h = ((ys, None), h1) ->
  body x h1 = (inl e, h2) ->
  for_yield body (before ++ x :: after)%list h = ((ys, Some e), h2).
Proof.
  intros Hbefore Hx. rewrite (JavautilsFacts.for_yield_app _ _ _ _ _ _ Hbefore).
  simpl. rewrite Hx. rewrite app_nil_r. reflexivity.
Qed.

(** For an outcome other than SUCCESS [evaluation_result] raises without
    doing anything to the outside. *)
Lemma evaluation_result_unsuccessful_raises w merge_result base_merge_dir h :
  MergeResult.outcome merge_result <> SUCCESS ->
  exists e,
    evaluation_result w merge_result base_merge_dir h = (inl e, h).
Proof.
  intros Hout.
  assert (Hneq : outcome_eqb (MergeResult.outcome merge_result) SUCCESS = false)
    by (destruct (MergeResult.outcome merge_result); auto; congruence).
  unfold evaluation_result. rewrite Hneq.
  unfold bind, ret, lift_option, ask, read_local.
  destruct (relative_to _ _) as [d|]; simpl; [|eexists; reflexivity].
  destruct (extract_commit_sha w h d); simpl; eexists; reflexivity.
Qed.

(** X16.  Every evaluation [run_and_evaluate] yields is the evaluation of a
    merge whose outcome is SUCCESS, and none of its four diff sizes is the
    sentinel -1. *)
Theorem run_and_evaluate_yields_successes (w : World)
    (run_file_merges : History -> list Path -> string -> list (M MergeResult.t))
    (merge_dirs : list Path) (merge_commands : list string)
    (base_merge_dir : Path) (h h' : History)
    (evaluations : list MergeEvaluation.t) (err : option Exn) :
  run_and_evaluate w run_file_merges merge_dirs merge_commands base_merge_dir h
  = ((evaluations, err), h') ->
  Forall (fun ev =>
            MergeEvaluation.outcome ev = SUCCESS
            /\ (0 <= MergeEvaluation.gumtree_diff_size ev)%Z
            /\ (0 <= MergeEvaluation.gumtree_diff_size_norm ev)%Z
            /\ (0 <= MergeEvaluation.git_diff_size ev)%Z
            /\ (0 <= MergeEvaluation.git_diff_size_norm ev)%Z)
         evaluations.
Proof.
  unfold run_and_evaluate.
  apply for_yield_from_all. intros merge_cmd h0 ys e0 h1.
  apply for_yield_all. intros step h2 ev h3 E.
  unfold evaluate_next in E.
  apply EvaluateMoreFacts.bind_returned in E as (mr & h4 & _ & E).
  destruct (EvaluateMoreFacts.evaluation_result_only_success _ _ _ _ _ _ E)
    as (_ & Hout & Hgt & Hgtn & Hgd & Hgdn & _).
  auto.
Qed.

(** X17.  One merge that did not succeed ends the whole run.  When the
    merges before it were evaluated without exception and the next merge
    result has an outcome other than SUCCESS, [run_and_evaluate] ends with
    an exception right after that merge result was produced: it has yielded
    the evaluations of the merges before it and nothing else, and neither
    the remaining merges nor the remaining merge commands are run. *)
Theorem unsuccessful_merge_ends_the_run (w : World)
    (run_file_merges : History -> list Path -> string -> list (M MergeResult.t))
    (merge_dirs : list Path) (merge_cmd : string)
    (later_commands : list string) (base_merge_dir : Path)
    (before after : list (M MergeResult.t)) (step : M MergeResult.t)
    (h h1 h2 : History) (evaluations : list MergeEvaluation.t)
    (merge_result : MergeResult.t) :
  run_file_merges h merge_dirs merge_cmd = (before ++ step :: after)%list ->
  for_yield (evaluate_next w base_merge_dir) before h
  = ((evaluations, None), h1) ->
  step h1 = (inr merge_result, h2) ->
  MergeResult.outcome merge_result <> SUCCESS ->
  exists e,
    run_and_evaluate w run_file_merges merge_dirs
                     (merge_cmd :: later_commands) base_merge_dir h
    = ((evaluations, Some e), h2).
Proof.
  intros Hsteps Hbefore Hstep Hout.
  destruct (evaluation_result_unsuccessful_raises w merge_result
              base_merge_dir h2 Hout) as [e He].
  exists e. unfold run_and_evaluate. cbn [for_yield_from].
  rewrite Hsteps.
  rewrite (for_yield_stops _ before step after h evaluations h1 e h2 Hbefore).
  - reflexivity.
  - unfold evaluate_next. rewrite (bind_inr _ _ _ _ _ Hstep). exact He.
Qed.

Lemma unsuccessful_merge_ends_the_run_witness :
  exists evaluation e h2,
    run_and_evaluate Scenarios.conflicting_merge_world
      MoreScenarios.three_merges [Scenarios.merge_dir] ["spork"; "jdime"]
      ["/"; "merges"] []
    = (([evaluation], Some e), h2)
    /\ length h2 = 6.
Proof.
  destruct (for_yield
              (evaluate_next Scenarios.conflicting_merge_world ["/"; "merges"])
              [ret Scenarios.conflicting_merge] [])
    as [[evaluations err] h1] eqn:Hbefore.
  assert (Hshape : exists evaluation,
             evaluations = [evaluation] /\ err = None /\ length h1 = 6).
  { vm_compute in Hbefore. inversion Hbefore; subst.
    eexists. repeat split. }
  destruct Hshape as (evaluation & -> & -> & Hlen).
  destruct (unsuccessful_merge_ends_the_run Scenarios.conflicting_merge_world
              MoreScenarios.three_merges [Scenarios.merge_dir] "spork"
              ["jdime"] ["/"; "merges"]
              [ret Scenarios.conflicting_merge]
              [ret Scenarios.conflicting_merge]
              (ret Scenarios.failed_merge) [] h1 h1 [evaluation]
              Scenarios.failed_merge eq_refl Hbefore eq_refl
              ltac:(discriminate)) as [e He].
  exists evaluation, e, h1. split; [exact He | exact Hlen].
Defined.

Lemma run_and_evaluate_yields_successes_witness :
  exists evaluations err h',
    run_and_evaluate Scenarios.conflicting_merge_world
      MoreScenarios.three_merges [Scenarios.merge_dir] ["spork"; "jdime"]
      ["/"; "merges"] []
    = ((evaluations, err), h')
    /\ Forall (fun ev => MergeEvaluation.outcome ev = SUCCESS) evaluations.
Proof.
  destruct (run_and_evaluate Scenarios.conflicting_merge_world
              MoreScenarios.three_merges [Scenarios.merge_dir]
              ["spork"; "jdime"] ["/"; "merges"] [])
    as [[evaluations err] h'] eqn:E.
  exists evaluations, err, h'. split; [reflexivity|].
  eapply Forall_impl;
    [|exact (run_and_evaluate_yields_successes _ _ _ _ _ _ _ _ _ E)].
  intros ev H. exact (proj1 H).
Defined.

End EvaluateRunFacts.

(** ** Target directories and Maven *)

Module BuildFacts.

Import JavautilsBuild TargetDirs.

(** A list comprehension whose condition only asks: the history stays, and
    the result is the filter by the answers, or the first exception. *)
Lemma filterM_asking {A} (p : A -> M bool) (q : A -> Exn + bool) h :
  (forall x, p x h = (q x, h)) ->
  forall l,
    snd (filterM p l h) = h
    /\ (forallb (fun x => match q x with inr _ => true | inl _ => false end) l
        = true ->
        fst (filterM p l h)
        = inr (filter (fun x => match q x with
                                | inr b => b
                                | inl _ => false
                                end) l))
    /\ (forallb (fun x => match q x with inr _ => true | inl _ => false end) l
        = false ->
        exists e, fst (filterM p l h) = inl e).
Proof.
  intros Hp. induction l as [|x l IH].
  - simpl. repeat split; auto. discriminate.
  - assert (Hstep :
              filterM p (x :: l) h
              = match q x with
                | inl e => (inl e, h)
                | inr b =>
                    match filterM p l h with
                    | (inl e, h1) => (inl e, h1)
                    | (inr tl, h1) => (inr (if b then x :: tl else tl), h1)
                    end
                end).
    { simpl. unfold bind. rewrite Hp. destruct (q x); [reflexivity|].
      destruct (filterM p l h) as [[e|tl] h1]; reflexivity. }
    rewrite Hstep. cbn [forallb filter].
    destruct (q x) as [e|b]; simpl.
    + split; [reflexivity|]. split; [discriminate|]. intros _. eauto.
    + destruct IH as (Hh & Hok & Hbad).
      destruct (filterM p l h) as [[e|tl] h1]; simpl in *; subst h1.
      * split; [reflexivity|]. split.
        -- intros Hall. specialize (Hok Hall). discriminate.
        -- intros _. eauto.
      * split; [reflexivity|]. split.
        -- intros Hall. specialize (Hok Hall). inversion Hok; subst.
           destruct b; reflexivity.
        -- intros Hall. destruct (Hbad Hall) as [e He]. discriminate.
Qed.

Lemma existsb_map_filter {A} (f : A -> bool) (g : A -> string) (s : string)
    (l : list A) :
  existsb (String.eqb s) (map g (filter f l))
  = existsb (fun d => f d && String.eqb s (g d)) l.
Proof.
  induction l as [|x l IH]; simpl; auto.
  destruct (f x); simpl; rewrite IH; reflexivity.
Qed.

Lemma existsb_same {A} (f g : A -> bool) (l : list A) :
  (forall x, f x = g x) -> existsb f l = existsb g l.
Proof. intros H. induction l; simpl; auto. rewrite H, IHl. reflexivity. Qed.

Lemma forallb_same {A} (f g : A -> bool) (l : list A) :
  (forall x, f x = g x) -> forallb f l = forallb g l.
Proof. intros H. induction l; simpl; auto. rewrite H, IHl. reflexivity. Qed.

Lemma existsb_or {A} (f g : A -> bool) (l : list A) :
  existsb f l || existsb g l = existsb (fun x => f x || g x) l.
Proof.
  induction l as [|x l IH]; simpl; auto.
  rewrite <- IH. destruct (f x), (g x), (existsb f l); reflexivity.
Qed.

Lemma contains_class_dirs_asks o path h :
  _contains_class_dirs o path h
  = (match iterdir o h path with
     | inr _ => inr (holds_class_dirs o h path)
     | inl e => inl e
     end, h).
Proof.
  unfold _contains_class_dirs, holds_class_dirs, bind at 1, ask.
  destruct (iterdir o h path) as [e|entries]; [reflexivity|].
  pose proof (filterM_asking
                (fun p => observe (fun h => is_dir o h p))
                (fun p => inr (is_dir o h p)) h
                (fun x => eq_refl) entries) as (Hh & Hok & _).
  unfold bind.
  destruct (filterM _ entries h) as [r h1]. simpl in Hh. subst h1.
  assert (Hall : forallb (fun x : Path =>
                            match (inr (is_dir o h x) : Exn + bool) with
                            | inr _ => true
                            | inl _ => false
                            end) entries = true)
    by (clear; induction entries; simpl; auto).
  specialize (Hok Hall). simpl in Hok. subst r.
  rewrite !existsb_map_filter, existsb_or. unfold ret. f_equal. f_equal.
  apply existsb_same. intros d. destruct (is_dir o h d); reflexivity.
Qed.

(** X18.  [find_target_directories] only asks the outside and does nothing
    to it.  When every directory named [target] that the search finds under
    the project root can be listed, it returns, in the order of the search,
    those of them that hold a directory named [classes] or [test-classes];
    when one of them cannot be listed (it is a file, say), it returns no
    list at all but raises. *)
Theorem find_target_directories_result (w : World) (o : Outside)
    (project_root : Path) (h : History) :
  let targets := rglob w h project_root "target" in
  snd (find_target_directories w o project_root h) = h
  /\ (forallb (listable o h) targets = true ->
      fst (find_target_directories w o project_root h)
      = inr (filter (holds_class_dirs o h) targets))
  /\ (forallb (listable o h) targets = false ->
      exists e, fst (find_target_directories w o project_root h) = inl e).
Proof.
  intros targets.
  assert (Heq : find_target_directories w o project_root h
                = filterM (_contains_class_dirs o) targets h)
    by reflexivity.
  rewrite Heq. clear Heq.
  pose proof (filterM_asking (_contains_class_dirs o)
                (fun t => match iterdir o h t with
                          | inr _ => inr (holds_class_dirs o h t)
                          | inl e => inl e
                          end) h
                (fun t => contains_class_dirs_asks o t h) targets)
    as (Hh & Hok & Hbad).
  assert (Hsame : forallb (fun x => match (match iterdir o h x with
                                           | inr _ => inr (holds_class_dirs o h x)
                                           | inl e => inl e
                                           end : Exn + bool) with
                                    | inr _ => true
                                    | inl _ => false
                                    end) targets
                  = forallb (listable o h) targets).
  { apply forallb_same. intros t. unfold listable.
    destruct (iterdir o h t); reflexivity. }
  rewrite Hsame in Hok, Hbad.
  split; [exact Hh|]. split; [|exact Hbad].
  intros Hall. rewrite (Hok Hall). f_equal.
  apply filter_ext. intros t. unfold holds_class_dirs.
  destruct (iterdir o h t); reflexivity.
Qed.

(** X19.  [mvn_compile] never raises: whatever the call of Maven does, it
    returns a pair.  The first component is True exactly when Maven ran to
    its end with exit status zero, and then the second is Maven's output;
    when the call of Maven itself raises (a timeout, say), the failure is
    logged and the pair is False with empty output.  [mvn_test] has no such
    guard: it returns True exactly when Maven exits with status zero and
    raises whatever the call of Maven raises. *)
Theorem mvn_compile_never_raises (w : World) (o : Outside) (workdir : Path)
    (h : History) :
  let compile := ["mvn"; "clean"; "test-compile"] in
  let test := ["mvn"; "clean"; "test"] in
  (exists ok out h',
      mvn_compile o workdir h = (inr (ok, out), h')
      /\ (ok = true <->
          exists proc,
            subprocess_run_in o h workdir compile (Some 180) = Completed proc
            /\ returncode proc = 0%Z /\ out = stdout proc)
      /\ (forall e,
             subprocess_run_in o h workdir compile (Some 180) = RunRaised e ->
             ok = false /\ out = ""
             /\ h' = (h ++ [EvRun compile (Some 180);
                            EvLog ERROR "error compiling project" (Some e)])%list))
  /\ match subprocess_run_in o h workdir test (Some 300) with
     | Completed proc =>
         mvn_test o workdir h
         = (inr (returncode proc =? 0)%Z, (h ++ [EvRun test (Some 300)])%list)
     | RunRaised e =>
         mvn_test o workdir h = (inl e, (h ++ [EvRun test (Some 300)])%list)
     end.
Proof.
  intros compile test. split.
  - unfold mvn_compile, bind, try_except, run_in.
    change (3 * 60) with 180. fold compile.
    destruct (subprocess_run_in o h workdir compile (Some 180))
      as [proc|e] eqn:E; simpl.
    + do 3 eexists. split; [reflexivity|]. split.
      * split.
        -- intros Hok. exists proc. apply Z.eqb_eq in Hok. auto.
        -- intros (proc' & Hproc & Hzero & _). inversion Hproc; subst.
           apply Z.eqb_eq. exact Hzero.
      * intros e He. discriminate.
    + do 3 eexists. split; [reflexivity|]. split.
      * split; [discriminate|]. intros (proc & Hproc & _). discriminate.
      * intros e' He. inversion He; subst.
        rewrite <- app_assoc. auto.
  - unfold mvn_test, bind, run_in. change (5 * 60) with 300. fold test.
    destruct (subprocess_run_in o h workdir test (Some 300)); reflexivity.
Qed.

(** The target directories of a built project, and its compilation. *)
Example find_target_directories_of_built_project :
  find_target_directories MoreScenarios.built_project_world
                          (MoreScenarios.built_project 0) Scenarios.repo []
  = (inr [["/"; "repo"; "target"]], [])
  /\ mvn_compile (MoreScenarios.built_project 1) Scenarios.repo []
     = (inr (false, Scenarios.line "[INFO] BUILD"),
        [EvRun ["mvn"; "clean"; "test-compile"] (Some 180)]).
Proof. split; reflexivity. Qed.

End BuildFacts.

(** ** The paths of the metainfo files *)

Module CommandFacts.

Import Names NamesFacts Command.

Lemma substring_whole s : String.substring 0 (String.length s) s = s.
Proof. induction s; simpl; congruence. Qed.

Lemma substring_split s :
  forall i, i <= String.length s ->
    (String.substring 0 i s
     ++ String.substring i (String.length s - i) s)%string = s.
Proof.
  induction s as [|c s IH]; intros [|i] Hi; simpl in *; try lia; auto.
  - f_equal. apply substring_whole.
  - f_equal. apply IH. lia.
Qed.

Lemma substring_at_rfind c s :
  forall i, PyStr.rfind c s = Some i ->
    exists t, String.substring i (String.length s - i) s = String c t.
Proof.
  induction s as [|a s IH]; intros i H; simpl in H; [discriminate|].
  destruct (PyStr.rfind c s) as [j|] eqn:Hr.
  - inversion H; subst. simpl. apply IH. reflexivity.
  - destruct (Ascii.eqb_spec a c); [|discriminate].
    inversion H; subst. simpl. eexists. reflexivity.
Qed.

Lemma contains_append c a b :
  contains c (a ++ b) = contains c a || contains c b.
Proof.
  induction a as [|x a IH]; simpl; auto. rewrite IH, orb_assoc. reflexivity.
Qed.

Lemma contains_substring c s :
  forall n m, contains c s = false -> contains c (String.substring n m s) = false.
Proof.
  induction s as [|a s IH]; intros [|n] [|m] H; simpl in *; auto;
    apply orb_false_iff in H as [Ha H]; try rewrite Ha; simpl; auto.
Qed.

(** The name of a path is its stem followed by its suffix, and the suffix
    is empty or begins with a dot. *)
Lemma name_stem_suffix p : name p = (stem p ++ suffix p)%string.
Proof.
  unfold stem, suffix. destruct (suffix_index (name p)) as [i|] eqn:Hi.
  - symmetry. apply substring_split.
    unfold suffix_index in Hi.
    destruct (PyStr.rfind "." (name p)); [|discriminate].
    destruct ((0 <? n) && (n <? String.length (name p) - 1)) eqn:Hb;
      [|discriminate].
    inversion Hi; subst. apply andb_prop in Hb as [_ Hb].
    apply Nat.ltb_lt in Hb. lia.
  - clear. induction (name p); simpl; congruence.
Qed.

Lemma suffix_dot p : suffix p = "" \/ exists t, suffix p = String "."%char t.
Proof.
  unfold suffix. destruct (suffix_index (name p)) as [i|] eqn:Hi; auto.
  right. unfold suffix_index in Hi.
  destruct (PyStr.rfind "." (name p)) as [j|] eqn:Hr; [|discriminate].
  destruct ((0 <? j) && (j <? String.length (name p) - 1)); [|discriminate].
  inversion Hi; subst. apply substring_at_rfind. exact Hr.
Qed.

Lemma name_last p :
  name p
  = (if String.eqb (last p "") "/" || String.eqb (last p "") "//" then ""
     else last p "").
Proof.
  unfold name. destruct p as [|x p] using rev_ind; [reflexivity|].
  rewrite rev_app_distr, last_last. reflexivity.
Qed.

(** A string without slash is no root. *)
Lemma no_slash_not_root s :
  contains "/"%char s = false ->
  String.eqb s "/" || String.eqb s "//" = false.
Proof.
  intros H.
  destruct (String.eqb_spec s "/") as [->|_]; [discriminate|].
  destruct (String.eqb_spec s "//") as [->|_]; [discriminate|].
  reflexivity.
Qed.

Lemma proper_parts p x :
  proper_path p = true -> In x p -> x = "/" \/ path_part x = true.
Proof.
  unfold proper_path. intros Hp Hx.
  assert (Hall : forallb path_part p = true -> path_part x = true)
    by (intros H; rewrite forallb_forall in H; auto).
  destruct p as [|y p]; [destruct Hx|].
  destruct (String.eqb_spec y "/") as [->|Hy].
  - destruct Hx as [<-|Hx]; auto.
    rewrite forallb_forall in Hp. auto.
  - right. apply Hall.
    destruct y as [|c y]; [exact Hp|].
    destruct c as [[] [] [] [] [] [] [] []]; try exact Hp.
    destruct y; [congruence | exact Hp].
Qed.

Lemma proper_name p :
  proper_path p = true -> contains "/"%char (name p) = false.
Proof.
  intros Hp. rewrite name_last.
  destruct (String.eqb_spec (last p "") "/"); [reflexivity|].
  destruct (String.eqb (last p "") "//"); [reflexivity|]. cbn [orb].
  destruct p as [|y p]; [reflexivity|].
  destruct (proper_parts (y :: p) (last (y :: p) "") Hp) as [E|Hpart].
  - destruct (exists_last (l := y :: p)) as (l' & a & E);
      [discriminate|]. rewrite E, last_last. apply in_or_app. right. left.
    reflexivity.
  - congruence.
  - unfold path_part in Hpart. apply andb_prop in Hpart as [_ H].
    apply negb_true_iff. exact H.
Qed.

(** A path of two parts or more is no root: its parent drops the last
    part. *)
Lemma parent_longer y z l : parent (y :: z :: l) = removelast (y :: z :: l).
Proof.
  unfold parent. destruct y as [|c y]; [reflexivity|].
  destruct c as [[] [] [] [] [] [] [] []]; try reflexivity.
  destruct y as [|c y]; [reflexivity|].
  destruct c as [[] [] [] [] [] [] [] []]; try reflexivity.
  destruct y; reflexivity.
Qed.

Lemma parent_snoc l x :
  contains "/"%char x = false -> parent (l ++ [x])%list = l.
Proof.
  intros Hx. destruct l as [|y l].
  - unfold parent. simpl. destruct x as [|c x]; [reflexivity|].
    simpl in Hx. apply orb_false_iff in Hx as [Hc _].
    destruct c as [[] [] [] [] [] [] [] []]; try reflexivity.
    discriminate.
  - replace (y :: l) with (removelast ((y :: l) ++ [x])) at 2
      by apply removelast_last.
    simpl app. destruct (l ++ [x])%list as [|z l'] eqn:E.
    + exfalso. eapply app_cons_not_nil. symmetry. exact E.
    + apply parent_longer.
Qed.

(** The file beside [p] whose name is a stem followed by [tail]. *)
Lemma beside_path p base tail :
  contains "/"%char base = false ->
  contains "/"%char tail = false ->
  2 <= String.length tail ->
  join (parent p) (of_string (base ++ tail)) = (parent p ++ [(base ++ tail)%string])%list
  /\ contains "/"%char (base ++ tail) = false.
Proof.
  intros Hbase Htail Hlen.
  assert (Hpart : path_part (base ++ tail) = true).
  { unfold path_part. rewrite contains_append, Hbase, Htail. simpl.
    rewrite andb_true_r.
    assert (Hl : 2 <= String.length (base ++ tail))
      by (rewrite length_append; lia).
    destruct (String.eqb_spec (base ++ tail) "") as [E|_];
      [rewrite E in Hl; simpl in Hl; lia|].
    destruct (String.eqb_spec (base ++ tail) ".") as [E|_];
      [rewrite E in Hl; simpl in Hl; lia|].
    reflexivity. }
  split.
  - rewrite of_string_part by exact Hpart. apply join_part. exact Hpart.
  - rewrite contains_append, Hbase, Htail. reflexivity.
Qed.

Lemma stem_no_slash p :
  proper_path p = true -> contains "/"%char (stem p) = false.
Proof.
  intros Hp. unfold stem. destruct (suffix_index (name p)).
  - apply contains_substring. apply proper_name. exact Hp.
  - apply proper_name. exact Hp.
Qed.

(** A file beside [p] named by the stem of [p] and a tail that is not a
    suffix is not [p] itself. *)
Lemma beside_is_another p tail c t :
  tail = String c t -> c <> "."%char ->
  contains "/"%char (stem p ++ tail) = false ->
  (parent p ++ [(stem p ++ tail)%string])%list <> p.
Proof.
  intros Htail Hc Hroot E.
  assert (Hlast : last p "" = (stem p ++ tail)%string).
  { rewrite <- E at 1. apply last_last. }
  assert (Hname : name p = (stem p ++ tail)%string).
  { rewrite name_last, Hlast, (no_slash_not_root _ Hroot). reflexivity. }
  rewrite name_stem_suffix in Hname. apply append_left_cancel in Hname.
  destruct (suffix_dot p) as [Hs|[t' Hs]]; rewrite Hs in Hname; subst tail;
    [discriminate|]. inversion Hname. congruence.
Qed.

(** X20.  For every output path, the two metainfo files lie in the
    directory of the output file and are named by the stem of the output
    file followed by [_blob_metainfo.csv] and [_file_merge_metainfo.csv]:
    they are two different files, and neither is the output file itself,
    so writing the metainfo never overwrites the results or the other
    metainfo. *)
Theorem metainfo_paths_apart (base_output_path : Path) :
  proper_path base_output_path = true ->
  let blob := blob_metainfo_path base_output_path in
  let file_merge := file_merge_metainfo_path base_output_path in
  blob = (parent base_output_path
          ++ [(stem base_output_path ++ "_blob_metainfo.csv")%string])%list
  /\ file_merge
     = (parent base_output_path
        ++ [(stem base_output_path ++ "_file_merge_metainfo.csv")%string])%list
  /\ parent blob = parent base_output_path
  /\ parent file_merge = parent base_output_path
  /\ blob <> file_merge
  /\ blob <> base_output_path
  /\ file_merge <> base_output_path.
Proof.
  intros Hp blob file_merge.
  pose proof (stem_no_slash _ Hp) as Hstem.
  destruct (beside_path base_output_path (stem base_output_path)
              "_blob_metainfo.csv" Hstem eq_refl ltac:(simpl; lia))
    as [Hblob Hblob_root].
  destruct (beside_path base_output_path (stem base_output_path)
              "_file_merge_metainfo.csv" Hstem eq_refl ltac:(simpl; lia))
    as [Hfile Hfile_root].
  fold (blob_metainfo_path base_output_path) in Hblob.
  fold (file_merge_metainfo_path base_output_path) in Hfile.
  fold blob in Hblob. fold file_merge in Hfile.
  split; [exact Hblob|]. split; [exact Hfile|].
  split; [rewrite Hblob; apply parent_snoc; exact Hblob_root|].
  split; [rewrite Hfile; apply parent_snoc; exact Hfile_root|].
  split; [|split].
  - rewrite Hblob, Hfile. intros E. apply app_inv_head in E.
    inversion E as [E']. apply append_left_cancel in E'. discriminate.
  - rewrite Hblob.
    eapply beside_is_another; [reflexivity | discriminate | exact Hblob_root].
  - rewrite Hfile.
    eapply beside_is_another; [reflexivity | discriminate | exact Hfile_root].
Qed.

Lemma metainfo_paths_apart_witness :
  proper_path ["/"; "results"; "spork.csv"] = true
  /\ blob_metainfo_path ["/"; "results"; "spork.csv"]
     = ["/"; "results"; "spork_blob_metainfo.csv"]
  /\ file_merge_metainfo_path ["/"; "results"; "spork.csv"]
     = ["/"; "results"; "spork_file_merge_metainfo.csv"]
  /\ blob_metainfo_path ["/"; "results"; "spork.csv"]
     <> ["/"; "results"; "spork.csv"].
Proof.
  split; [reflexivity|].
  destruct (metainfo_paths_apart ["/"; "results"; "spork.csv"] eq_refl)
    as (Hblob & Hfile & _ & _ & _ & Hother & _).
  split; [exact Hblob|]. split; [exact Hfile | exact Hother].
Defined.

End CommandFacts.

(** ** The selection of merge scenarios *)

Module RunExperimentsFacts.

Import Names NamesFacts RunExperiments.

Lemma split_on_parts sep s :
  forall x, In x (PyStr.split_on sep s) -> contains sep x = false.
Proof.
  induction s as [|c s IH]; simpl; intros x Hx.
  - destruct Hx as [<-|[]]. reflexivity.
  - destruct (Ascii.eqb c sep) eqn:Hc.
    + destruct Hx as [<-|Hx]; auto.
    + destruct (PyStr.split_on sep s) as [|y l] eqn:Hs.
      * destruct Hx as [<-|[]]. simpl. rewrite Hc. reflexivity.
      * destruct Hx as [<-|Hx].
        -- simpl. rewrite Hc. apply IH. left. reflexivity.
        -- apply IH. right. exact Hx.
Qed.

Lemma non_blank_line text x :
  In x (non_blank_lines text) ->
  PyStr.truthy (PyStr.strip x) = true /\ contains PyStr.nl x = false.
Proof.
  unfold non_blank_lines. intros H. apply filter_In in H as [Hin Hx].
  split; [exact Hx|]. eapply split_on_parts. exact Hin.
Qed.

(** What [select_merge_scenarios] does, by the answers of the outside. *)
Lemma select_merge_scenarios_cases host path limit t :
  let t1 := (t ++ [OpReadText path])%list in
  select_merge_scenarios host path limit t
  = match read_text host t path with
    | inl e => (inl e, t1)
    | inr text =>
        match non_blank_lines text with
        | [] =>
            (inl (mkExn ValueError
                    ["not enough values to unpack (expected at least 1, got 0)"]),
             t1)
        | headers :: scenario_lines =>
            let num := Z.of_nat (length scenario_lines) in
            if (num <=? limit)%Z then (inr num, t1)
            else
              let t2 := (t1 ++ [OpCopy path (backup_path path)])%list in
              match copy host t1 path (backup_path path) with
              | Some e => (inl e, t2)
              | None =>
                  let t3 := (t2 ++ [OpChoice scenario_lines limit])%list in
                  match random_choice host t2 scenario_lines limit with
                  | inl e => (inl e, t3)
                  | inr selection =>
                      let lines :=
                        String.concat (String PyStr.nl "")
                                      ([headers] ++ selection ++ [""])%list in
                      let t4 := (t3 ++ [OpWriteText path lines])%list in
                      match write_text host t3 path lines with
                      | Some e => (inl e, t4)
                      | None => (inr limit, t4)
                      end
                  end
              end
        end
    end.
Proof.
  intros t1. unfold select_merge_scenarios, io_bind at 1, io_ask at 1.
  fold t1. destruct (read_text host t path) as [e|text]; [reflexivity|].
  destruct (non_blank_lines text) as [|headers scenario_lines];
    [reflexivity|].
  cbv zeta.
  destruct (Z.of_nat (length scenario_lines) <=? limit)%Z; [reflexivity|].
  unfold io_bind, io_do, io_ask, io_ret.
  destruct (copy host t1 path (backup_path path)); [reflexivity|].
  destruct (random_choice host _ scenario_lines limit) as [e|selection];
    [reflexivity|].
  destruct (write_text host _ path _); reflexivity.
Qed.

(** X21.  When the file holds no more scenarios than the limit,
    [select_merge_scenarios] leaves it alone: it returns the number of
    scenarios, the non-blank lines after the header line, and the only
    thing it does is read the file; no backup is made, nothing is drawn
    and nothing is written. *)
Theorem select_within_limit_leaves_the_file (host : Host) (path : Path)
    (limit : Z) (t : list Op) (text headers : string)
    (scenario_lines : list string) :
  read_text host t path = inr text ->
  non_blank_lines text = headers :: scenario_lines ->
  (Z.of_nat (length scenario_lines) <= limit)%Z ->
  select_merge_scenarios host path limit t
  = (inr (Z.of_nat (length scenario_lines)), (t ++ [OpReadText path])%list).
Proof.
  intros Hread Hlines Hle. rewrite select_merge_scenarios_cases. cbv zeta.
  rewrite Hread, Hlines. apply Z.leb_le in Hle. rewrite Hle. reflexivity.
Qed.

Lemma select_within_limit_leaves_the_file_witness :
  select_merge_scenarios
    (MoreScenarios.scenario_host MoreScenarios.three_scenarios)
    MoreScenarios.scenarios_csv MAX_SCENARIOS_PER_PROJECT []
  = (inr 3%Z, [OpReadText MoreScenarios.scenarios_csv]).
Proof.
  apply (select_within_limit_leaves_the_file
           (MoreScenarios.scenario_host MoreScenarios.three_scenarios)
           MoreScenarios.scenarios_csv MAX_SCENARIOS_PER_PROJECT []
           MoreScenarios.three_scenarios "merge_commit"
           ["4f2a9c1"; "9e107d9"; "c0ffee1"]);
    [reflexivity | reflexivity | vm_compute; discriminate].
Defined.

(** X22.  A file without any non-blank line, not even a header, makes
    [select_merge_scenarios] raise ValueError when it takes the header off
    the lines; the file was read and nothing else was done. *)
Theorem select_from_blank_file_raises (host : Host) (path : Path) (limit : Z)
    (t : list Op) (text : string) :
  read_text host t path = inr text ->
  forallb (fun line => negb (PyStr.truthy (PyStr.strip line)))
          (PyStr.split_on PyStr.nl text) = true ->
  select_merge_scenarios host path limit t
  = (inl (mkExn ValueError
            ["not enough values to unpack (expected at least 1, got 0)"]),
     (t ++ [OpReadText path])%list).
Proof.
  intros Hread Hblank. rewrite select_merge_scenarios_cases. cbv zeta.
  rewrite Hread.
  replace (non_blank_lines text) with (@nil string); [reflexivity|].
  unfold non_blank_lines.
  induction (PyStr.split_on PyStr.nl text) as [|x l IH]; simpl in *; auto.
  apply andb_prop in Hblank as [Hx Hblank]. apply negb_true_iff in Hx.
  rewrite Hx. auto.
Qed.

Lemma select_from_blank_file_raises_witness :
  select_merge_scenarios
    (MoreScenarios.scenario_host (Scenarios.line "" ++ Scenarios.line "  "))
    MoreScenarios.scenarios_csv 50 []
  = (inl (mkExn ValueError
            ["not enough values to unpack (expected at least 1, got 0)"]),
     [OpReadText MoreScenarios.scenarios_csv]).
Proof.
  apply (select_from_blank_file_raises
           (MoreScenarios.scenario_host
              (Scenarios.line "" ++ Scenarios.line "  "))
           MoreScenarios.scenarios_csv 50 []
           (Scenarios.line "" ++ Scenarios.line "  ")%string);
    reflexivity.
Defined.

(** X23.  Whenever [select_merge_scenarios] returns, it returns the
    smaller of the number of scenarios in the file and the limit. *)
Theorem select_returns_the_smaller (host : Host) (path : Path) (limit : Z)
    (t t' : list Op) (n : Z) :
  select_merge_scenarios host path limit t = (inr n, t') ->
  exists text headers scenario_lines,
    read_text host t path = inr text
    /\ non_blank_lines text = headers :: scenario_lines
    /\ n = Z.min (Z.of_nat (length scenario_lines)) limit.
Proof.
  rewrite select_merge_scenarios_cases. cbv zeta.
  destruct (read_text host t path) as [e|text]; [discriminate|].
  destruct (non_blank_lines text) as [|headers scenario_lines] eqn:Hlines;
    [discriminate|].
  destruct (Z.leb_spec (Z.of_nat (length scenario_lines)) limit) as [Hle|Hgt].
  - intros E. inversion E; subst. exists text, headers, scenario_lines.
    split; [reflexivity|]. split; [exact Hlines | lia].
  - destruct (copy host _ path _); [discriminate|].
    destruct (random_choice host _ _ _); [discriminate|].
    destruct (write_text host _ _ _); [discriminate|].
    intros E. inversion E; subst. exists text, headers, scenario_lines.
    split; [reflexivity|]. split; [exact Hlines | lia].
Qed.

Lemma select_returns_the_smaller_witness :
  exists t',
    select_merge_scenarios
      (MoreScenarios.scenario_host MoreScenarios.three_scenarios)
      MoreScenarios.scenarios_csv 2 []
    = (inr 2%Z, t')
    /\ 2%Z = Z.min 3 2.
Proof.
  destruct (select_merge_scenarios
              (MoreScenarios.scenario_host MoreScenarios.three_scenarios)
              MoreScenarios.scenarios_csv 2 []) as [[e|n] t'] eqn:E;
    [vm_compute in E; discriminate|].
  destruct (select_returns_the_smaller _ _ _ _ _ _ E)
    as (text & headers & scenario_lines & Hread & Hlines & Hn).
  inversion Hread; subst text. vm_compute in Hlines.
  inversion Hlines; subst. exists t'. split; reflexivity.
Defined.

(** X24.  [select_merge_scenarios] never writes without a backup: whatever
    the outside answers, if a write is among the operations it performs,
    then it is the last of them, it is a write to the file of the
    scenarios, and before it the file was copied to its backup path and
    that copy did not raise. *)
Theorem select_writes_only_after_backup (host : Host) (path : Path)
    (limit : Z) (t : list Op) :
  exists ops,
    snd (select_merge_scenarios host path limit t) = (t ++ ops)%list
    /\ forall before p text after,
         ops = (before ++ OpWriteText p text :: after)%list ->
         p = path /\ after = []
         /\ In (OpCopy path (backup_path path)) before
         /\ copy host (t ++ [OpReadText path])%list path (backup_path path)
            = None.
Proof.
  rewrite select_merge_scenarios_cases. cbv zeta.
  assert (Hno1 : forall a before p text after,
             [a] = (before ++ OpWriteText p text :: after)%list ->
             exists q, a = OpWriteText q text)
    by (intros a [|b [|? ?]] p text after H; inversion H; eauto).
  destruct (read_text host t path) as [e|text].
  { exists [OpReadText path]. split; [reflexivity|].
    intros before p text after H. apply Hno1 in H as [q H]. discriminate. }
  destruct (non_blank_lines text) as [|headers scenario_lines].
  { exists [OpReadText path]. split; [reflexivity|].
    intros before p text' after H. apply Hno1 in H as [q H]. discriminate. }
  destruct (Z.of_nat (length scenario_lines) <=? limit)%Z.
  { exists [OpReadText path]. split; [reflexivity|].
    intros before p text' after H. apply Hno1 in H as [q H]. discriminate. }
  destruct (copy host _ path (backup_path path)) eqn:Hcopy.
  { exists [OpReadText path; OpCopy path (backup_path path)].
    split; [simpl; rewrite <- app_assoc; reflexivity|].
    intros [|a [|b [|? ?]]] p text' after H; inversion H. }
  destruct (random_choice host _ scenario_lines limit) as [e|selection].
  { exists [OpReadText path; OpCopy path (backup_path path);
            OpChoice scenario_lines limit].
    split; [simpl; rewrite <- !app_assoc; reflexivity|].
    intros [|a [|b [|c [|? ?]]]] p text' after H; inversion H. }
  match goal with
  | |- context [write_text host ?t3 path ?lines] =>
      exists [OpReadText path; OpCopy path (backup_path path);
              OpChoice scenario_lines limit; OpWriteText path lines];
      split; [destruct (write_text host t3 path lines); simpl;
              rewrite <- !app_assoc; reflexivity|]
  end.
  intros [|a [|b [|c [|d [|? ?]]]]] p text' after H; inversion H; subst.
  repeat split; auto. simpl. auto.
Qed.

Lemma filter_all {A} (f : A -> bool) l :
  (forall x, In x l -> f x = true) -> filter f l = l.
Proof.
  induction l as [|x l IH]; simpl; intros H; auto.
  rewrite (H x) by auto. f_equal. apply IH. auto.
Qed.

(** The text that is written, read back: its non-blank lines are the
    header and the scenarios drawn. *)
Lemma written_text_read_back text headers scenario_lines selection :
  non_blank_lines text = headers :: scenario_lines ->
  Forall (fun s => In s scenario_lines) selection ->
  non_blank_lines
    (String.concat (String PyStr.nl "") ([headers] ++ selection ++ [""])%list)
  = headers :: selection.
Proof.
  intros Hlines Hsel. rewrite Forall_forall in Hsel.
  assert (Hline : forall x, In x (headers :: selection) ->
                            PyStr.truthy (PyStr.strip x) = true
                            /\ contains PyStr.nl x = false).
  { intros x Hx. apply (non_blank_line text). rewrite Hlines.
    destruct Hx as [<-|Hx]; [left; reflexivity | right; auto]. }
  unfold non_blank_lines at 1. rewrite split_on_concat.
  - change ([headers] ++ selection ++ [""])%list
      with ((headers :: selection) ++ [""])%list.
    rewrite filter_app. simpl filter at 2. rewrite app_nil_r.
    apply filter_all. intros x Hx. apply Hline. exact Hx.
  - discriminate.
  - change ([headers] ++ selection ++ [""])%list
      with ((headers :: selection) ++ [""])%list.
    rewrite forallb_app. apply andb_true_intro. split; [|reflexivity].
    apply forallb_forall. intros x Hx. apply negb_true_iff.
    apply Hline. exact Hx.
Qed.

(** X25.  When the file holds more scenarios than the limit and the backup,
    the draw and the write succeed, [select_merge_scenarios] copies the
    file to its backup path, draws [limit] scenarios from the scenario
    lines, writes the header line and the drawn lines back, each with a
    line end, and returns the limit.  When the drawn lines are lines of the
    file, reading the written text back gives the header and exactly the
    drawn lines, so that a further selection from the written file, when
    no more than [limit] lines were drawn, reads it and leaves it alone. *)
Theorem select_beyond_limit_rewrites_the_file (host : Host) (path : Path)
    (limit : Z) (t : list Op) (text headers : string)
    (scenario_lines selection : list string) :
  let written :=
    String.concat (String PyStr.nl "")
                  ([headers] ++ selection ++ [""])%list in
  let t1 := (t ++ [OpReadText path])%list in
  let t2 := (t1 ++ [OpCopy path (backup_path path)])%list in
  let t3 := (t2 ++ [OpChoice scenario_lines limit])%list in
  read_text host t path = inr text ->
  non_blank_lines text = headers :: scenario_lines ->
  (limit < Z.of_nat (length scenario_lines))%Z ->
  copy host t1 path (backup_path path) = None ->
  random_choice host t2 scenario_lines limit = inr selection ->
  write_text host t3 path written = None ->
  Forall (fun s => In s scenario_lines) selection ->
  select_merge_scenarios host path limit t
  = (inr limit, (t3 ++ [OpWriteText path written])%list)
  /\ non_blank_lines written = headers :: selection
  /\ forall host' t',
       read_text host' t' path = inr written ->
       (Z.of_nat (length selection) <= limit)%Z ->
       select_merge_scenarios host' path limit t'
       = (inr (Z.of_nat (length selection)), (t' ++ [OpReadText path])%list).
Proof.
  intros written t1 t2 t3 Hread Hlines Hgt Hcopy Hchoice Hwrite Hsel.
  pose proof (written_text_read_back _ _ _ _ Hlines Hsel) as Hback.
  fold written in Hback.
  split; [|split; [exact Hback|]].
  - rewrite select_merge_scenarios_cases. cbv zeta. rewrite Hread, Hlines.
    apply Z.leb_gt in Hgt. rewrite Hgt.
    fold t1. rewrite Hcopy. fold t2. rewrite Hchoice. fold written t3.
    rewrite Hwrite. reflexivity.
  - intros host' t' Hread' Hle. rewrite select_merge_scenarios_cases.
    cbv zeta. rewrite Hread', Hback. apply Z.leb_le in Hle. rewrite Hle.
    reflexivity.
Qed.

Lemma select_beyond_limit_rewrites_the_file_witness :
  select_merge_scenarios
    (MoreScenarios.scenario_host MoreScenarios.three_scenarios)
    MoreScenarios.scenarios_csv 2 []
  = (inr 2%Z,
     [OpReadText MoreScenarios.scenarios_csv;
      OpCopy MoreScenarios.scenarios_csv
             ["merge_dirs"; "kth_spork"; "merge_scenarios.csv.bak"];
      OpChoice ["4f2a9c1"; "9e107d9"; "c0ffee1"] 2;
      OpWriteText MoreScenarios.scenarios_csv
        (Scenarios.line "merge_commit" ++ Scenarios.line "4f2a9c1"
         ++ Scenarios.line "9e107d9")])
  /\ non_blank_lines
       (Scenarios.line "merge_commit" ++ Scenarios.line "4f2a9c1"
        ++ Scenarios.line "9e107d9")
     = ["merge_commit"; "4f2a9c1"; "9e107d9"].
Proof.
  destruct (select_beyond_limit_rewrites_the_file
              (MoreScenarios.scenario_host MoreScenarios.three_scenarios)
              MoreScenarios.scenarios_csv 2 []
              MoreScenarios.three_scenarios "merge_commit"
              ["4f2a9c1"; "9e107d9"; "c0ffee1"] ["4f2a9c1"; "9e107d9"]
              eq_refl eq_refl eq_refl eq_refl eq_refl eq_refl
              ltac:(apply Forall_forall; intros s [<-|[<-|[]]];
                    simpl; auto))
    as (Hrun & Hback & _).
  split; [exact Hrun | exact Hback].
Defined.

(** X26.  The backup of the scenarios file is made beside it, under its
    name followed by [.bak], and is never the file itself. *)
Theorem backup_path_is_another_file (path : Path) :
  proper_path path = true ->
  backup_path path
  = (Command.parent path ++ [(name path ++ ".bak")%string])%list
  /\ Command.parent (backup_path path) = Command.parent path
  /\ backup_path path <> path.
Proof.
  intros Hp.
  destruct (CommandFacts.beside_path path (name path) ".bak"
              (CommandFacts.proper_name _ Hp) eq_refl ltac:(simpl; lia))
    as [Hbackup Hroot].
  fold (backup_path path) in Hbackup.
  split; [exact Hbackup|]. split.
  - rewrite Hbackup. apply CommandFacts.parent_snoc. exact Hroot.
  - rewrite Hbackup. intros E.
    assert (Hlast : last path "" = (name path ++ ".bak")%string)
      by (rewrite <- E at 1; apply last_last).
    pose proof (CommandFacts.name_last path) as Hname.
    rewrite Hlast, (CommandFacts.no_slash_not_root _ Hroot) in Hname.
    apply (f_equal String.length) in Hname.
    rewrite length_append in Hname. simpl in Hname. lia.
Qed.

Lemma backup_path_is_another_file_witness :
  proper_path MoreScenarios.scenarios_csv = true
  /\ backup_path MoreScenarios.scenarios_csv
     = ["merge_dirs"; "kth_spork"; "merge_scenarios.csv.bak"]
  /\ backup_path MoreScenarios.scenarios_csv <> MoreScenarios.scenarios_csv.
Proof.
  split; [reflexivity|].
  destruct (backup_path_is_another_file MoreScenarios.scenarios_csv eq_refl)
    as (Hbackup & _ & Hother).
  split; [exact Hbackup | exact Hother].
Defined.

End RunExperimentsFacts.
